(** * PyKokkos: type inference for dispatch arguments and the signature string

    A shallow embedding of
      - [pykokkos/interface/args_type_inference.py]
        ([handle_args], [get_annotations], [infer_policy_args],
        [infer_other_args], [get_pk_datatype], [get_types_sig]) and
      - [pykokkos/kokkos_manager/__init__.py]
        (the [CONSTANTS] table with its getters and setters),
    followed by the properties of the specification that concern them.

    Python values are represented by an inductive type that keeps what the
    code inspects: the class of the value ([isinstance], [type(v).__name__],
    [type(v).__module__]) and the attributes it reads.  A [dict] is an
    association list in insertion order; exceptions are the left summand of
    a sum type. *)

From Stdlib Require Import String Ascii List ZArith Lia Bool Floats.
From Stdlib Require Import DecimalString FinFun.
Import ListNotations.

Local Open Scope list_scope.
Local Open Scope string_scope.

(** ** Python strings *)

Module PyStr.

(** [sub in s]. *)
Fixpoint contains (sub s : string) : bool :=
    String.prefix sub s
    || match s with
       | EmptyString => false
       | String _ s' => contains sub s'
       end.

(** [s.replace(old, new)] for a non-empty [old], which is the case at
      every call site: the occurrences of [old] are found from left to
      right and do not overlap.  [skip] counts the characters of the
      occurrence just replaced that are still to be dropped. *)
Fixpoint replace_from (old new : string) (skip : nat) (s : string) : string :=
    match s with
    | EmptyString => EmptyString
    | String c s' =>
        match skip with
        | S k => replace_from old new k s'
        | O =>
            if String.prefix old s
            then new ++ replace_from old new (String.length old - 1) s'
            else String c (replace_from old new 0 s')
        end
    end.

Definition replace (old new s : string) : string :=
    replace_from old new 0 s.

(** [s.startswith(p)]. *)
Definition startswith (p s : string) : bool := String.prefix p s.

(** [str(n)] for a non-negative integer. *)
Definition str_nat (n : nat) : string :=
    NilZero.string_of_uint (Nat.to_uint n).

(** [x in l] for a list of strings. *)
Definition mem (x : string) (l : list string) : bool :=
    existsb (String.eqb x) l.

End PyStr.

(** ** Python dictionaries

    Since Python 3.7 a [dict] iterates in insertion order, and assigning to
    a key that is present keeps the key's position.  [get_types_sig] reads
    that order, so the model is an association list. *)

Module Dict.

Section WithValue.
Context {V : Type}.

Definition t := list (string * V).

Definition empty : t := [].

    (** [d[k] = v]. *)
Fixpoint set (d : t) (k : string) (v : V) : t :=
      match d with
      | [] => [(k, v)]
      | (k', v') :: d' =>
          if String.eqb k' k then (k, v) :: d' else (k', v') :: set d' k v
      end.

    (** [d.get(k)]. *)
Fixpoint get (d : t) (k : string) : option V :=
      match d with
      | [] => None
      | (k', v') :: d' => if String.eqb k' k then Some v' else get d' k
      end.

    (** [k in d]. *)
Definition mem (d : t) (k : string) : bool :=
      match get d k with Some _ => true | None => false end.

    (** [len(d)]. *)
Definition len (d : t) : nat := List.length d.

    (** [d.keys()]. *)
Definition keys (d : t) : list string := map fst d.

    (** The keys of a dictionary are distinct. *)
Definition wf (d : t) : Prop := NoDup (keys d).

End WithValue.

Arguments t : clear implicits.

End Dict.

(** ** The signature string: [get_types_sig] *)

(** The compacting steps of [get_types_sig], lines 311-321. *)
Definition compact (signature : string) : string :=
  let signature := PyStr.replace "View" "" signature in
  let signature := PyStr.replace "Acc:" "" signature in
  let signature := PyStr.replace "TeamMember" "T" signature in
  let signature := PyStr.replace "numpy:" "np" signature in
  let signature := PyStr.replace "LayoutRight" "R" signature in
  let signature := PyStr.replace "LayoutLeft" "L" signature in
  let signature := PyStr.replace ":" "" signature in
  let signature := PyStr.replace "double" "d" signature in
  let signature := PyStr.replace "int" "i" signature in
  let signature := PyStr.replace "bool" "b" signature in
  let signature := PyStr.replace "float" "f" signature in
  signature.

(** The first loop of [get_types_sig], lines 299-303. *)
Definition types_loop (inferred_types inferred_layouts : Dict.t string) : string :=
  fold_left
    (fun signature '(name, i_type) =>
       let signature := signature ++ i_type in
       if PyStr.contains "View" i_type && Dict.mem inferred_layouts name
       then signature ++ match Dict.get inferred_layouts name with
                         | Some l => l
                         | None => ""
                         end
       else signature)
    inferred_types "".

(** The second loop of [get_types_sig], lines 307-308. *)
Definition layouts_loop (signature : string) (inferred_layouts : Dict.t string) : string :=
  fold_left
    (fun signature '(name, l_type) => signature ++ name ++ l_type)
    inferred_layouts signature.

(** [get_types_sig(inferred_types, inferred_layouts)]; [None] is Python's
    [None]. *)
Definition get_types_sig (inferred_types inferred_layouts : Dict.t string)
  : option string :=
  if Nat.eqb (Dict.len inferred_layouts) 0 && Nat.eqb (Dict.len inferred_types) 0
  then None
  else
    let signature := types_loop inferred_types inferred_layouts in
    (* if there were no inferred types but only layouts *)
    let signature :=
      if String.eqb signature ""
      then layouts_loop signature inferred_layouts
      else signature in
    Some (compact signature).

(** ** The objects the inference inspects *)

(** [ExecutionSpace] is declared in [interface/execution_space.py]; the
    code names the members [OpenMP] and [Debug], any other member is kept
    by its name. *)
Inductive ExecutionSpace :=
| OpenMP
| Debug
| OtherSpace (member : string).

(** [Layout] is declared in [interface/layout.py]: the two memory layouts
    and the member that stands for "not chosen". *)
Inductive Layout :=
| LayoutLeft
| LayoutRight
| LayoutDefault.

Definition Layout_eqb (a b : Layout) : bool :=
  match a, b with
  | LayoutLeft, LayoutLeft | LayoutRight, LayoutRight
  | LayoutDefault, LayoutDefault => true
  | _, _ => false
  end.

(** What [view.dtype] can hold, as [get_pk_datatype] tells it apart: a
    member of the [DataType] enumeration (with its [name]), a class that
    derives from [DataTypeClass] (with its [__name__]), or anything else. *)
Inductive DTypeObject :=
| DataType_member (name : string)
| DataTypeClass_subclass (name : string)
| not_a_datatype.

(** The attributes of a [View] that [infer_other_args] reads. *)
Module View.
Record t := mk {
    layout : Layout;
    dtype : DTypeObject;
    shape : list Z
  }.
End View.

(** The execution policies of [interface/execution_policy.py], each with
    the attributes read here: [space] and, for [MDRangePolicy], [begin].
    [OtherPolicy] is an instance of any other subclass of
    [ExecutionPolicy]. *)
Inductive ExecutionPolicy :=
| RangePolicy (space : ExecutionSpace) (begin end_ : Z)
| MDRangePolicy (space : ExecutionSpace) (begin end_ : list Z)
| TeamPolicy (space : ExecutionSpace)
| TeamThreadRange (space : ExecutionSpace)
| OtherPolicy (class_name : string) (space : ExecutionSpace).

Definition policy_space (p : ExecutionPolicy) : ExecutionSpace :=
  match p with
  | RangePolicy s _ _ | MDRangePolicy s _ _ | TeamPolicy s
  | TeamThreadRange s | OtherPolicy _ s => s
  end.

Definition policy_class_name (p : ExecutionPolicy) : string :=
  match p with
  | RangePolicy _ _ _ => "RangePolicy"
  | MDRangePolicy _ _ _ => "MDRangePolicy"
  | TeamPolicy _ => "TeamPolicy"
  | TeamThreadRange _ => "TeamThreadRange"
  | OtherPolicy c _ => c
  end.

(** An [inspect.Parameter]: [annotation = None] stands for
    [inspect._empty], the parameter has no declared type. *)
Module Param.
Record t := mk {
    name : string;
    annotation : option string
  }.
End Param.

(** A class object, as [set_default_precision] receives one:
    [is_DataTypeClass] is [issubclass(c, DataTypeClass)]. *)
Module Class.
Record t := mk {
    name : string;
    is_DataTypeClass : bool
  }.
End Class.

(** The built-in or PyKokkos class an instance of some other class
    derives from, when it does: [numpy.float64] derives from [float], an
    [IntEnum] member from [int] (and carries its integer value), a
    [Subview] from [ViewType]. *)
Inductive Base :=
| base_object
| base_int (n : Z)
| base_float
| base_str
| base_ViewType.

(** An instance of a class that is none of those below:
    [type(v).__name__], [type(v).__module__] and the base. *)
Module Instance.
Record t := mk {
    type_name : string;
    type_module : string;
    base : Base
  }.
End Instance.

(** Python values. *)
Inductive PyValue :=
| PyInt (n : Z)
| PyBool (b : bool)
| PyFloat (x : float)
| PyStr (s : string)
| PyView (v : View.t)
| PyPolicy (p : ExecutionPolicy)
| PyFunction (parameters : list Param.t)
| PyExecutionSpace (s : ExecutionSpace)
| PyClass (c : Class.t)
| PyObject (o : Instance.t).

(** [isinstance(v, str)]. *)
Definition isinstance_str (v : PyValue) : bool :=
  match v with
  | PyStr _ => true
  | PyObject o => match Instance.base o with base_str => true | _ => false end
  | _ => false
  end.

(** [isinstance(v, ViewType)]; [View] derives from [ViewType]. *)
Definition isinstance_ViewType (v : PyValue) : bool :=
  match v with
  | PyView _ => true
  | PyObject o => match Instance.base o with base_ViewType => true | _ => false end
  | _ => false
  end.

(** [isinstance(v, View)], with the view. *)
Definition isinstance_View (v : PyValue) : option View.t :=
  match v with
  | PyView w => Some w
  | _ => None
  end.

(** [isinstance(v, int)], with the integer; [bool] derives from [int]. *)
Definition isinstance_int (v : PyValue) : option Z :=
  match v with
  | PyInt n => Some n
  | PyBool b => Some (Z.b2z b)
  | PyObject o => match Instance.base o with base_int n => Some n | _ => None end
  | _ => None
  end.

(** [isinstance(v, (int, float))]. *)
Definition isinstance_int_float (v : PyValue) : bool :=
  match isinstance_int v with
  | Some _ => true
  | None =>
      match v with
      | PyFloat _ => true
      | PyObject o => match Instance.base o with base_float => true | _ => false end
      | _ => false
      end
  end.

(** [type(v).__name__]. *)
Definition type_name (v : PyValue) : string :=
  match v with
  | PyInt _ => "int"
  | PyBool _ => "bool"
  | PyFloat _ => "float"
  | PyStr _ => "str"
  | PyView _ => "View"
  | PyPolicy p => policy_class_name p
  | PyFunction _ => "function"
  | PyExecutionSpace _ => "ExecutionSpace"
  | PyClass _ => "type"
  | PyObject o => Instance.type_name o
  end.

(** [type(v).__module__]. *)
Definition type_module (v : PyValue) : string :=
  match v with
  | PyInt _ | PyBool _ | PyFloat _ | PyStr _ | PyFunction _ | PyClass _ => "builtins"
  | PyView _ => "pykokkos.interface.views"
  | PyPolicy _ => "pykokkos.interface.execution_policy"
  | PyExecutionSpace _ => "pykokkos.interface.execution_space"
  | PyObject o => Instance.type_module o
  end.

(** [int.bit_length]: the number of bits of the absolute value. *)
Definition int_bit_length (n : Z) : Z :=
  if Z.eqb n 0 then 0 else Z.log2 (Z.abs n) + 1.

(** ** Exceptions

    The exceptions the two files raise, one constructor per [raise] or
    [assert] with what its message reports, and those Python raises on
    its own for an absent attribute, an index out of range, an object that
    is not callable and a first argument of [issubclass] that is not a
    class. *)
Inductive Exception :=
| TypeError_wrong_arguments (unpacked : list PyValue)
| ValueError_incorrect_number_of_arguments (n : nat)
| ValueError_policy_not_supported
| AssertionError_unannotated_arguments_mismatch (parameters arguments : Z)
| TypeError_numpy_type_unsupported (param_type : string)
| TypeError_cannot_infer_datatype_for_view (param_name : string)
| IndexError
| AttributeError (attribute : string)
| TypeError_not_callable
| TypeError_issubclass_arg_1_must_be_a_class.

Definition result (A : Type) : Type := Exception + A.

Definition Ok {A : Type} (a : A) : result A := inr a.
Definition Raise {A : Type} (e : Exception) : result A := inl e.

Definition bind {A B : Type} (r : result A) (k : A -> result B) : result B :=
  match r with
  | inl e => inl e
  | inr a => k a
  end.

Notation "x <- r ;; k" := (bind r (fun x => k))
  (at level 61, r at next level, right associativity).

(** [for a in l: s = body(a, s)], stopping at the first exception. *)
Fixpoint for_each {A S : Type} (body : A -> S -> result S) (l : list A) (s : S)
  : result S :=
  match l with
  | [] => Ok s
  | a :: l' => s' <- body a s ;; for_each body l' s'
  end.

(** [range(lo, hi)]. *)
Definition range (lo hi : Z) : list Z :=
  map (fun k => lo + Z.of_nat k)%Z (seq 0 (Z.to_nat (hi - lo))).

(** [l[i]]: a negative index counts from the end, an index outside the
    list raises [IndexError]. *)
Definition getitem {A : Type} (l : list A) (i : Z) : result A :=
  let n := Z.of_nat (List.length l) in
  let j := if (i <? 0)%Z then (n + i)%Z else i in
  if (j <? 0)%Z then Raise IndexError
  else match nth_error l (Z.to_nat j) with
       | Some a => Ok a
       | None => Raise IndexError
       end.

(** A call raised. *)
Definition raises {A : Type} (r : result A) : Prop :=
  exists e, r = Raise e.

(** ** [kokkos_manager]

    The module-level table [CONSTANTS] with the entries of plain data (the
    handles of the bound Kokkos modules are left out), the environment
    variables of the process and what was printed. *)
Module km.

Record Constants := mkConstants {
  EXECUTION_SPACE : ExecutionSpace;
  REAL_DTYPE : PyValue;
  IS_INITIALIZED : bool;
  ENABLE_UVM : bool;
  MULTI_GPU : bool;
  NUM_GPUS : Z;
  DEVICE_ID : Z
}.

Record Process := mkProcess {
  environ : Dict.t string;
  CONSTANTS : Constants;
  stdout : list string
}.

(** The class [double] of [interface/data_types.py]. *)
Definition double : Class.t := Class.mk "double" true.

(** [CONSTANTS] as the module body leaves it without CUDA devices. *)
Definition initial_CONSTANTS : Constants :=
  mkConstants OpenMP (PyClass double) false false false 0 0.

(** [get_default_space()]. *)
Definition get_default_space (p : Process) : ExecutionSpace :=
  match Dict.get (environ p) "DEBUG" with
  | Some (String _ _) => Debug
  | _ => EXECUTION_SPACE (CONSTANTS p)
  end.

(** [print(line)]. *)
Definition print (line : string) (p : Process) : Process :=
  mkProcess (environ p) (CONSTANTS p) (stdout p ++ [line])%list.

(** [set_default_space(space)]: the outcome of the call and the process
    after it. *)
Definition set_default_space (space : PyValue) (p : Process)
  : result unit * Process :=
  match space with
  | PyExecutionSpace s =>
      let c := CONSTANTS p in
      (Ok tt,
       mkProcess (environ p)
         (mkConstants s (REAL_DTYPE c) (IS_INITIALIZED c) (ENABLE_UVM c)
            (MULTI_GPU c) (NUM_GPUS c) (DEVICE_ID c))
         (stdout p))
  | _ => (Ok tt, print "ERROR: space is not an ExecutionSpace" p)
  end.

(** [get_default_precision()]. *)
Definition get_default_precision (p : Process) : PyValue :=
  REAL_DTYPE (CONSTANTS p).

(** [issubclass(v, DataTypeClass)]: Python raises [TypeError] when [v] is
    not a class. *)
Definition issubclass_DataTypeClass (v : PyValue) : result bool :=
  match v with
  | PyClass c => Ok (Class.is_DataTypeClass c)
  | _ => Raise TypeError_issubclass_arg_1_must_be_a_class
  end.

(** [set_default_precision(precision)]. *)
Definition set_default_precision (precision : PyValue) (p : Process)
  : result unit * Process :=
  match issubclass_DataTypeClass precision with
  | inl e => (Raise e, p)
  | inr is_subclass =>
      if negb is_subclass
      then (Ok tt, print "ERROR: precision is not a DataType" p)
      else
        let c := CONSTANTS p in
        (Ok tt,
         mkProcess (environ p)
           (mkConstants (EXECUTION_SPACE c) precision (IS_INITIALIZED c)
              (ENABLE_UVM c) (MULTI_GPU c) (NUM_GPUS c) (DEVICE_ID c))
           (stdout p))
  end.

End km.

(** ** [args_type_inference] *)

(** The dataclass [HandledArgs]; [None] in [name] and [view] is Python's
    [None]. *)
Module HandledArgs.
Record t := mk {
  name : option PyValue;
  policy : PyValue;
  workunit : PyValue;
  view : option PyValue;
  initial_value : PyValue
}.
End HandledArgs.

(** The dataclass [UpdatedTypes]. *)
Module UpdatedTypes.
Record t := mk {
  workunit : PyValue;
  inferred_types : Dict.t string;
  param_list : list Param.t;
  layout_change : Dict.t string;
  types_signature : option string
}.

(** [updated_types.inferred_types[k] = v]. *)
Definition set_inferred_type (u : t) (k v : string) : t :=
  mk (workunit u) (Dict.set (inferred_types u) k v) (param_list u)
     (layout_change u) (types_signature u).

(** [updated_types.layout_change[k] = v]. *)
Definition set_layout_change (u : t) (k v : string) : t :=
  mk (workunit u) (inferred_types u) (param_list u)
     (Dict.set (layout_change u) k v) (types_signature u).

(** [updated_types.types_signature = s]. *)
Definition set_types_signature (u : t) (s : option string) : t :=
  mk (workunit u) (inferred_types u) (param_list u) (layout_change u) s.
End UpdatedTypes.

(** What the two files import and this development does not have the
    text of: the attribute names of the [DataType] enumeration,
    [dir(DataType)] (from [interface/data_types.py]), and
    [get_default_layout] (from [interface/layout.py]). *)
Class Externals := {
  DataType_dir : list string;
  get_default_layout : ExecutionSpace -> Layout
}.

(** Line 38. *)
Definition SUPPORTED_NP_DTYPES `{Externals} : list string :=
  (filter (fun attr => negb (PyStr.startswith "__" attr)) DataType_dir
   ++ ["float64"; "float32"])%list.

(** Lines 59-95 of [handle_args]: the values bound to [name], [policy],
    [workunit], [view] and [initial_value]. *)
Definition bind_arguments (is_for : bool) (unpacked : list PyValue)
  : result (option PyValue * PyValue * PyValue * option PyValue * PyValue) :=
  let name : option PyValue := None in
  let view : option PyValue := None in
  let initial_value := PyInt 0 in
  match unpacked with
  | [u0; u1] => Ok (name, u0, u1, view, initial_value)
  | [u0; u1; u2] =>
      if isinstance_str u0 then Ok (Some u0, u1, u2, view, initial_value)
      else if is_for && isinstance_ViewType u2 then Ok (name, u0, u1, Some u2, initial_value)
      else if isinstance_int_float u2 then Ok (name, u0, u1, view, u2)
      else Raise (TypeError_wrong_arguments unpacked)
  | [u0; u1; u2; u3] =>
      if isinstance_str u0 then
        if is_for && isinstance_ViewType u3 then Ok (Some u0, u1, u2, Some u3, initial_value)
        else if isinstance_int_float u3 then Ok (Some u0, u1, u2, view, u3)
        else Raise (TypeError_wrong_arguments unpacked)
      else Raise (TypeError_wrong_arguments unpacked)
  | _ => Raise (ValueError_incorrect_number_of_arguments (List.length unpacked))
  end.

(** Lines 97-98 of [handle_args]. *)
Definition normalize_policy (process : km.Process) (policy : PyValue) : PyValue :=
  match isinstance_int policy with
  | Some n => PyPolicy (RangePolicy (km.get_default_space process) 0 n)
  | None => policy
  end.

(** [handle_args(is_for, args)], in a process whose default space it
    reads. *)
Definition handle_args (process : km.Process) (is_for : bool)
    (unpacked : list PyValue) : result HandledArgs.t :=
  bound <- bind_arguments is_for unpacked ;;
  let '(name, policy, workunit, view, initial_value) := bound in
  let policy := normalize_policy process policy in
  Ok (HandledArgs.mk name policy workunit view initial_value).

(** The body of the loop of [infer_policy_args], lines 177-204, for the
    index [i] and the parameter [param = param_list[i]]. *)
Definition infer_policy_arg (policy_params : Z) (policy : PyValue)
    (parallel_type : string) (i : Z) (param : Param.t)
    (updated_types : UpdatedTypes.t) : result UpdatedTypes.t :=
  match Param.annotation param with
  | Some _ => Ok updated_types
  | None =>
      (* Check policy and apply annotation(s) *)
      updated_types <-
        match policy with
        | PyPolicy (RangePolicy _ _ _) | PyPolicy (TeamThreadRange _) =>
            Ok (if (i =? 0)%Z
                then UpdatedTypes.set_inferred_type updated_types (Param.name param) "int"
                else updated_types)
        | PyPolicy (TeamPolicy _) =>
            Ok (if (i =? 0)%Z
                then UpdatedTypes.set_inferred_type updated_types (Param.name param) "TeamMember"
                else updated_types)
        | PyPolicy (MDRangePolicy _ begin _) =>
            let total_dims := Z.of_nat (List.length begin) in
            Ok (if (i <? total_dims)%Z
                then UpdatedTypes.set_inferred_type updated_types (Param.name param) "int"
                else updated_types)
        | _ => Raise ValueError_policy_not_supported
        end ;;
      let updated_types :=
        if (i =? policy_params - 1)%Z && (parallel_type =? "parallel_reduce")
           || (i =? policy_params - 2)%Z && (parallel_type =? "parallel_scan")
        then UpdatedTypes.set_inferred_type updated_types (Param.name param) "Acc:double"
        else updated_types in
      let updated_types :=
        if (i =? policy_params - 1)%Z && (parallel_type =? "parallel_scan")
        then UpdatedTypes.set_inferred_type updated_types (Param.name param) "bool"
        else updated_types in
      Ok updated_types
  end.

(** [infer_policy_args(param_list, policy_params, policy, parallel_type,
    updated_types)]. *)
Definition infer_policy_args (param_list : list Param.t) (policy_params : Z)
    (policy : PyValue) (parallel_type : string)
    (updated_types : UpdatedTypes.t) : result UpdatedTypes.t :=
  for_each
    (fun i updated_types =>
       param <- getitem param_list i ;;
       infer_policy_arg policy_params policy parallel_type i param updated_types)
    (range 0 policy_params) updated_types.

(** [get_pk_datatype(view_dtype)]; [None] is Python's [None]. *)
Definition get_pk_datatype (view_dtype : DTypeObject) : option string :=
  let dtype :=
    match view_dtype with
    | DataType_member name => Some name
    | DataTypeClass_subclass name => Some name
    | not_a_datatype => None
    end in
  let dtype :=
    match dtype with
    | Some "float64" => Some "double"
    | _ => dtype
    end in
  let dtype :=
    match dtype with
    | Some "float32" => Some "float"
    | _ => dtype
    end in
  dtype.

(** [value.bit_length()]: the method of [int] and of the classes that
    derive from it. *)
Definition bit_length (value : PyValue) : result Z :=
  match isinstance_int value with
  | Some n => Ok (int_bit_length n)
  | None => Raise (AttributeError "bit_length")
  end.

(** The tag stored in [layout_change], lines 233-234. *)
Definition layout_tag `{Externals} (space : ExecutionSpace) (v : View.t) : string :=
  let inferred_layout :=
    if negb (Layout_eqb (View.layout v) LayoutDefault)
    then View.layout v
    else get_default_layout space in
  if Layout_eqb inferred_layout LayoutRight then "LayoutRight" else "LayoutLeft".

(** Lines 239-263 of [infer_other_args]: the type inferred for the value
    bound to the parameter [param]. *)
Definition infer_param_type `{Externals} (param : Param.t) (value : PyValue)
  : result string :=
  let param_type := type_name value in
  (* switch integer values over 31 bits (signed positive value) to numpy:int64 *)
  param_type <-
    (if param_type =? "int"
     then n <- bit_length value ;;
          Ok (if (n >? 31)%Z then "numpy:int64" else param_type)
     else Ok param_type) ;;
  (* check if package name is numpy (handling numpy primitives) *)
  let pckg_name := type_module value in
  param_type <-
    (if pckg_name =? "numpy"
     then
       if negb (PyStr.mem param_type SUPPORTED_NP_DTYPES)
       then Raise (TypeError_numpy_type_unsupported param_type)
       else
         let param_type := if param_type =? "float64" then "double" else param_type in
         let param_type := if param_type =? "float32" then "float" else param_type in
         Ok (pckg_name ++ ":" ++ param_type)
     else Ok param_type) ;;
  match isinstance_View value with
  | Some v =>
      match get_pk_datatype (View.dtype v) with
      | None | Some "" =>
          Raise (TypeError_cannot_infer_datatype_for_view (Param.name param))
      | Some view_dtype =>
          Ok ("View" ++ PyStr.str_nat (List.length (View.shape v)) ++ "D:" ++ view_dtype)
      end
  | None => Ok param_type
  end.

(** The body of the loop of [infer_other_args], lines 229-265, for the
    parameter [param = param_list[i]] and the value bound to it. *)
Definition infer_other_arg `{Externals} (space : ExecutionSpace)
    (param : Param.t) (value : PyValue) (updated_types : UpdatedTypes.t)
  : result UpdatedTypes.t :=
  let updated_types :=
    match isinstance_View value with
    | Some v =>
        UpdatedTypes.set_layout_change updated_types (Param.name param)
          (layout_tag space v)
    | None => updated_types
    end in
  match Param.annotation param with
  | Some _ => Ok updated_types
  | None =>
      param_type <- infer_param_type param value ;;
      Ok (UpdatedTypes.set_inferred_type updated_types (Param.name param) param_type)
  end.

(** [infer_other_args(param_list, policy_params, args_list, start_idx,
    space, updated_types)]. *)
Definition infer_other_args `{Externals} (param_list : list Param.t)
    (policy_params : Z) (args_list : list PyValue) (start_idx : Z)
    (space : ExecutionSpace) (updated_types : UpdatedTypes.t)
  : result UpdatedTypes.t :=
  for_each
    (fun i updated_types =>
       param <- getitem param_list i ;;
       value <- getitem args_list (start_idx + i - policy_params) ;;
       infer_other_arg space param value updated_types)
    (range policy_params (Z.of_nat (List.length param_list))) updated_types.

(** [inspect.signature(workunit).parameters.values()]. *)
Definition signature_parameters (workunit : PyValue) : result (list Param.t) :=
  match workunit with
  | PyFunction parameters => Ok parameters
  | _ => Raise TypeError_not_callable
  end.

(** Lines 117-124 of [get_annotations]. *)
Definition count_policy_params (parallel_type : string) (policy : PyValue) : Z :=
  let policy_params :=
    match policy with
    | PyPolicy (MDRangePolicy _ begin _) => Z.of_nat (List.length begin)
    | _ => 1%Z
    end in
  (* accumulator *)
  let policy_params :=
    if parallel_type =? "parallel_reduce" then (policy_params + 1)%Z else policy_params in
  (* accumulator + lass_pass *)
  let policy_params :=
    if parallel_type =? "parallel_scan" then (policy_params + 2)%Z else policy_params in
  policy_params.

(** Lines 135-139 of [get_annotations]: the keyword arguments are queued
    behind the positional ones, in the order of the parameters. *)
Definition queue_kwargs (param_list : list Param.t) (policy_params : Z)
    (args_list : list PyValue) (passed_kwargs : Dict.t PyValue) : list PyValue :=
  if negb (Nat.eqb (Dict.len passed_kwargs) 0)
  then
    fold_left
      (fun args_list param =>
         match Dict.get passed_kwargs (Param.name param) with
         | Some value => (args_list ++ [value])%list
         | None => args_list
         end)
      (skipn (Z.to_nat policy_params) param_list) args_list
  else args_list.

(** Line 143 of [get_annotations]. *)
Definition value_index (handled_args : HandledArgs.t) : Z :=
  match HandledArgs.name handled_args with
  | Some _ => 3%Z
  | None => 2%Z
  end.

(** [handled_args.policy.space]; an object that is not an execution
    policy is taken to have no such attribute. *)
Definition getattr_space (policy : PyValue) : result ExecutionSpace :=
  match policy with
  | PyPolicy p => Ok (policy_space p)
  | _ => Raise (AttributeError "space")
  end.

(** [get_annotations(parallel_type, handled_args, args,
    passed_kwargs=passed_kwargs)]; the result [None] is Python's [None]. *)
Definition get_annotations `{Externals} (parallel_type : string)
    (handled_args : HandledArgs.t) (args : list PyValue)
    (passed_kwargs : Dict.t PyValue) : result (option UpdatedTypes.t) :=
  param_list <- signature_parameters (HandledArgs.workunit handled_args) ;;
  let args_list := args in
  let updated_types :=
    UpdatedTypes.mk (HandledArgs.workunit handled_args) Dict.empty param_list
      Dict.empty None in
  let policy_params := count_policy_params parallel_type (HandledArgs.policy handled_args) in
  (* Handling policy parameters *)
  updated_types <-
    infer_policy_args param_list policy_params (HandledArgs.policy handled_args)
      parallel_type updated_types ;;
  (* Policy parameters are the only parameters *)
  if (Z.of_nat (List.length param_list) =? policy_params)%Z
  then
    if Nat.eqb (Dict.len (UpdatedTypes.inferred_types updated_types)) 0
    then Ok None
    else Ok (Some updated_types)
  else
    let args_list := queue_kwargs param_list policy_params args_list passed_kwargs in
    let value_idx := value_index handled_args in
    if negb (Z.of_nat (List.length param_list) - policy_params
             =? Z.of_nat (List.length args_list) - value_idx)%Z
    then Raise (AssertionError_unannotated_arguments_mismatch
                  (Z.of_nat (List.length param_list) - policy_params)
                  (Z.of_nat (List.length args_list) - value_idx))
    else
      space <- getattr_space (HandledArgs.policy handled_args) ;;
      updated_types <-
        infer_other_args param_list policy_params args_list value_idx space
          updated_types ;;
      if Nat.eqb (Dict.len (UpdatedTypes.inferred_types updated_types)) 0
         && Nat.eqb (Dict.len (UpdatedTypes.layout_change updated_types)) 0
      then Ok None
      else
        Ok (Some (UpdatedTypes.set_types_signature updated_types
                    (get_types_sig (UpdatedTypes.inferred_types updated_types)
                       (UpdatedTypes.layout_change updated_types)))).

(** ** The signature as the specification words it *)

(** The contractions, in the order the specification lists them. *)
Definition spec_contractions : list (string * string) :=
  [("View", ""); ("Acc:", ""); ("TeamMember", "T"); ("numpy:", "np");
   ("LayoutRight", "R"); ("LayoutLeft", "L"); (":", "");
   ("double", "d"); ("int", "i"); ("bool", "b"); ("float", "f")].

Definition spec_contract (s : string) : string :=
  fold_left (fun s '(old, new) => PyStr.replace old new s) spec_contractions s.

(** What one entry of the type map contributes: its descriptor, followed
    by the layout tag when the descriptor has the array marker and the
    layout map has an entry for the same name. *)
Definition spec_entry (layouts : Dict.t string) (entry : string * string) : string :=
  let '(name, descriptor) := entry in
  if PyStr.contains "View" descriptor
  then match Dict.get layouts name with
       | Some tag => descriptor ++ tag
       | None => descriptor
       end
  else descriptor.

Definition spec_uncompacted (types layouts : Dict.t string) : string :=
  String.concat "" (map (spec_entry layouts) types).

Definition spec_signature (types layouts : Dict.t string) : string :=
  spec_contract (spec_uncompacted types layouts).

(** Some descriptor of the type map is not the empty string. *)
Definition some_descriptor_nonempty (types : Dict.t string) : Prop :=
  exists name descriptor, In (name, descriptor) types /\ descriptor <> "".

(** Every descriptor of the type map is a string that is not empty, as
    every descriptor of the grammar is: [int], [double], [float], [bool],
    [TeamMember], [Acc:double], [numpy:<kind>], [View<rank>D:<dtype>]. *)
Definition descriptors_nonempty (types : Dict.t string) : Prop :=
  forall name descriptor, In (name, descriptor) types -> descriptor <> "".

(** ** The policy roles as the specification words them *)

(** The role a policy gives the parameter at position [i]. *)
Definition spec_policy_role (p : ExecutionPolicy) (i : Z) : option string :=
  match p with
  | RangePolicy _ _ _ | TeamThreadRange _ =>
      if (i =? 0)%Z then Some "int" else None
  | TeamPolicy _ =>
      if (i =? 0)%Z then Some "TeamMember" else None
  | MDRangePolicy _ begin _ =>
      if (i <? Z.of_nat (List.length begin))%Z then Some "int" else None
  | OtherPolicy _ _ => None
  end.

(** The role of position [i] among [policy_params] policy-owned
    parameters: the accumulator (last for a reduction, second-to-last for a
    scan) and the flag of the final pass (last for a scan) go before the
    role the policy gives. *)
Definition spec_role (p : ExecutionPolicy) (policy_params : Z)
    (parallel_type : string) (i : Z) : option string :=
  if (parallel_type =? "parallel_scan") && (i =? policy_params - 1)%Z
  then Some "bool"
  else if (parallel_type =? "parallel_reduce") && (i =? policy_params - 1)%Z
          || (parallel_type =? "parallel_scan") && (i =? policy_params - 2)%Z
  then Some "Acc:double"
  else spec_policy_role p i.

(** The policies [infer_policy_args] knows. *)
Definition supported_policy (policy : PyValue) : option ExecutionPolicy :=
  match policy with
  | PyPolicy (OtherPolicy _ _) => None
  | PyPolicy p => Some p
  | _ => None
  end.

(** ** Values for the examples *)

(** One choice for what is imported: the names [dir] lists for an
    enumeration of the scalar types, and column-major as the default of the
    GPU spaces. *)
Definition example_externals : Externals := {|
  DataType_dir :=
    ["__class__"; "__doc__"; "__members__"; "__module__"; "bool"; "double";
     "float"; "int16"; "int32"; "int64"; "int8"; "real"; "uint16"; "uint32";
     "uint64"; "uint8"];
  get_default_layout := fun space =>
    match space with
    | OtherSpace "Cuda" | OtherSpace "HIP" => LayoutLeft
    | _ => LayoutRight
    end
|}.

(** A process just after the module [kokkos_manager] was loaded. *)
Definition example_process : km.Process :=
  km.mkProcess [] km.initial_CONSTANTS [].


(** ** Auxiliary notions for the statements *)

(** [u'] differs from [u] in the inferred types at most. *)
Definition only_types_changed (u u' : UpdatedTypes.t) : Prop :=
  UpdatedTypes.workunit u' = UpdatedTypes.workunit u
  /\ UpdatedTypes.param_list u' = UpdatedTypes.param_list u
  /\ UpdatedTypes.layout_change u' = UpdatedTypes.layout_change u
  /\ UpdatedTypes.types_signature u' = UpdatedTypes.types_signature u.

(** The entry [infer_policy_args] leaves for the parameter [param] at
    position [i], in the words of the specification: a declared
    parameter is not touched, an undeclared one gets its role when it has
    one. *)
Definition spec_policy_entry (p : ExecutionPolicy) (policy_params : Z)
    (parallel_type : string) (before : Dict.t string) (i : Z) (param : Param.t)
  : option string :=
  match Param.annotation param with
  | Some _ => Dict.get before (Param.name param)
  | None =>
      match spec_role p policy_params parallel_type i with
      | Some role => Some role
      | None => Dict.get before (Param.name param)
      end
  end.


(** The aliasing of the floating-point names: [float64] is [double] and
    [float32] is [float]. *)
Definition spec_float_alias (dtype : string) : string :=
  if dtype =? "float64" then "double"
  else if dtype =? "float32" then "float"
  else dtype.

(** The name of a view's element type, when it has one. *)
Definition spec_dtype_name (d : DTypeObject) : option string :=
  match d with
  | DataType_member name | DataTypeClass_subclass name => Some name
  | not_a_datatype => None
  end.





(** The number of value parameters without a declared type. *)
Definition undeclared_value_params (param_list : list Param.t) (policy_params : Z) : Z :=
  Z.of_nat
    (List.length
       (filter (fun param =>
                  match Param.annotation param with
                  | None => true
                  | Some _ => false
                  end)
          (skipn (Z.to_nat policy_params) param_list))).

(** [k] is the name of a value parameter with a declared type. *)
Definition declared_value_param (param_list : list Param.t) (policy_params : Z)
    (k : string) : Prop :=
  exists i param a,
    (policy_params <= i)%Z
    /\ nth_error param_list (Z.to_nat i) = Some param
    /\ Param.annotation param = Some a
    /\ Param.name param = k.

(** The exception is the one of the [assert] in [get_annotations]. *)
Definition is_arguments_mismatch (e : Exception) : Prop :=
  match e with
  | AssertionError_unannotated_arguments_mismatch _ _ => True
  | _ => False
  end.

(** The [UpdatedTypes] object [get_annotations] starts from. *)
Definition initial_updated_types (workunit : PyValue) (param_list : list Param.t)
  : UpdatedTypes.t :=
  UpdatedTypes.mk workunit Dict.empty param_list Dict.empty None.

(** A callback [def w(i)] and the call [parallel_for(10, w)]. *)
Definition example_workunit_i : PyValue := PyFunction [Param.mk "i" None].

Definition example_call_i : HandledArgs.t :=
  HandledArgs.mk None (PyPolicy (RangePolicy OpenMP 0 10)) example_workunit_i
    None (PyInt 0).

(** A callback [def w(i: int, x: pk.View1D[pk.double])] and the call
    [parallel_for(10, w, x=view)]. *)
Definition example_workunit_declared : PyValue :=
  PyFunction [Param.mk "i" (Some "int");
              Param.mk "x" (Some "pk.View1D[pk.double]")].

Definition example_view (l : Layout) : PyValue :=
  PyView (View.mk l (DataType_member "double") [8%Z]).

Definition example_call_declared : HandledArgs.t :=
  HandledArgs.mk None (PyPolicy (RangePolicy OpenMP 0 10))
    example_workunit_declared None (PyInt 0).

(** A callback [def w(i: int, x, v: pk.View1D[pk.double])], an object of a
    class whose name is the empty string (as [type('', (), {})()] makes
    one) and the call [parallel_for(10, w, nameless, view)]. *)
Definition example_workunit_mixed : PyValue :=
  PyFunction [Param.mk "i" (Some "int"); Param.mk "x" None;
              Param.mk "v" (Some "pk.View1D[pk.double]")].

Definition example_nameless : PyValue :=
  PyObject (Instance.mk "" "__main__" base_object).

Definition example_call_mixed : HandledArgs.t :=
  HandledArgs.mk None (PyPolicy (RangePolicy OpenMP 0 10))
    example_workunit_mixed None (PyInt 0).


(** A callback [def w(i: int, n)] and the call [parallel_for(10, w, n)]. *)
Definition example_workunit_n : PyValue :=
  PyFunction [Param.mk "i" (Some "int"); Param.mk "n" None].

(** A callback [def w(i, acc)] for [parallel_reduce(10, w)]. *)
Definition example_workunit_reduce : PyValue :=
  PyFunction [Param.mk "i" None; Param.mk "acc" None].

(** A scalar [numpy.float64]; the class derives from [float]. *)
Definition example_float64 : PyValue :=
  PyObject (Instance.mk "float64" "numpy" base_float).

(** A scalar [numpy.complex128]. *)
Definition example_complex128 : PyValue :=
  PyObject (Instance.mk "complex128" "numpy" base_object).

(** A view of rank 2 with elements [double] and no layout of its own. *)
Definition example_view_2d : View.t :=
  View.mk LayoutDefault (DataType_member "double") [3%Z; 4%Z].


(** ** The rest of [kokkos_manager]: UVM, the runtime and the devices

    The entries of [CONSTANTS] that hold module objects, and the calls the
    functions make into [kokkos] and [cupy], are kept beside the process of
    [km]. *)
Module kokkos_manager.

(** A binding module: [pykokkos.bindings.kokkos] or the module [gpu<id>]
    of one device. *)
Inductive Binding :=
| kokkos
| gpu (id : nat).

(** The calls that leave Python. *)
Inductive ExternalCall :=
| kokkos_initialize
| kokkos_finalize
| cupy_setDevice (device_id : Z).

Record Runtime := mkRuntime {
  process : km.Process;
  KOKKOS_GPU_MODULE : Binding;
  KOKKOS_GPU_MODULE_LIST : list Binding;
  calls : list ExternalCall
}.

(** The exceptions of [set_device_id]: its two [raise] statements and the
    [IndexError] of [KOKKOS_GPU_MODULE_LIST[device_id]]. *)
Inductive DeviceException :=
| TypeError_device_id_must_be_int
| RuntimeError_device_does_not_exist (device_id num_gpus : Z)
| IndexError_module_list.

(** [CONSTANTS["ENABLE_UVM"] = b]. *)
Definition set_ENABLE_UVM (b : bool) (p : km.Process) : km.Process :=
  let c := km.CONSTANTS p in
  km.mkProcess (km.environ p)
    (km.mkConstants (km.EXECUTION_SPACE c) (km.REAL_DTYPE c) (km.IS_INITIALIZED c)
       b (km.MULTI_GPU c) (km.NUM_GPUS c) (km.DEVICE_ID c))
    (km.stdout p).

(** [CONSTANTS["IS_INITIALIZED"] = b]. *)
Definition set_IS_INITIALIZED (b : bool) (p : km.Process) : km.Process :=
  let c := km.CONSTANTS p in
  km.mkProcess (km.environ p)
    (km.mkConstants (km.EXECUTION_SPACE c) (km.REAL_DTYPE c) b
       (km.ENABLE_UVM c) (km.MULTI_GPU c) (km.NUM_GPUS c) (km.DEVICE_ID c))
    (km.stdout p).

(** [CONSTANTS["DEVICE_ID"] = d]. *)
Definition set_DEVICE_ID (d : Z) (p : km.Process) : km.Process :=
  let c := km.CONSTANTS p in
  km.mkProcess (km.environ p)
    (km.mkConstants (km.EXECUTION_SPACE c) (km.REAL_DTYPE c) (km.IS_INITIALIZED c)
       (km.ENABLE_UVM c) (km.MULTI_GPU c) (km.NUM_GPUS c) d)
    (km.stdout p).

(** [is_uvm_enabled()]. *)
Definition is_uvm_enabled (p : km.Process) : bool :=
  km.ENABLE_UVM (km.CONSTANTS p).

(** [enable_uvm()]. *)
Definition enable_uvm (p : km.Process) : km.Process := set_ENABLE_UVM true p.

(** [disable_uvm()]. *)
Definition disable_uvm (p : km.Process) : km.Process := set_ENABLE_UVM false p.

(** An external call is made. *)
Definition call (c : ExternalCall) (r : Runtime) : Runtime :=
  mkRuntime (process r) (KOKKOS_GPU_MODULE r) (KOKKOS_GPU_MODULE_LIST r)
    (calls r ++ [c])%list.

Definition with_process (p : km.Process) (r : Runtime) : Runtime :=
  mkRuntime p (KOKKOS_GPU_MODULE r) (KOKKOS_GPU_MODULE_LIST r) (calls r).

(** [initialize()]. *)
Definition initialize (r : Runtime) : Runtime :=
  if Bool.eqb (km.IS_INITIALIZED (km.CONSTANTS (process r))) false
  then
    let r := call kokkos_initialize r in
    with_process (set_IS_INITIALIZED true (process r)) r
  else r.

(** [finalize()]. *)
Definition finalize (r : Runtime) : Runtime :=
  if Bool.eqb (km.IS_INITIALIZED (km.CONSTANTS (process r))) true
  then
    let r := call kokkos_finalize r in
    with_process (set_IS_INITIALIZED false (process r)) r
  else r.

(** [get_kokkos_module(is_cpu)]. *)
Definition get_kokkos_module (is_cpu : bool) (r : Runtime) : Binding :=
  if is_cpu then kokkos else KOKKOS_GPU_MODULE r.

(** [set_device_id(device_id)]: the outcome and the runtime after the
    call.  [cupy.cuda.runtime.setDevice] is taken to return. *)
Definition set_device_id (device_id : PyValue) (r : Runtime)
  : (DeviceException + unit) * Runtime :=
  match isinstance_int device_id with
  | None => (inl TypeError_device_id_must_be_int, r)
  | Some d =>
      let num_gpus := km.NUM_GPUS (km.CONSTANTS (process r)) in
      if (d >=? num_gpus)%Z || (d <? 0)%Z
      then (inl (RuntimeError_device_does_not_exist d num_gpus), r)
      else if (num_gpus =? 1)%Z
      then (inr tt, r)
      else
        let r := call (cupy_setDevice d) r in
        let r := with_process (set_DEVICE_ID d (process r)) r in
        match getitem (KOKKOS_GPU_MODULE_LIST r) d with
        | inl _ => (inl IndexError_module_list, r)
        | inr gpu_lib =>
            (inr tt,
             mkRuntime (process r) gpu_lib (KOKKOS_GPU_MODULE_LIST r) (calls r))
        end
  end.

(** [get_device_id()]. *)
Definition get_device_id (r : Runtime) : Z :=
  km.DEVICE_ID (km.CONSTANTS (process r)).

(** [is_multi_gpu_enabled()]. *)
Definition is_multi_gpu_enabled (r : Runtime) : bool :=
  km.MULTI_GPU (km.CONSTANTS (process r)).

(** [get_kokkos_gpu_modules()]. *)
Definition get_kokkos_gpu_modules (r : Runtime) : list Binding :=
  KOKKOS_GPU_MODULE_LIST r.

(** [get_num_gpus()]. *)
Definition get_num_gpus (r : Runtime) : Z :=
  km.NUM_GPUS (km.CONSTANTS (process r)).

(** The runtime after the module was loaded without CUDA devices. *)
Definition initial_runtime : Runtime :=
  mkRuntime (km.mkProcess [] km.initial_CONSTANTS []) kokkos [] [].

(** The calls to [kokkos.initialize] and [kokkos.finalize] alternate,
    starting with [initialize], and the flag tells which came last. *)
Fixpoint alternating (expect_initialize : bool) (l : list ExternalCall) : option bool :=
  match l with
  | [] => Some (negb expect_initialize)
  | kokkos_initialize :: l' =>
      if expect_initialize then alternating false l' else None
  | kokkos_finalize :: l' =>
      if expect_initialize then None else alternating true l'
  | cupy_setDevice _ :: l' => alternating expect_initialize l'
  end.

(** The runtime as the module body leaves it with [n] CUDA devices:
    the list has one module per device and the current one is in it. *)
Definition devices_consistent (r : Runtime) : Prop :=
  Z.of_nat (List.length (KOKKOS_GPU_MODULE_LIST r))
  = km.NUM_GPUS (km.CONSTANTS (process r)).

End kokkos_manager.

(** ** Auxiliary notions for the further properties *)

(** The entries of a layout map, concatenated: the second loop of
    [get_types_sig] in the words of its source line. *)
Definition names_and_layouts (layouts : Dict.t string) : string :=
  String.concat "" (map (fun entry => fst entry ++ snd entry) layouts).

(** The value parameters: those behind the policy-owned ones. *)
Definition value_params (param_list : list Param.t) (policy_params : Z)
  : list Param.t :=
  skipn (Z.to_nat policy_params) param_list.

(** The parameter has no declared type. *)
Definition undeclared (param : Param.t) : bool :=
  match Param.annotation param with
  | None => true
  | Some _ => false
  end.

(** [handled_args] with another label. *)
Definition with_name (name : option PyValue) (h : HandledArgs.t) : HandledArgs.t :=
  HandledArgs.mk name (HandledArgs.policy h) (HandledArgs.workunit h)
    (HandledArgs.view h) (HandledArgs.initial_value h).

(** The character occurs in the string. *)
Definition occurs (c : ascii) (s : string) : Prop :=
  In c (list_ascii_of_string s).

(** A callback [def w(i)] under [parallel_reduce], which owns two
    parameters. *)
Definition example_call_short : HandledArgs.t :=
  HandledArgs.mk None (PyPolicy (RangePolicy OpenMP 0 10)) example_workunit_i
    None (PyInt 0).

(** A runtime with two CUDA devices. *)
Definition example_runtime_two_gpus : kokkos_manager.Runtime :=
  kokkos_manager.mkRuntime
    (km.mkProcess []
       (km.mkConstants OpenMP (PyClass km.double) false false true 2 0) [])
    (kokkos_manager.gpu 0) [kokkos_manager.gpu 0; kokkos_manager.gpu 1] [].


(** The parameters at the positions [positions], in that order. *)
Definition params_at (param_list : list Param.t) (positions : list Z)
  : list Param.t :=
  flat_map
    (fun i =>
       match nth_error param_list (Z.to_nat i) with
       | Some param => [param]
       | None => []
       end)
    positions.


(** * Properties *)

(** ** Strings and dictionaries *)

Lemma append_assoc (a b c : string) : (a ++ b) ++ c = a ++ (b ++ c).
Proof. induction a as [|x a IH]; simpl; [reflexivity | now rewrite IH]. Qed.

Lemma append_empty_r (a : string) : a ++ "" = a.
Proof. induction a as [|x a IH]; simpl; [reflexivity | now rewrite IH]. Qed.

Lemma append_eq_empty (a b : string) : a ++ b = "" -> a = "" /\ b = "".
Proof. destruct a; simpl; [auto | discriminate]. Qed.

Module DictFacts.

Section WithValue.
Context {V : Type}.
Implicit Types (d : Dict.t V) (k : string) (v : V).

Lemma get_set_same d k v : Dict.get (Dict.set d k v) k = Some v.
Proof.
  induction d as [|[k' v'] d IH]; simpl.
  - now rewrite String.eqb_refl.
  - destruct (String.eqb k' k) eqn:E; simpl.
    + now rewrite String.eqb_refl.
    + now rewrite E.
Qed.

Lemma get_set_other d k k' v : k' <> k -> Dict.get (Dict.set d k v) k' = Dict.get d k'.
Proof.
  intros Hne. induction d as [|[k0 v0] d IH]; simpl.
  - destruct (String.eqb_spec k k'); [congruence | reflexivity].
  - destruct (String.eqb_spec k0 k) as [->|Hk]; simpl.
    + destruct (String.eqb_spec k k'); [congruence | reflexivity].
    + destruct (String.eqb_spec k0 k'); [reflexivity | exact IH].
Qed.

Lemma set_not_empty d k v : Dict.set d k v <> [].
Proof.
  destruct d as [|[k' v'] d]; simpl; [discriminate|].
  destruct (String.eqb k' k); discriminate.
Qed.

Lemma get_none_iff d k : Dict.get d k = None <-> ~ In k (Dict.keys d).
Proof.
  induction d as [|[k' v'] d IH]; simpl.
  - tauto.
  - destruct (String.eqb_spec k' k) as [->|Hk].
    + split; [discriminate | intros H; exfalso; apply H; now left].
    + rewrite IH. tauto.
Qed.

Lemma in_keys_set d k v k' :
  In k' (Dict.keys (Dict.set d k v)) <-> k' = k \/ In k' (Dict.keys d).
Proof.
  induction d as [|[k0 v0] d IH]; simpl.
  - intuition congruence.
  - destruct (String.eqb_spec k0 k) as [->|Hk]; simpl.
    + intuition congruence.
    + rewrite IH. intuition congruence.
Qed.

Lemma len_zero d : Nat.eqb (Dict.len d) 0 = true <-> d = [].
Proof. destruct d; simpl; split; congruence. Qed.

End WithValue.

End DictFacts.

(** ** The signature compactor *)

Lemma compact_is_spec_contract (s : string) : compact s = spec_contract s.
Proof. reflexivity. Qed.

Lemma types_loop_from (layouts : Dict.t string) (types : Dict.t string) (acc : string) :
  fold_left
    (fun signature '(name, i_type) =>
       let signature := signature ++ i_type in
       if PyStr.contains "View" i_type && Dict.mem layouts name
       then signature ++ match Dict.get layouts name with
                         | Some l => l
                         | None => ""
                         end
       else signature)
    types acc
  = acc ++ spec_uncompacted types layouts.
Proof.
  revert acc. induction types as [|[name ty] types IH]; intros acc.
  - simpl. now rewrite append_empty_r.
  - cbn [fold_left]. rewrite IH. unfold spec_uncompacted.
    assert (Hc : forall x l, String.concat "" (x :: l) = x ++ String.concat "" l).
    { intros x [|y l]; simpl; [now rewrite append_empty_r | reflexivity]. }
    cbn [map]. rewrite Hc. unfold spec_entry, Dict.mem.
    destruct (PyStr.contains "View" ty); simpl.
    + destruct (Dict.get layouts name); now rewrite !append_assoc.
    + now rewrite append_assoc.
Qed.

Lemma types_loop_is_spec (types layouts : Dict.t string) :
  types_loop types layouts = spec_uncompacted types layouts.
Proof. unfold types_loop. now rewrite types_loop_from. Qed.

Lemma spec_uncompacted_nonempty (types layouts : Dict.t string) :
  some_descriptor_nonempty types -> spec_uncompacted types layouts <> "".
Proof.
  intros (name & ty & Hin & Hne). unfold spec_uncompacted.
  assert (Hc : forall x l, String.concat "" (x :: l) = x ++ String.concat "" l).
  { intros x [|y l]; simpl; [now rewrite append_empty_r | reflexivity]. }
  induction types as [|[name' ty'] types IH]; [contradiction|].
  cbn [map]. rewrite Hc. intros Heq. apply append_eq_empty in Heq as [He Hr].
  destruct Hin as [Hin|Hin].
  - inversion Hin; subst. unfold spec_entry in He.
    destruct (PyStr.contains "View" ty); [destruct (Dict.get layouts name)|];
      try contradiction.
    apply append_eq_empty in He as [He _]. contradiction.
  - now apply IH.
Qed.

Lemma layouts_loop_empty (signature : string) : layouts_loop signature [] = signature.
Proof. reflexivity. Qed.

(** When some descriptor is non-empty (or there is no layout entry) the
    code computes the signature the specification describes. *)
Lemma get_types_sig_is_spec (types layouts : Dict.t string) :
  types <> [] ->
  some_descriptor_nonempty types \/ layouts = [] ->
  get_types_sig types layouts = Some (spec_signature types layouts).
Proof.
  intros Hne Hcase. unfold get_types_sig.
  assert (Hlen : Nat.eqb (Dict.len types) 0 = false).
  { destruct types; [congruence | reflexivity]. }
  rewrite Hlen, andb_false_r. cbv zeta.
  rewrite types_loop_is_spec, compact_is_spec_contract. unfold spec_signature.
  destruct Hcase as [Hsome | ->].
  - apply (spec_uncompacted_nonempty _ layouts) in Hsome.
    apply String.eqb_neq in Hsome. now rewrite Hsome.
  - rewrite layouts_loop_empty. now destruct (String.eqb _ _).
Qed.

Lemma descriptors_some_nonempty (types : Dict.t string) :
  types <> [] -> descriptors_nonempty types -> some_descriptor_nonempty types.
Proof.
  intros Hne Hall. destruct types as [|[name descriptor] types]; [congruence|].
  exists name, descriptor. split; [now left|]. apply (Hall name). now left.
Qed.

(** The test before the loop over the layout map is [signature == ""],
    not [len(inferred_types) == 0]: the two differ on a type map that holds
    the empty string only, which is no descriptor, and there the layout map
    is read. *)
Lemma get_types_sig_empty_string_entry :
  get_types_sig [("x", "")] [("v", "LayoutRight")] = Some "vR"
  /\ spec_signature [("x", "")] [("v", "LayoutRight")] = "".
Proof. split; reflexivity. Qed.

(** C1: given a non-empty inferred-type map, whose descriptors are
    strings that are not empty, [get_types_sig] returns the signature built
    by iterating the type map in insertion order, appending each descriptor
    and, when the descriptor contains [View] and the same name has a layout
    entry, that layout tag, and then contracted by the eleven replacements
    in their order.  For the entry [View2D:double] with a layout entry the
    result has no [View], [Acc:] or [Layout] in it. *)
Theorem C1_signature_of_type_map `{Externals} :
  (forall types layouts : Dict.t string,
      types <> [] ->
      descriptors_nonempty types ->
      get_types_sig types layouts = Some (spec_signature types layouts))
  /\ (forall (name : string) (space : ExecutionSpace) (v : View.t),
         exists s,
           get_types_sig [(name, "View2D:double")] [(name, layout_tag space v)] = Some s
           /\ PyStr.contains "View" s = false
           /\ PyStr.contains "Acc:" s = false
           /\ PyStr.contains "Layout" s = false).
Proof.
  split.
  { intros types layouts Hne Hall.
    apply get_types_sig_is_spec; [exact Hne|]. left.
    now apply descriptors_some_nonempty. }
  intros name space v.
  rewrite get_types_sig_is_spec.
  - unfold spec_signature, spec_uncompacted. cbn [map spec_entry].
    replace (PyStr.contains "View" "View2D:double") with true by reflexivity.
    cbn [Dict.get]. rewrite String.eqb_refl.
    unfold layout_tag.
    destruct (Layout_eqb _ LayoutRight); eexists; (split; [reflexivity|]);
      repeat split; reflexivity.
  - discriminate.
  - left. exists name, "View2D:double". split; [now left | discriminate].
Qed.

(** ** The call-shape resolver: [handle_args] *)

Lemma normalize_policy_int (process : km.Process) (policy : PyValue) (n : Z) :
  isinstance_int policy = Some n ->
  normalize_policy process policy
  = PyPolicy (RangePolicy (km.get_default_space process) 0 n).
Proof. intros Hn. unfold normalize_policy. now rewrite Hn. Qed.

Lemma handle_args_bound (process : km.Process) (is_for : bool)
    (unpacked : list PyValue) name policy workunit view initial_value :
  bind_arguments is_for unpacked = Ok (name, policy, workunit, view, initial_value) ->
  handle_args process is_for unpacked
  = Ok (HandledArgs.mk name (normalize_policy process policy) workunit view
          initial_value).
Proof. intros Hb. unfold handle_args. now rewrite Hb. Qed.

(** C3: a tuple of three arguments is bound as (label, policy, callback)
    when the first is a string; otherwise as (policy, callback,
    output array) when the dispatch is element-wise and the third is a view;
    otherwise as (policy, callback, initial value) when the third is an
    [int] or a [float]; otherwise [TypeError] is raised and nothing is
    returned.  In every call that binds its arguments, a policy that is an
    integer [n] becomes [RangePolicy(get_default_space(), 0, n)]. *)
Theorem C3_call_shape (process : km.Process) (is_for : bool) (u0 u1 u2 : PyValue) :
  (isinstance_str u0 = true ->
   handle_args process is_for [u0; u1; u2]
   = Ok (HandledArgs.mk (Some u0) (normalize_policy process u1) u2 None (PyInt 0)))
  /\ (isinstance_str u0 = false ->
      is_for = true -> isinstance_ViewType u2 = true ->
      handle_args process is_for [u0; u1; u2]
      = Ok (HandledArgs.mk None (normalize_policy process u0) u1 (Some u2) (PyInt 0)))
  /\ (isinstance_str u0 = false ->
      is_for && isinstance_ViewType u2 = false ->
      isinstance_int_float u2 = true ->
      handle_args process is_for [u0; u1; u2]
      = Ok (HandledArgs.mk None (normalize_policy process u0) u1 None u2))
  /\ (isinstance_str u0 = false ->
      is_for && isinstance_ViewType u2 = false ->
      isinstance_int_float u2 = false ->
      handle_args process is_for [u0; u1; u2]
      = Raise (TypeError_wrong_arguments [u0; u1; u2]))
  /\ (forall unpacked name policy workunit view initial_value n,
         bind_arguments is_for unpacked
         = Ok (name, policy, workunit, view, initial_value) ->
         isinstance_int policy = Some n ->
         handle_args process is_for unpacked
         = Ok (HandledArgs.mk name
                 (PyPolicy (RangePolicy (km.get_default_space process) 0 n))
                 workunit view initial_value)).
Proof.
  unfold handle_args at 1 2 3 4. cbn [bind_arguments].
  repeat split.
  - intros ->. reflexivity.
  - intros -> -> ->. reflexivity.
  - intros -> -> ->. reflexivity.
  - intros -> -> ->. reflexivity.
  - intros unpacked name policy workunit view initial_value n Hb Hn.
    rewrite (handle_args_bound _ _ _ _ _ _ _ _ Hb).
    now rewrite (normalize_policy_int _ _ _ Hn).
Qed.

(** ** The configuration setters of [kokkos_manager] *)

(** [set_default_space] with a value that is not an [ExecutionSpace]
    raises nothing and leaves [CONSTANTS] as it was. *)
Lemma set_default_space_invalid (space : PyValue) (p : km.Process) :
  (forall s, space <> PyExecutionSpace s) ->
  fst (km.set_default_space space p) = Ok tt
  /\ km.CONSTANTS (snd (km.set_default_space space p)) = km.CONSTANTS p
  /\ km.get_default_space (snd (km.set_default_space space p))
     = km.get_default_space p.
Proof.
  intros Hs. destruct space; try (repeat split; reflexivity).
  now contradiction (Hs s).
Qed.

(** [set_default_precision] with a class that does not derive from
    [DataTypeClass] raises nothing and leaves the default as it was. *)
Lemma set_default_precision_other_class (c : Class.t) (p : km.Process) :
  Class.is_DataTypeClass c = false ->
  fst (km.set_default_precision (PyClass c) p) = Ok tt
  /\ km.get_default_precision (snd (km.set_default_precision (PyClass c) p))
     = km.get_default_precision p.
Proof.
  intros Hc. unfold km.set_default_precision. cbn. rewrite Hc. now split.
Qed.

(** Whatever is passed, a precision that is not the class of a data type
    leaves the stored default as it was. *)
Lemma set_default_precision_invalid_keeps (precision : PyValue) (p : km.Process) :
  km.issubclass_DataTypeClass precision <> Ok true ->
  km.get_default_precision (snd (km.set_default_precision precision p))
  = km.get_default_precision p.
Proof.
  intros Hs. unfold km.set_default_precision.
  destruct (km.issubclass_DataTypeClass precision) as [e|[|]];
    try reflexivity.
  now contradiction Hs.
Qed.

(** C10 at the input where it fails: [set_default_precision(3)], like any
    call with an object that is not a class, leaves [issubclass] with a
    [TypeError], where [set_default_space] uses [isinstance] and returns;
    the stored precision is the one before the call. *)
Theorem C10_set_default_precision_raises (p : km.Process) (n : Z) :
  fst (km.set_default_precision (PyInt n) p)
  = Raise TypeError_issubclass_arg_1_must_be_a_class
  /\ km.get_default_precision (snd (km.set_default_precision (PyInt n) p))
     = km.get_default_precision p.
Proof. split; reflexivity. Qed.

(** ** Loops *)

Lemma range_nil (lo hi : Z) : (hi <= lo)%Z -> range lo hi = [].
Proof.
  intros Hle. unfold range. replace (Z.to_nat (hi - lo)) with 0%nat by lia.
  reflexivity.
Qed.

Lemma in_range (i lo hi : Z) : In i (range lo hi) <-> (lo <= i < hi)%Z.
Proof.
  unfold range. rewrite in_map_iff. split.
  - intros (k & <- & Hk). apply in_seq in Hk. lia.
  - intros Hi. exists (Z.to_nat (i - lo)). split; [lia|].
    apply in_seq. lia.
Qed.

Lemma NoDup_range (lo hi : Z) : NoDup (range lo hi).
Proof.
  unfold range. apply Injective_map_NoDup; [|apply seq_NoDup].
  intros a b Hab. lia.
Qed.

Lemma getitem_nth_error {A : Type} (l : list A) (i : Z) (a : A) :
  (0 <= i)%Z -> (getitem l i = Ok a <-> nth_error l (Z.to_nat i) = Some a).
Proof.
  intros Hi. unfold getitem.
  replace (i <? 0)%Z with false by lia. replace (i <? 0)%Z with false by lia.
  destruct (nth_error l (Z.to_nat i)); unfold Ok, Raise; split; congruence.
Qed.

Lemma getitem_in_bounds {A : Type} (l : list A) (i : Z) :
  (0 <= i < Z.of_nat (List.length l))%Z -> exists a, getitem l i = Ok a.
Proof.
  intros Hi. destruct (nth_error l (Z.to_nat i)) as [a|] eqn:E.
  - exists a. now apply getitem_nth_error.
  - apply nth_error_None in E. lia.
Qed.

Section ForEach.
Context {A S : Type} (body : A -> S -> result S).

Lemma for_each_app (l1 l2 : list A) (s : S) :
  for_each body (l1 ++ l2)%list s = (s' <- for_each body l1 s ;; for_each body l2 s').
Proof.
  revert s. induction l1 as [|a l1 IH]; intros s; simpl; [reflexivity|].
  destruct (body a s); simpl; [reflexivity | apply IH].
Qed.

(** An invariant of the items already dealt with holds at the end of a
    loop that raised nothing. *)
Lemma for_each_invariant (P : list A -> S -> Prop) (l : list A) :
  (forall done a rest s s',
      l = (done ++ a :: rest)%list -> P done s -> body a s = Ok s' ->
      P (done ++ [a])%list s') ->
  forall s s', P [] s -> for_each body l s = Ok s' -> P l s'.
Proof.
  intros Hstep.
  assert (Hgen : forall todo done s s',
             l = (done ++ todo)%list -> P done s ->
             for_each body todo s = Ok s' -> P l s').
  { induction todo as [|a todo IH]; intros done s s' Hl HP Hrun.
    - simpl in Hrun. injection Hrun as <-. now rewrite Hl, app_nil_r.
    - simpl in Hrun. destruct (body a s) as [e|s1] eqn:Hb; [discriminate|].
      simpl in Hrun. apply (IH (done ++ [a])%list s1 s').
      + now rewrite <- app_assoc.
      + now apply (Hstep done a todo s s1).
      + exact Hrun. }
  intros s s' HP Hrun. now apply (Hgen l [] s s').
Qed.

(** The same for a loop each step of which raises nothing. *)
Lemma for_each_total (P : list A -> S -> Prop) (l : list A) :
  (forall done a rest s,
      l = (done ++ a :: rest)%list -> P done s ->
      exists s', body a s = Ok s' /\ P (done ++ [a])%list s') ->
  forall s, P [] s -> exists s', for_each body l s = Ok s' /\ P l s'.
Proof.
  intros Hstep.
  assert (Hgen : forall todo done s,
             l = (done ++ todo)%list -> P done s ->
             exists s', for_each body todo s = Ok s' /\ P l s').
  { induction todo as [|a todo IH]; intros done s Hl HP.
    - exists s. split; [reflexivity|]. now rewrite Hl, app_nil_r.
    - destruct (Hstep done a todo s Hl HP) as (s1 & Hb & HP1).
      destruct (IH (done ++ [a])%list s1) as (s' & Hrun & HP').
      + now rewrite <- app_assoc.
      + exact HP1.
      + exists s'. split; [|exact HP']. simpl. now rewrite Hb. }
  intros s HP. now apply (Hgen l [] s).
Qed.

(** A loop raises when one of its steps raises in every state. *)
Lemma for_each_raises (l : list A) (a : A) :
  In a l -> (forall s, raises (body a s)) -> forall s, raises (for_each body l s).
Proof.
  intros Hin Ha. induction l as [|b l IH]; [contradiction|].
  intros s. simpl. destruct Hin as [->|Hin].
  - destruct (Ha s) as [e He]. rewrite He. now exists e.
  - destruct (body b s) as [e|s1]; [now exists e|]. simpl. now apply IH.
Qed.

End ForEach.

(** ** The policy adapter: [infer_policy_args] *)

Lemma distinct_names (param_list : list Param.t) (x y : nat) (p q : Param.t) :
  NoDup (map Param.name param_list) ->
  nth_error param_list x = Some p -> nth_error param_list y = Some q ->
  Param.name p = Param.name q -> x = y.
Proof.
  intros Hnd Hx Hy Hname.
  apply (proj1 (NoDup_nth_error _) Hnd).
  - rewrite length_map. apply nth_error_Some. congruence.
  - rewrite !nth_error_map, Hx, Hy. simpl. congruence.
Qed.

Ltac dict_get :=
  repeat first
    [ rewrite DictFacts.get_set_same
    | rewrite DictFacts.get_set_other by assumption ].

(** One step of the loop under a policy the code knows. *)
Lemma infer_policy_arg_supported (policy_params : Z) (policy : PyValue)
    (p : ExecutionPolicy) (parallel_type : string) (i : Z) (param : Param.t)
    (u : UpdatedTypes.t) :
  supported_policy policy = Some p ->
  exists u',
    infer_policy_arg policy_params policy parallel_type i param u = Ok u'
    /\ only_types_changed u u'
    /\ (forall k, k <> Param.name param ->
                  Dict.get (UpdatedTypes.inferred_types u') k
                  = Dict.get (UpdatedTypes.inferred_types u) k)
    /\ Dict.get (UpdatedTypes.inferred_types u') (Param.name param)
       = spec_policy_entry p policy_params parallel_type
           (UpdatedTypes.inferred_types u) i param.
Proof.
  intros Hsup.
  unfold infer_policy_arg, spec_policy_entry, spec_role.
  destruct (Param.annotation param) as [a|].
  { exists u. repeat split; reflexivity. }
  set (R := parallel_type =? "parallel_reduce").
  set (S := parallel_type =? "parallel_scan").
  set (A1 := (i =? policy_params - 1)%Z).
  set (A2 := (i =? policy_params - 2)%Z).
  destruct policy as [| | | | |q| | | |]; try discriminate.
  destruct q as [s b e|s b e|s|s|c s]; try discriminate;
    injection Hsup as <-; unfold spec_policy_role;
    [ set (B := (i =? 0)%Z) | set (B := (i <? Z.of_nat (List.length b))%Z)
    | set (B := (i =? 0)%Z) | set (B := (i =? 0)%Z) ];
    destruct B, R, S, A1, A2; cbn;
    (eexists; split; [reflexivity|]);
    (split; [repeat split|]);
    (split; [intros k Hk; cbn; now dict_get | cbn; now dict_get]).
Qed.

(** One step of the loop under anything else. *)
Lemma infer_policy_arg_unsupported (policy_params : Z) (policy : PyValue)
    (parallel_type : string) (i : Z) (param : Param.t) (u : UpdatedTypes.t) :
  supported_policy policy = None ->
  infer_policy_arg policy_params policy parallel_type i param u
  = match Param.annotation param with
    | Some _ => Ok u
    | None => Raise ValueError_policy_not_supported
    end.
Proof.
  intros Hsup. unfold infer_policy_arg.
  destruct (Param.annotation param); [reflexivity|].
  destruct policy as [| | | | |q| | | |]; try reflexivity.
  destruct q; try discriminate. reflexivity.
Qed.

(** The loop over the policy-owned parameters, under a policy the code
    knows. *)
Lemma infer_policy_args_supported (param_list : list Param.t) (policy_params : Z)
    (policy : PyValue) (p : ExecutionPolicy) (parallel_type : string)
    (u : UpdatedTypes.t) :
  (policy_params <= Z.of_nat (List.length param_list))%Z ->
  NoDup (map Param.name param_list) ->
  supported_policy policy = Some p ->
  exists u',
    infer_policy_args param_list policy_params policy parallel_type u = Ok u'
    /\ only_types_changed u u'
    /\ (forall i param,
           (0 <= i < policy_params)%Z ->
           nth_error param_list (Z.to_nat i) = Some param ->
           Dict.get (UpdatedTypes.inferred_types u') (Param.name param)
           = spec_policy_entry p policy_params parallel_type
               (UpdatedTypes.inferred_types u) i param)
    /\ (forall k,
           (forall i param,
               (0 <= i < policy_params)%Z ->
               nth_error param_list (Z.to_nat i) = Some param ->
               Param.name param <> k) ->
           Dict.get (UpdatedTypes.inferred_types u') k
           = Dict.get (UpdatedTypes.inferred_types u) k).
Proof.
  intros Hlen Hnd Hsup. unfold infer_policy_args.
  set (before := UpdatedTypes.inferred_types u).
  pose (P := fun (done : list Z) (s : UpdatedTypes.t) =>
    only_types_changed u s
    /\ (forall i param,
           In i done -> nth_error param_list (Z.to_nat i) = Some param ->
           Dict.get (UpdatedTypes.inferred_types s) (Param.name param)
           = spec_policy_entry p policy_params parallel_type before i param)
    /\ (forall k,
           (forall i param,
               In i done -> nth_error param_list (Z.to_nat i) = Some param ->
               Param.name param <> k) ->
           Dict.get (UpdatedTypes.inferred_types s) k = Dict.get before k)).
  destruct (for_each_total
              (fun i updated_types =>
                 param <- getitem param_list i ;;
                 infer_policy_arg policy_params policy parallel_type i param
                   updated_types)
              P (range 0 policy_params)) with (s := u) as (u' & Hrun & HP).
  - intros done a rest s Hsplit (Hsame & Hdone & Hrest).
    assert (Ha : (0 <= a < policy_params)%Z).
    { apply in_range. rewrite Hsplit. apply in_elt. }
    assert (Hfresh : ~ In a done).
    { pose proof (NoDup_range 0 policy_params) as Hn. rewrite Hsplit in Hn.
      apply NoDup_remove_2 in Hn. intros Hd. apply Hn, in_or_app. now left. }
    destruct (getitem_in_bounds param_list a) as [pa Hpa]; [lia|].
    rewrite Hpa. cbn [bind].
    apply getitem_nth_error in Hpa; [|lia].
    destruct (infer_policy_arg_supported policy_params policy p parallel_type
                a pa s Hsup) as (s' & Hstep & Hsame' & Hother & Hself).
    assert (Hdistinct : forall i param,
               In i done -> nth_error param_list (Z.to_nat i) = Some param ->
               Param.name param <> Param.name pa).
    { intros i param Hi Hparam Hname.
      assert (Z.to_nat i = Z.to_nat a)
        by (eapply distinct_names; eauto).
      assert (Hir : (0 <= i < policy_params)%Z).
      { apply in_range. rewrite Hsplit. apply in_or_app. now left. }
      apply Hfresh. replace a with i by lia. exact Hi. }
    exists s'. split; [exact Hstep|]. split; [|split].
    + destruct Hsame as (? & ? & ? & ?), Hsame' as (? & ? & ? & ?).
      repeat split; congruence.
    + intros i param Hi Hparam. apply in_app_or in Hi as [Hi|[<-|[]]].
      * rewrite Hother by eauto. now apply Hdone.
      * replace param with pa by congruence. rewrite Hself.
        unfold spec_policy_entry. rewrite (Hrest (Param.name pa)) by exact Hdistinct.
        reflexivity.
    + intros k Hk. rewrite Hother.
      * apply Hrest. intros i param Hi. apply Hk, in_or_app. now left.
      * intros ->. apply (Hk a pa); [apply in_or_app; right; now left | exact Hpa | reflexivity].
  - repeat split; try reflexivity; intros; contradiction.
  - exists u'. split; [exact Hrun|]. destruct HP as (Hsame & Hdone & Hrest).
    split; [exact Hsame|]. split.
    + intros i param Hi. apply Hdone, in_range, Hi.
    + intros k Hk. apply Hrest. intros i param Hi. apply Hk, in_range, Hi.
Qed.

(** The loop under anything else: it raises at the first policy-owned
    parameter without a declared type. *)
Lemma infer_policy_args_unsupported (param_list : list Param.t) (policy_params : Z)
    (policy : PyValue) (parallel_type : string) (u : UpdatedTypes.t) :
  (policy_params <= Z.of_nat (List.length param_list))%Z ->
  supported_policy policy = None ->
  (exists i param,
      (0 <= i < policy_params)%Z
      /\ nth_error param_list (Z.to_nat i) = Some param
      /\ Param.annotation param = None) ->
  infer_policy_args param_list policy_params policy parallel_type u
  = Raise ValueError_policy_not_supported.
Proof.
  intros Hlen Hsup (i & param & Hi & Hparam & Hann).
  unfold infer_policy_args.
  apply in_range in Hi.
  assert (Hbounds : forall j, In j (range 0 policy_params) ->
                              (0 <= j < Z.of_nat (List.length param_list))%Z).
  { intros j Hj. apply in_range in Hj. lia. }
  induction (range 0 policy_params) as [|a l IH]; [contradiction|].
  cbn [for_each].
  destruct (getitem_in_bounds param_list a) as [pa Hpa];
    [apply Hbounds; now left|].
  rewrite Hpa. unfold Ok at 1. cbn [bind].
  rewrite infer_policy_arg_unsupported by exact Hsup.
  destruct (Param.annotation pa) eqn:Hpa_ann.
  - unfold Ok at 1. cbn [bind]. destruct Hi as [->|Hi].
    + apply getitem_nth_error in Hpa; [|apply Hbounds; now left]. congruence.
    + apply IH; [exact Hi|]. intros j Hj. apply Hbounds. now right.
  - reflexivity.
Qed.

(** C4: under a flat-range or team-thread-range policy the first
    parameter, under a team policy the first parameter, under a
    multi-dimensional range policy each of the first [len(begin)]
    parameters is given its role ([int], [TeamMember], [int]) when it has no
    declared type; then the last policy-owned parameter of a reduction and
    the second-to-last of a scan become [Acc:double], whatever role they
    had, and the last of a scan becomes [bool].  Declared parameters are
    left out, and under any other kind of policy an undeclared policy-owned
    parameter is a [ValueError]. *)
Theorem C4_policy_roles (param_list : list Param.t) (policy_params : Z)
    (policy : PyValue) (parallel_type : string) (u : UpdatedTypes.t) :
  (policy_params <= Z.of_nat (List.length param_list))%Z ->
  NoDup (map Param.name param_list) ->
  match supported_policy policy with
  | Some p =>
      exists u',
        infer_policy_args param_list policy_params policy parallel_type u = Ok u'
        /\ forall i param,
            (0 <= i < policy_params)%Z ->
            nth_error param_list (Z.to_nat i) = Some param ->
            Dict.get (UpdatedTypes.inferred_types u') (Param.name param)
            = match Param.annotation param with
              | Some _ => Dict.get (UpdatedTypes.inferred_types u) (Param.name param)
              | None =>
                  match spec_role p policy_params parallel_type i with
                  | Some role => Some role
                  | None => Dict.get (UpdatedTypes.inferred_types u) (Param.name param)
                  end
              end
  | None =>
      (exists i param,
          (0 <= i < policy_params)%Z
          /\ nth_error param_list (Z.to_nat i) = Some param
          /\ Param.annotation param = None) ->
      infer_policy_args param_list policy_params policy parallel_type u
      = Raise ValueError_policy_not_supported
  end.
Proof.
  intros Hlen Hnd. destruct (supported_policy policy) as [p|] eqn:Hsup.
  - destruct (infer_policy_args_supported param_list policy_params policy p
                parallel_type u Hlen Hnd Hsup) as (u' & Hrun & _ & Hroles & _).
    exists u'. split; [exact Hrun | exact Hroles].
  - now apply infer_policy_args_unsupported.
Qed.

(** ** Value-driven inference: one parameter *)

Section OneParameter.
Context `{Externals}.

Lemma int_bit_length_31 (n : Z) :
  (int_bit_length n <= 31 <-> - 2 ^ 31 < n < 2 ^ 31)%Z.
Proof.
  unfold int_bit_length. destruct (Z.eqb_spec n 0) as [->|Hn]; [lia|].
  assert (Hpos : (0 < Z.abs n)%Z) by lia.
  pose proof (Z.log2_lt_pow2 (Z.abs n) 31 Hpos) as Hlog. lia.
Qed.

Lemma infer_param_type_int (param : Param.t) (n : Z) :
  infer_param_type param (PyInt n)
  = Ok (if (int_bit_length n >? 31)%Z then "numpy:int64" else "int").
Proof. unfold infer_param_type. cbn. now destruct (int_bit_length n >? 31)%Z. Qed.

Lemma get_pk_datatype_alias (d : DTypeObject) :
  get_pk_datatype d = option_map spec_float_alias (spec_dtype_name d).
Proof.
  unfold get_pk_datatype, spec_float_alias.
  destruct d as [name|name|]; cbn [spec_dtype_name option_map]; [| |reflexivity].
  all: destruct (String.eqb_spec name "float64") as [->|H64]; [reflexivity|];
    destruct (String.eqb_spec name "float32") as [->|H32]; [reflexivity|].
  all: destruct name as [|c1 name]; [reflexivity|].
  all: repeat match goal with
         | |- context [match ?s with EmptyString => _ | String _ _ => _ end] =>
             is_var s; destruct s
         | |- context [match ?c with Ascii _ _ _ _ _ _ _ _ => _ end] =>
             is_var c; destruct c
         | |- context [if ?b then _ else _] => is_var b; destruct b
         end; try reflexivity; congruence.
Qed.


Lemma infer_param_type_numpy (param : Param.t) (o : Instance.t) :
  Instance.type_module o = "numpy" ->
  Instance.type_name o <> "int" ->
  infer_param_type param (PyObject o)
  = if PyStr.mem (Instance.type_name o) SUPPORTED_NP_DTYPES
    then Ok ("numpy:" ++ spec_float_alias (Instance.type_name o))
    else Raise (TypeError_numpy_type_unsupported (Instance.type_name o)).
Proof.
  intros Hmod Hname. unfold infer_param_type.
  cbn [type_name type_module isinstance_View].
  destruct (String.eqb_spec (Instance.type_name o) "int") as [Hint|_];
    [contradiction|].
  rewrite Hmod. unfold Ok at 1. cbn [bind].
  replace ("numpy" =? "numpy") with true by reflexivity.
  destruct (PyStr.mem (Instance.type_name o) SUPPORTED_NP_DTYPES);
    cbn [negb]; [|reflexivity].
  unfold Ok at 1. cbn [bind]. unfold spec_float_alias.
  destruct (Instance.type_name o =? "float64"); [reflexivity|].
  now destruct (Instance.type_name o =? "float32").
Qed.


(** What one step of the loop of [infer_other_args] does to the two
    maps. *)
Lemma infer_other_arg_ok (space : ExecutionSpace) (param : Param.t)
    (value : PyValue) (u u' : UpdatedTypes.t) :
  infer_other_arg space param value u = Ok u' ->
  (forall k, k <> Param.name param ->
      Dict.get (UpdatedTypes.inferred_types u') k
      = Dict.get (UpdatedTypes.inferred_types u) k
      /\ Dict.get (UpdatedTypes.layout_change u') k
         = Dict.get (UpdatedTypes.layout_change u) k)
  /\ Dict.get (UpdatedTypes.layout_change u') (Param.name param)
     = match isinstance_View value with
       | Some v => Some (layout_tag space v)
       | None => Dict.get (UpdatedTypes.layout_change u) (Param.name param)
       end
  /\ match Param.annotation param with
     | Some _ =>
         Dict.get (UpdatedTypes.inferred_types u') (Param.name param)
         = Dict.get (UpdatedTypes.inferred_types u) (Param.name param)
     | None =>
         exists param_type,
           infer_param_type param value = Ok param_type
           /\ Dict.get (UpdatedTypes.inferred_types u') (Param.name param)
              = Some param_type
     end.
Proof.
  unfold infer_other_arg. intros Hrun.
  destruct (Param.annotation param) as [a|].
  - injection Hrun as <-.
    destruct (isinstance_View value) as [v|]; cbn; repeat split;
      intros; now dict_get.
  - destruct (infer_param_type param value) as [e|param_type]; [discriminate|].
    injection Hrun as <-.
    destruct (isinstance_View value) as [v|]; cbn; repeat split;
      intros; try now dict_get.
    all: exists param_type; split; [reflexivity | now dict_get].
Qed.

(** A step raises when the parameter has no declared type and no type
    can be inferred for its value. *)
Lemma infer_other_arg_raises (space : ExecutionSpace) (param : Param.t)
    (value : PyValue) (e : Exception) (u : UpdatedTypes.t) :
  Param.annotation param = None ->
  infer_param_type param value = Raise e ->
  infer_other_arg space param value u = Raise e.
Proof. intros Hann Hty. unfold infer_other_arg. now rewrite Hann, Hty. Qed.

End OneParameter.

(** ** Value-driven inference: the loop of [infer_other_args] *)

Section ValueParameters.
Context `{Externals}.

(** After a loop that raised nothing, every value parameter has the
    entries its own step gave it, and no other key was touched. *)
Lemma infer_other_args_ok (param_list : list Param.t) (policy_params : Z)
    (args_list : list PyValue) (start_idx : Z) (space : ExecutionSpace)
    (u u' : UpdatedTypes.t) :
  (0 <= policy_params)%Z ->
  NoDup (map Param.name param_list) ->
  infer_other_args param_list policy_params args_list start_idx space u = Ok u' ->
  (forall i param value,
      (policy_params <= i)%Z ->
      nth_error param_list (Z.to_nat i) = Some param ->
      getitem args_list (start_idx + i - policy_params) = Ok value ->
      Dict.get (UpdatedTypes.layout_change u') (Param.name param)
      = match isinstance_View value with
        | Some v => Some (layout_tag space v)
        | None => Dict.get (UpdatedTypes.layout_change u) (Param.name param)
        end
      /\ match Param.annotation param with
         | Some _ =>
             Dict.get (UpdatedTypes.inferred_types u') (Param.name param)
             = Dict.get (UpdatedTypes.inferred_types u) (Param.name param)
         | None =>
             exists param_type,
               infer_param_type param value = Ok param_type
               /\ Dict.get (UpdatedTypes.inferred_types u') (Param.name param)
                  = Some param_type
         end)
  /\ (forall k,
         (forall i param,
             (policy_params <= i)%Z ->
             nth_error param_list (Z.to_nat i) = Some param ->
             Param.name param <> k) ->
         Dict.get (UpdatedTypes.inferred_types u') k
         = Dict.get (UpdatedTypes.inferred_types u) k
         /\ Dict.get (UpdatedTypes.layout_change u') k
            = Dict.get (UpdatedTypes.layout_change u) k).
Proof.
  intros Hpp Hnd Hrun. unfold infer_other_args in Hrun.
  set (hi := Z.of_nat (List.length param_list)) in *.
  pose (P := fun (done : list Z) (s : UpdatedTypes.t) =>
    (forall i param value,
        In i done ->
        nth_error param_list (Z.to_nat i) = Some param ->
        getitem args_list (start_idx + i - policy_params) = Ok value ->
        Dict.get (UpdatedTypes.layout_change s) (Param.name param)
        = match isinstance_View value with
          | Some v => Some (layout_tag space v)
          | None => Dict.get (UpdatedTypes.layout_change u) (Param.name param)
          end
        /\ match Param.annotation param with
           | Some _ =>
               Dict.get (UpdatedTypes.inferred_types s) (Param.name param)
               = Dict.get (UpdatedTypes.inferred_types u) (Param.name param)
           | None =>
               exists param_type,
                 infer_param_type param value = Ok param_type
                 /\ Dict.get (UpdatedTypes.inferred_types s) (Param.name param)
                    = Some param_type
           end)
    /\ (forall k,
           (forall i param,
               In i done ->
               nth_error param_list (Z.to_nat i) = Some param ->
               Param.name param <> k) ->
           Dict.get (UpdatedTypes.inferred_types s) k
           = Dict.get (UpdatedTypes.inferred_types u) k
           /\ Dict.get (UpdatedTypes.layout_change s) k
              = Dict.get (UpdatedTypes.layout_change u) k)).
  assert (HP : P (range policy_params hi) u').
  { apply (for_each_invariant _ P (range policy_params hi)) with (s := u) (3 := Hrun).
    - intros done a rest s s' Hsplit (Hdone & Hrest) Hbody.
      assert (Ha : (policy_params <= a < hi)%Z).
      { apply in_range. rewrite Hsplit. apply in_elt. }
      assert (Hfresh : ~ In a done).
      { pose proof (NoDup_range policy_params hi) as Hn. rewrite Hsplit in Hn.
        apply NoDup_remove_2 in Hn. intros Hd. apply Hn, in_or_app. now left. }
      destruct (getitem param_list a) as [e|pa] eqn:Hpa; [discriminate|].
      destruct (getitem args_list (start_idx + a - policy_params)) as [e|va] eqn:Hva;
        [discriminate|].
      cbn [bind] in Hbody.
      apply getitem_nth_error in Hpa; [|lia].
      destruct (infer_other_arg_ok space pa va s s' Hbody) as (Hother & Hlay & Hty).
      assert (Hdistinct : forall i param,
                 In i done -> nth_error param_list (Z.to_nat i) = Some param ->
                 Param.name param <> Param.name pa).
      { intros i param Hi Hparam Hname.
        assert (Z.to_nat i = Z.to_nat a) by (eapply distinct_names; eauto).
        assert (Hir : (policy_params <= i < hi)%Z).
        { apply in_range. rewrite Hsplit. apply in_or_app. now left. }
        apply Hfresh. replace a with i by lia. exact Hi. }
      destruct (Hrest (Param.name pa) Hdistinct) as [Hty0 Hlay0].
      split.
      + intros i param value Hi Hparam Hvalue.
        apply in_app_or in Hi as [Hi|[<-|[]]].
        * assert (Hne : Param.name param <> Param.name pa) by eauto.
          destruct (Hother _ Hne) as [Ht Hl]. rewrite Ht, Hl.
          now apply (Hdone i param value).
        * replace param with pa by congruence.
          replace value with va by (unfold Ok in *; congruence).
          split.
          -- rewrite Hlay. destruct (isinstance_View va); [reflexivity | exact Hlay0].
          -- destruct (Param.annotation pa); [congruence | exact Hty].
      + intros k Hk.
        assert (Hne : k <> Param.name pa).
        { intros ->. apply (Hk a pa); [apply in_or_app; right; now left | exact Hpa | reflexivity]. }
        destruct (Hother _ Hne) as [Ht Hl]. rewrite Ht, Hl.
        apply Hrest. intros i param Hi. apply Hk, in_or_app. now left.
    - split; [intros; contradiction | intros; now split]. }
  destruct HP as [Hdone Hrest]. split.
  - intros i param value Hi Hparam Hvalue. apply (Hdone i param value); try assumption.
    apply in_range. split; [exact Hi|].
    assert (Z.to_nat i < List.length param_list)%nat
      by (apply nth_error_Some; congruence).
    unfold hi. lia.
  - intros k Hk. apply Hrest. intros i param Hi. apply Hk. apply in_range in Hi. lia.
Qed.

(** The loop raises when some value parameter without a declared type is
    bound to a value no type can be inferred for. *)
Lemma infer_other_args_raises (param_list : list Param.t) (policy_params : Z)
    (args_list : list PyValue) (start_idx : Z) (space : ExecutionSpace)
    (u : UpdatedTypes.t) (i : Z) (param : Param.t) (value : PyValue)
    (e : Exception) :
  (0 <= policy_params <= i)%Z ->
  nth_error param_list (Z.to_nat i) = Some param ->
  getitem args_list (start_idx + i - policy_params) = Ok value ->
  Param.annotation param = None ->
  infer_param_type param value = Raise e ->
  raises (infer_other_args param_list policy_params args_list start_idx space u).
Proof.
  intros Hi Hparam Hvalue Hann Hty. unfold infer_other_args.
  apply for_each_raises with (a := i).
  - apply in_range. split; [lia|].
    assert (Z.to_nat i < List.length param_list)%nat
      by (apply nth_error_Some; congruence).
    lia.
  - intros s. exists e.
    apply getitem_nth_error in Hparam; [|lia].
    rewrite Hparam, Hvalue. cbn [bind Ok].
    unfold Ok. cbn [bind]. now apply infer_other_arg_raises.
Qed.

Lemma count_policy_params_nonneg (parallel_type : string) (policy : PyValue) :
  (0 <= count_policy_params parallel_type policy)%Z.
Proof.
  unfold count_policy_params.
  assert (0 <= match policy with
               | PyPolicy (MDRangePolicy _ begin _) => Z.of_nat (List.length begin)
               | _ => 1
               end)%Z.
  { destruct policy as [| | | | |q| | | |]; try lia. destruct q; lia. }
  destruct (parallel_type =? "parallel_reduce"), (parallel_type =? "parallel_scan"); lia.
Qed.

(** A call with such a binding raises: it returns neither types nor a
    signature. *)
Lemma get_annotations_raises (parallel_type : string)
    (handled_args : HandledArgs.t) (args : list PyValue)
    (passed_kwargs : Dict.t PyValue) (param_list : list Param.t)
    (i : Z) (param : Param.t) (value : PyValue) (e : Exception) :
  signature_parameters (HandledArgs.workunit handled_args) = Ok param_list ->
  let policy_params :=
    count_policy_params parallel_type (HandledArgs.policy handled_args) in
  (policy_params <= i)%Z ->
  nth_error param_list (Z.to_nat i) = Some param ->
  getitem (queue_kwargs param_list policy_params args passed_kwargs)
    (value_index handled_args + i - policy_params) = Ok value ->
  Param.annotation param = None ->
  infer_param_type param value = Raise e ->
  raises (get_annotations parallel_type handled_args args passed_kwargs).
Proof.
  intros Hsig policy_params Hi Hparam Hvalue Hann Hty.
  pose proof (count_policy_params_nonneg parallel_type
                (HandledArgs.policy handled_args)) as Hpp.
  fold policy_params in Hpp.
  assert (Hlen : (i < Z.of_nat (List.length param_list))%Z).
  { assert (Z.to_nat i < List.length param_list)%nat
      by (apply nth_error_Some; congruence). lia. }
  unfold get_annotations. rewrite Hsig. unfold Ok at 1. cbn [bind].
  fold policy_params.
  destruct (infer_policy_args _ _ _ _ _) as [e0|u]; [now exists e0|].
  cbn [bind].
  replace (Z.of_nat (List.length param_list) =? policy_params)%Z with false by lia.
  destruct (negb _); [eexists; reflexivity|].
  destruct (getattr_space _) as [e0|space]; [now exists e0|].
  cbn [bind].
  destruct (infer_other_args_raises param_list policy_params
              (queue_kwargs param_list policy_params args passed_kwargs)
              (value_index handled_args) space u i param value e) as [e1 He1];
    try assumption; [lia|].
  rewrite He1. now exists e1.
Qed.

End ValueParameters.

(** ** Value-driven inference: the claims *)

Lemma value_parameter_in_bounds (param_list : list Param.t) (i : Z)
    (param : Param.t) :
  nth_error param_list (Z.to_nat i) = Some param ->
  (Z.of_nat (Z.to_nat i) < Z.of_nat (List.length param_list))%Z.
Proof.
  intros Hparam.
  assert (Z.to_nat i < List.length param_list)%nat
    by (apply nth_error_Some; congruence).
  lia.
Qed.

(** The type inferred for the value parameter at position [i], read off
    the result of a loop that raised nothing. *)
Lemma infer_other_args_type `{Externals} (param_list : list Param.t)
    (policy_params : Z) (args_list : list PyValue) (start_idx : Z)
    (space : ExecutionSpace) (u u' : UpdatedTypes.t) (i : Z) (param : Param.t)
    (value : PyValue) (param_type : string) :
  (0 <= policy_params <= i)%Z ->
  NoDup (map Param.name param_list) ->
  nth_error param_list (Z.to_nat i) = Some param ->
  Param.annotation param = None ->
  getitem args_list (start_idx + i - policy_params) = Ok value ->
  infer_param_type param value = Ok param_type ->
  infer_other_args param_list policy_params args_list start_idx space u = Ok u' ->
  Dict.get (UpdatedTypes.inferred_types u') (Param.name param) = Some param_type.
Proof.
  intros Hi Hnd Hparam Hann Hvalue Hty Hrun.
  destruct (infer_other_args_ok param_list policy_params args_list start_idx
              space u u') as [Hbound _]; [lia | assumption | assumption |].
  destruct (Hbound i param value) as [_ Hentry]; [lia | assumption | assumption |].
  rewrite Hann in Hentry. destruct Hentry as (ty & Hty' & Hget).
  rewrite Hget. unfold Ok in *. congruence.
Qed.

(** C5: a built-in integer bound to a value parameter without a declared
    type is inferred as [int] when its bit length is at most 31 and as
    [numpy:int64] when its bit length is 32 or more; the step for it never
    raises. *)
Theorem C5_integer_promotion `{Externals} (param_list : list Param.t)
    (policy_params : Z) (args_list : list PyValue) (start_idx : Z)
    (space : ExecutionSpace) (u u' : UpdatedTypes.t) (i : Z) (param : Param.t)
    (n : Z) :
  (0 <= policy_params <= i)%Z ->
  NoDup (map Param.name param_list) ->
  nth_error param_list (Z.to_nat i) = Some param ->
  Param.annotation param = None ->
  getitem args_list (start_idx + i - policy_params) = Ok (PyInt n) ->
  infer_other_args param_list policy_params args_list start_idx space u = Ok u' ->
  (forall s, exists s', infer_other_arg space param (PyInt n) s = Ok s')
  /\ ((int_bit_length n <= 31)%Z ->
      Dict.get (UpdatedTypes.inferred_types u') (Param.name param) = Some "int")
  /\ ((32 <= int_bit_length n)%Z ->
      Dict.get (UpdatedTypes.inferred_types u') (Param.name param)
      = Some "numpy:int64").
Proof.
  intros Hi Hnd Hparam Hann Hvalue Hrun.
  pose proof (infer_param_type_int param n) as Hty.
  split; [|split].
  - intros s. unfold infer_other_arg. cbn [isinstance_View].
    rewrite Hann, Hty. eexists. reflexivity.
  - intros Hsmall. replace (int_bit_length n >? 31)%Z with false in Hty by lia.
    eapply infer_other_args_type; eauto.
  - intros Hlarge. replace (int_bit_length n >? 31)%Z with true in Hty by lia.
    eapply infer_other_args_type; eauto.
Qed.

Lemma supported_np_dtypes_spec `{Externals} (x : string) :
  PyStr.mem x SUPPORTED_NP_DTYPES = true
  <-> (In x DataType_dir /\ PyStr.startswith "__" x = false)
      \/ x = "float64" \/ x = "float32".
Proof.
  unfold PyStr.mem, SUPPORTED_NP_DTYPES. rewrite existsb_exists. split.
  - intros (y & Hin & Heq). apply String.eqb_eq in Heq as <-.
    apply in_app_or in Hin as [Hin|Hin].
    + apply filter_In in Hin as [Hin Hf]. left. split; [exact Hin|].
      now destruct (PyStr.startswith "__" x).
    + right. destruct Hin as [<-|[<-|[]]]; auto.
  - intros [[Hin Hs]|Hfloat]; exists x; (split; [|apply String.eqb_refl]);
      apply in_or_app.
    + left. apply filter_In. split; [exact Hin|]. now rewrite Hs.
    + right. destruct Hfloat as [->| ->]; [now left | right; now left].
Qed.

(** C6: a scalar of a numpy class bound to a value parameter without a
    declared type raises the unsupported-type [TypeError] when the name of
    its class is neither a public attribute of [DataType] nor [float64] nor
    [float32], and then the call returns nothing; otherwise it is inferred
    as [numpy:] followed by the name, with [float64] read as [double] and
    [float32] as [float].  (No class of numpy is named [int], the one name
    the promotion of built-in integers looks for.) *)
Theorem C6_numpy_scalars `{Externals} (param : Param.t) (o : Instance.t) :
  Instance.type_module o = "numpy" ->
  Instance.type_name o <> "int" ->
  Param.annotation param = None ->
  (PyStr.mem (Instance.type_name o) SUPPORTED_NP_DTYPES = true
   <-> (In (Instance.type_name o) DataType_dir
        /\ PyStr.startswith "__" (Instance.type_name o) = false)
       \/ Instance.type_name o = "float64" \/ Instance.type_name o = "float32")
  /\ (PyStr.mem (Instance.type_name o) SUPPORTED_NP_DTYPES = false ->
      (forall space u,
          infer_other_arg space param (PyObject o) u
          = Raise (TypeError_numpy_type_unsupported (Instance.type_name o)))
      /\ (forall parallel_type handled_args args passed_kwargs param_list i,
             signature_parameters (HandledArgs.workunit handled_args) = Ok param_list ->
             (count_policy_params parallel_type (HandledArgs.policy handled_args) <= i)%Z ->
             nth_error param_list (Z.to_nat i) = Some param ->
             getitem
               (queue_kwargs param_list
                  (count_policy_params parallel_type (HandledArgs.policy handled_args))
                  args passed_kwargs)
               (value_index handled_args + i
                - count_policy_params parallel_type (HandledArgs.policy handled_args))
             = Ok (PyObject o) ->
             raises (get_annotations parallel_type handled_args args passed_kwargs)))
  /\ (PyStr.mem (Instance.type_name o) SUPPORTED_NP_DTYPES = true ->
      (forall space u,
          infer_other_arg space param (PyObject o) u
          = Ok (UpdatedTypes.set_inferred_type u (Param.name param)
                  ("numpy:" ++ spec_float_alias (Instance.type_name o))))
      /\ (forall param_list policy_params args_list start_idx space u u' i,
             (0 <= policy_params <= i)%Z ->
             NoDup (map Param.name param_list) ->
             nth_error param_list (Z.to_nat i) = Some param ->
             getitem args_list (start_idx + i - policy_params) = Ok (PyObject o) ->
             infer_other_args param_list policy_params args_list start_idx space u
             = Ok u' ->
             Dict.get (UpdatedTypes.inferred_types u') (Param.name param)
             = Some ("numpy:" ++ spec_float_alias (Instance.type_name o)))).
Proof.
  intros Hmod Hname Hann.
  pose proof (infer_param_type_numpy param o Hmod Hname) as Hty.
  split; [apply supported_np_dtypes_spec|]. split.
  - intros Hmem. rewrite Hmem in Hty. split.
    + intros space u. now apply infer_other_arg_raises.
    + intros parallel_type handled_args args passed_kwargs param_list i
        Hsig Hi Hparam Hvalue.
      eapply get_annotations_raises; eauto.
  - intros Hmem. rewrite Hmem in Hty. split.
    + intros space u. unfold infer_other_arg. cbn [isinstance_View].
      now rewrite Hann, Hty.
    + intros param_list policy_params args_list start_idx space u u' i
        Hi Hnd Hparam Hvalue Hrun.
      eapply infer_other_args_type; eauto.
Qed.




(** ** The result of [get_annotations] *)

Lemma only_types_changed_refl (u : UpdatedTypes.t) : only_types_changed u u.
Proof. repeat split. Qed.

Lemma only_types_changed_trans (u v w : UpdatedTypes.t) :
  only_types_changed u v -> only_types_changed v w -> only_types_changed u w.
Proof.
  intros (? & ? & ? & ?) (? & ? & ? & ?). repeat split; congruence.
Qed.

(** Under any policy, a step that raised nothing touched only the entry
    of its own parameter in the type map. *)
Lemma infer_policy_arg_frame (policy_params : Z) (policy : PyValue)
    (parallel_type : string) (i : Z) (param : Param.t) (u u' : UpdatedTypes.t) :
  infer_policy_arg policy_params policy parallel_type i param u = Ok u' ->
  only_types_changed u u'
  /\ forall k, k <> Param.name param ->
               Dict.get (UpdatedTypes.inferred_types u') k
               = Dict.get (UpdatedTypes.inferred_types u) k.
Proof.
  intros Hrun. destruct (supported_policy policy) as [p|] eqn:Hsup.
  - destruct (infer_policy_arg_supported policy_params policy p parallel_type
                i param u Hsup) as (u'' & Hrun' & Hsame & Hother & _).
    rewrite Hrun in Hrun'. injection Hrun' as <-. now split.
  - rewrite infer_policy_arg_unsupported in Hrun by exact Hsup.
    destruct (Param.annotation param); [|discriminate].
    injection Hrun as <-. split; [apply only_types_changed_refl | reflexivity].
Qed.

Lemma infer_policy_args_frame (param_list : list Param.t) (policy_params : Z)
    (policy : PyValue) (parallel_type : string) (u u' : UpdatedTypes.t) :
  infer_policy_args param_list policy_params policy parallel_type u = Ok u' ->
  only_types_changed u u'
  /\ forall k,
      (forall i param,
          (0 <= i < policy_params)%Z ->
          nth_error param_list (Z.to_nat i) = Some param ->
          Param.name param <> k) ->
      Dict.get (UpdatedTypes.inferred_types u') k
      = Dict.get (UpdatedTypes.inferred_types u) k.
Proof.
  intros Hrun. unfold infer_policy_args in Hrun.
  pose (P := fun (done : list Z) (s : UpdatedTypes.t) =>
    only_types_changed u s
    /\ forall k,
        (forall i param,
            In i done -> nth_error param_list (Z.to_nat i) = Some param ->
            Param.name param <> k) ->
        Dict.get (UpdatedTypes.inferred_types s) k
        = Dict.get (UpdatedTypes.inferred_types u) k).
  assert (HP : P (range 0 policy_params) u').
  { apply (for_each_invariant _ P (range 0 policy_params)) with (s := u) (3 := Hrun).
    - intros done a rest s s' Hsplit (Hsame & Hrest) Hbody.
      assert (Ha : (0 <= a < policy_params)%Z).
      { apply in_range. rewrite Hsplit. apply in_elt. }
      destruct (getitem param_list a) as [e|pa] eqn:Hpa; [discriminate|].
      cbn [bind] in Hbody. apply getitem_nth_error in Hpa; [|lia].
      apply infer_policy_arg_frame in Hbody as [Hsame' Hother].
      split; [eapply only_types_changed_trans; eauto|].
      intros k Hk. rewrite Hother.
      + apply Hrest. intros i param Hi. apply Hk, in_or_app. now left.
      + intros ->. apply (Hk a pa); [apply in_or_app; right; now left | exact Hpa | reflexivity].
    - split; [apply only_types_changed_refl | reflexivity]. }
  destruct HP as [Hsame Hrest]. split; [exact Hsame|].
  intros k Hk. apply Hrest. intros i param Hi. apply Hk, in_range, Hi.
Qed.

Lemma get_types_sig_some (types layouts : Dict.t string) :
  ~ (types = [] /\ layouts = []) ->
  exists signature, get_types_sig types layouts = Some signature.
Proof.
  intros Hne. unfold get_types_sig.
  destruct layouts, types; cbn [Dict.len List.length Nat.eqb andb];
    try (eexists; reflexivity).
  exfalso. now apply Hne.
Qed.

(** C2, as stated, fails: [parallel_for(10, w)] with [def w(i)] infers
    [{"i": "int"}] and returns the object with its signature field left at
    [None]. *)
Lemma C2_counterexample :
  exists u,
    get_annotations (H := example_externals) "parallel_for" example_call_i
      [PyInt 10; example_workunit_i] [] = Ok (Some u)
    /\ UpdatedTypes.inferred_types u = [("i", "int")]
    /\ ~ (UpdatedTypes.types_signature u = None
          <-> UpdatedTypes.inferred_types u = []
              /\ UpdatedTypes.layout_change u = []).
Proof.
  eexists. split; [vm_compute; reflexivity|]. split; [reflexivity|].
  cbn. intros [Hempty _]. destruct (Hempty eq_refl) as [Hnil _]. discriminate.
Qed.

(** C2 (amended): on a call on which inference succeeds and at least one
    value parameter remains, the result is [None] exactly when the type
    map and the layout map are both empty, and otherwise carries a
    signature string, that of [get_types_sig]; when every parameter of the
    callback is policy-owned, the result is [None] when no type was
    inferred and is otherwise returned with the signature field [None]. *)
Theorem C2_signature_presence `{Externals} (parallel_type : string)
    (handled_args : HandledArgs.t) (args : list PyValue)
    (passed_kwargs : Dict.t PyValue) (r : option UpdatedTypes.t) :
  get_annotations parallel_type handled_args args passed_kwargs = Ok r ->
  exists param_list u,
    signature_parameters (HandledArgs.workunit handled_args) = Ok param_list
    /\ infer_policy_args param_list
         (count_policy_params parallel_type (HandledArgs.policy handled_args))
         (HandledArgs.policy handled_args) parallel_type
         (initial_updated_types (HandledArgs.workunit handled_args) param_list)
       = Ok u
    /\ if (Z.of_nat (List.length param_list)
           =? count_policy_params parallel_type (HandledArgs.policy handled_args))%Z
       then
         (UpdatedTypes.inferred_types u = [] <-> r = None)
         /\ (forall u', r = Some u' ->
                        u' = u /\ UpdatedTypes.types_signature u' = None)
       else
         exists space u',
           infer_other_args param_list
             (count_policy_params parallel_type (HandledArgs.policy handled_args))
             (queue_kwargs param_list
                (count_policy_params parallel_type (HandledArgs.policy handled_args))
                args passed_kwargs)
             (value_index handled_args) space u = Ok u'
           /\ (UpdatedTypes.inferred_types u' = []
               /\ UpdatedTypes.layout_change u' = [] <-> r = None)
           /\ (forall u'', r = Some u'' ->
                 exists signature,
                   UpdatedTypes.types_signature u'' = Some signature
                   /\ get_types_sig (UpdatedTypes.inferred_types u')
                        (UpdatedTypes.layout_change u') = Some signature
                   /\ u'' = UpdatedTypes.set_types_signature u' (Some signature)).
Proof.
  unfold get_annotations. intros Hrun.
  destruct (signature_parameters _) as [e|param_list] eqn:Hsig0; [discriminate|].
  cbn [bind] in Hrun.
  set (policy_params :=
         count_policy_params parallel_type (HandledArgs.policy handled_args)) in *.
  fold (initial_updated_types (HandledArgs.workunit handled_args) param_list) in Hrun.
  destruct (infer_policy_args _ _ _ _ _) as [e|u] eqn:Hpolicy; [discriminate|].
  cbn [bind] in Hrun.
  exists param_list, u. split; [reflexivity|]. split; [exact Hpolicy|].
  destruct (Z.of_nat (List.length param_list) =? policy_params)%Z.
  - apply infer_policy_args_frame in Hpolicy as [(_ & _ & _ & Hsig) _].
    cbn in Hsig.
    destruct (UpdatedTypes.inferred_types u) as [|entry types] eqn:Htypes;
      cbn in Hrun; injection Hrun as <-.
    + split; [split; reflexivity | intros u' Hu'; discriminate].
    + split; [split; discriminate|].
      intros u' Hu'. injection Hu' as <-. now split.
  - destruct (negb _); [discriminate|].
    destruct (getattr_space _) as [e|space]; [discriminate|].
    cbn [bind] in Hrun.
    destruct (infer_other_args _ _ _ _ _ _) as [e|u'] eqn:Hother; [discriminate|].
    cbn [bind] in Hrun.
    exists space, u'. split; [exact Hother|].
    destruct (Nat.eqb (Dict.len (UpdatedTypes.inferred_types u')) 0
              && Nat.eqb (Dict.len (UpdatedTypes.layout_change u')) 0) eqn:Hempty.
    + injection Hrun as <-.
      apply andb_prop in Hempty as [Ht Hl].
      apply DictFacts.len_zero in Ht, Hl.
      split; [now split | intros u'' Hu''; discriminate].
    + injection Hrun as <-.
      assert (Hne : ~ (UpdatedTypes.inferred_types u' = []
                       /\ UpdatedTypes.layout_change u' = [])).
      { intros [Ht Hl]. rewrite Ht, Hl in Hempty. discriminate. }
      split; [split; [intros Hboth; contradiction | discriminate]|].
      intros u'' Hu''. injection Hu'' as <-.
      destruct (get_types_sig_some _ _ Hne) as [signature Hsig].
      exists signature. rewrite Hsig. repeat split.
Qed.

(** ** The check of the number of arguments *)

Lemma for_each_raise_origin {A S : Type} (body : A -> S -> result S)
    (l : list A) (s : S) (e : Exception) :
  for_each body l s = Raise e -> exists a s0, In a l /\ body a s0 = Raise e.
Proof.
  revert s. induction l as [|a l IH]; intros s Hrun; [discriminate|].
  simpl in Hrun. destruct (body a s) as [e0|s1] eqn:Hb.
  - exists a, s. split; [now left|]. rewrite Hb. exact Hrun.
  - destruct (IH s1 Hrun) as (a' & s0 & Hin & Hb'). exists a', s0.
    split; [now right | exact Hb'].
Qed.

Lemma getitem_raise {A : Type} (l : list A) (i : Z) (e : Exception) :
  getitem l i = Raise e -> e = IndexError.
Proof.
  unfold getitem.
  destruct (_ <? 0)%Z; [intros Heq; now injection Heq|].
  destruct (nth_error l _); [discriminate | intros Heq; now injection Heq].
Qed.

Lemma infer_param_type_raise `{Externals} (param : Param.t) (value : PyValue)
    (e : Exception) :
  infer_param_type param value = Raise e -> ~ is_arguments_mismatch e.
Proof.
  unfold infer_param_type, bit_length.
  destruct (type_name value =? "int"), (isinstance_int value),
    (type_module value =? "numpy"); cbn [bind Ok Raise];
    repeat match goal with
      | |- context [if ?b then _ else _] => destruct b; cbn [bind Ok Raise]
      end;
    destruct (isinstance_View value);
    try destruct (get_pk_datatype _) as [[|c s]|];
    intros Heq; try discriminate; injection Heq as <-; exact (fun x => x).
Qed.

Lemma infer_other_args_raise `{Externals} (param_list : list Param.t)
    (policy_params : Z) (args_list : list PyValue) (start_idx : Z)
    (space : ExecutionSpace) (u : UpdatedTypes.t) (e : Exception) :
  infer_other_args param_list policy_params args_list start_idx space u = Raise e ->
  ~ is_arguments_mismatch e.
Proof.
  intros Hrun. apply for_each_raise_origin in Hrun as (a & s0 & _ & Hbody).
  destruct (getitem param_list a) as [e0|pa] eqn:Hpa.
  { apply getitem_raise in Hpa as ->. injection Hbody as <-. exact (fun x => x). }
  destruct (getitem args_list _) as [e0|va] eqn:Hva.
  { apply getitem_raise in Hva as ->. injection Hbody as <-. exact (fun x => x). }
  cbn [bind] in Hbody. unfold infer_other_arg in Hbody.
  destruct (Param.annotation pa); [discriminate|].
  destruct (infer_param_type pa va) as [e0|ty] eqn:Hty; [|discriminate].
  injection Hbody as <-. now apply infer_param_type_raise in Hty.
Qed.

(** C8, as stated, fails: in [parallel_for(10, w, x=view)] with
    [def w(i: int, x: pk.View1D[pk.double])] no value parameter lacks a
    declared type and one extra argument is there, and the call returns its
    result. *)
Lemma C8_counterexample :
  undeclared_value_params
    [Param.mk "i" (Some "int"); Param.mk "x" (Some "pk.View1D[pk.double]")] 1
  = 0%Z
  /\ (Z.of_nat
        (List.length
           (queue_kwargs
              [Param.mk "i" (Some "int"); Param.mk "x" (Some "pk.View1D[pk.double]")]
              1 [PyInt 10; example_workunit_declared]
              [("x", example_view LayoutDefault)]))
      - value_index example_call_declared = 1)%Z
  /\ get_annotations (H := example_externals) "parallel_for" example_call_declared
       [PyInt 10; example_workunit_declared] [("x", example_view LayoutDefault)]
     = Ok (Some (UpdatedTypes.mk example_workunit_declared []
                   [Param.mk "i" (Some "int");
                    Param.mk "x" (Some "pk.View1D[pk.double]")]
                   [("x", "LayoutRight")] (Some "xR"))).
Proof. repeat split; vm_compute; reflexivity. Qed.

(** C8 (amended): a call that reaches the inference for the value
    parameters raises the assertion "Unannotated arguments mismatch" exactly
    when the number of value parameters, declared or not, differs from the
    number of extra arguments, counted from position 3 of the argument list
    when the call has a label and from position 2 otherwise, the keyword
    arguments that name a value parameter having been appended. *)
Theorem C8_arguments_mismatch `{Externals} (parallel_type : string)
    (handled_args : HandledArgs.t) (args : list PyValue)
    (passed_kwargs : Dict.t PyValue) (param_list : list Param.t)
    (u : UpdatedTypes.t) :
  signature_parameters (HandledArgs.workunit handled_args) = Ok param_list ->
  infer_policy_args param_list
    (count_policy_params parallel_type (HandledArgs.policy handled_args))
    (HandledArgs.policy handled_args) parallel_type
    (initial_updated_types (HandledArgs.workunit handled_args) param_list)
  = Ok u ->
  Z.of_nat (List.length param_list)
  <> count_policy_params parallel_type (HandledArgs.policy handled_args) ->
  let value_params :=
    (Z.of_nat (List.length param_list)
     - count_policy_params parallel_type (HandledArgs.policy handled_args))%Z in
  let extras :=
    (Z.of_nat
       (List.length
          (queue_kwargs param_list
             (count_policy_params parallel_type (HandledArgs.policy handled_args))
             args passed_kwargs))
     - value_index handled_args)%Z in
  value_index handled_args
  = match HandledArgs.name handled_args with Some _ => 3%Z | None => 2%Z end
  /\ value_params
     = Z.of_nat
         (List.length
            (skipn
               (Z.to_nat
                  (count_policy_params parallel_type (HandledArgs.policy handled_args)))
               param_list))
  /\ (value_params <> extras ->
      get_annotations parallel_type handled_args args passed_kwargs
      = Raise (AssertionError_unannotated_arguments_mismatch value_params extras))
  /\ (value_params = extras ->
      forall e,
        get_annotations parallel_type handled_args args passed_kwargs = Raise e ->
        ~ is_arguments_mismatch e).
Proof.
  intros Hsig Hpolicy Hmore value_params extras.
  pose proof (count_policy_params_nonneg parallel_type
                (HandledArgs.policy handled_args)) as Hpp.
  assert (Hle : (count_policy_params parallel_type (HandledArgs.policy handled_args)
                 <= Z.of_nat (List.length param_list))%Z).
  { destruct (Z_le_gt_dec
                (count_policy_params parallel_type (HandledArgs.policy handled_args))
                (Z.of_nat (List.length param_list))) as [Hle|Hgt]; [exact Hle|].
    exfalso. unfold infer_policy_args in Hpolicy.
    assert (Hraise : raises
              (for_each
                 (fun i updated_types =>
                    param <- getitem param_list i ;;
                    infer_policy_arg
                      (count_policy_params parallel_type
                         (HandledArgs.policy handled_args))
                      (HandledArgs.policy handled_args) parallel_type i param
                      updated_types)
                 (range 0
                    (count_policy_params parallel_type
                       (HandledArgs.policy handled_args)))
                 (initial_updated_types (HandledArgs.workunit handled_args)
                    param_list))).
    { apply for_each_raises with (a := Z.of_nat (List.length param_list)).
      - apply in_range. lia.
      - intros s. exists IndexError. unfold getitem. cbv zeta.
        replace (Z.of_nat (List.length param_list) <? 0)%Z with false by lia.
        rewrite Nat2Z.id.
        assert (Hnone : nth_error param_list (List.length param_list) = None)
          by (apply nth_error_None; lia).
        rewrite Hnone. now destruct (_ <? 0)%Z. }
    destruct Hraise as [e He]. rewrite He in Hpolicy. discriminate. }
  split; [reflexivity|]. split.
  { unfold value_params. rewrite length_skipn. lia. }
  apply Z.eqb_neq in Hmore. subst value_params extras.
  split; intros Hcmp; unfold get_annotations; rewrite Hsig; unfold Ok;
    cbn [bind];
    fold (initial_updated_types (HandledArgs.workunit handled_args) param_list);
    unfold Ok in Hpolicy; rewrite Hpolicy; cbn [bind]; rewrite Hmore.
  - apply Z.eqb_neq in Hcmp. now rewrite Hcmp.
  - apply Z.eqb_eq in Hcmp. rewrite Hcmp. cbn [negb].
    intros e Hrun.
    destruct (getattr_space (HandledArgs.policy handled_args)) as [e0|space] eqn:Hspace.
    + injection Hrun as <-. unfold getattr_space in Hspace.
      destruct (HandledArgs.policy handled_args); try discriminate;
        injection Hspace as <-; exact (fun x => x).
    + cbn [bind] in Hrun.
      destruct (infer_other_args _ _ _ _ _ _) as [e0|u'] eqn:Hother.
      * injection Hrun as <-. now apply infer_other_args_raise in Hother.
      * cbn [bind] in Hrun. destruct (_ && _); discriminate.
Qed.

(** ** What the signature depends on *)

Lemma get_types_sig_layouts_agree (types layouts1 layouts2 : Dict.t string) :
  some_descriptor_nonempty types ->
  (forall name ty,
      In (name, ty) types -> PyStr.contains "View" ty = true ->
      Dict.get layouts1 name = Dict.get layouts2 name) ->
  get_types_sig types layouts1 = get_types_sig types layouts2.
Proof.
  intros Hsome Hagree.
  assert (Hne : types <> []).
  { destruct Hsome as (name & ty & Hin & _). intros ->. contradiction. }
  rewrite !get_types_sig_is_spec by (assumption || now left).
  unfold spec_signature, spec_uncompacted. do 3 f_equal.
  apply map_ext_in. intros [name ty] Hin. unfold spec_entry.
  destruct (PyStr.contains "View" ty) eqn:Hview; [|reflexivity].
  now rewrite (Hagree name ty Hin Hview).
Qed.

(** Two loops over the same items keep a relation between their states
    when each pair of steps does. *)
Lemma for_each_related {A S : Type} (body1 body2 : A -> S -> result S)
    (R : S -> S -> Prop) (l : list A) :
  (forall a s1 s2 s1' s2',
      In a l -> R s1 s2 -> body1 a s1 = Ok s1' -> body2 a s2 = Ok s2' ->
      R s1' s2') ->
  forall s1 s2 s1' s2',
    R s1 s2 -> for_each body1 l s1 = Ok s1' -> for_each body2 l s2 = Ok s2' ->
    R s1' s2'.
Proof.
  induction l as [|a l IH]; intros Hstep s1 s2 s1' s2' HR Hrun1 Hrun2.
  - injection Hrun1 as <-. injection Hrun2 as <-. exact HR.
  - simpl in Hrun1, Hrun2.
    destruct (body1 a s1) as [e|t1] eqn:Hb1; [discriminate|].
    destruct (body2 a s2) as [e|t2] eqn:Hb2; [discriminate|].
    cbn [bind] in Hrun1, Hrun2.
    apply (IH) with (s1 := t1) (s2 := t2); try assumption.
    + intros a' r1 r2 r1' r2' Hin. apply Hstep. now right.
    + apply (Hstep a s1 s2 t1 t2); try assumption. now left.
Qed.

(** The two maps after a step that raised nothing. *)
Lemma infer_other_arg_maps `{Externals} (space : ExecutionSpace) (param : Param.t)
    (value : PyValue) (u u' : UpdatedTypes.t) :
  infer_other_arg space param value u = Ok u' ->
  UpdatedTypes.layout_change u'
  = match isinstance_View value with
    | Some v => Dict.set (UpdatedTypes.layout_change u) (Param.name param)
                  (layout_tag space v)
    | None => UpdatedTypes.layout_change u
    end
  /\ match Param.annotation param with
     | Some _ => UpdatedTypes.inferred_types u' = UpdatedTypes.inferred_types u
     | None =>
         exists param_type,
           infer_param_type param value = Ok param_type
           /\ UpdatedTypes.inferred_types u'
              = Dict.set (UpdatedTypes.inferred_types u) (Param.name param)
                  param_type
     end.
Proof.
  unfold infer_other_arg. intros Hrun.
  destruct (Param.annotation param) as [a|].
  - injection Hrun as <-. now destruct (isinstance_View value).
  - destruct (infer_param_type param value) as [e|param_type]; [discriminate|].
    injection Hrun as <-.
    destruct (isinstance_View value); (split; [reflexivity|]);
      now exists param_type.
Qed.

Section TwoCalls.
Context `{Externals}.
Variables (param_list : list Param.t) (policy_params : Z).
Hypothesis policy_params_nonneg : (0 <= policy_params)%Z.
Hypothesis names_distinct : NoDup (map Param.name param_list).

(** The name of a value parameter without a declared type is not the name
    of a declared one. *)
Lemma undeclared_not_declared (i : Z) (param : Param.t) :
  (policy_params <= i)%Z ->
  nth_error param_list (Z.to_nat i) = Some param ->
  Param.annotation param = None ->
  ~ declared_value_param param_list policy_params (Param.name param).
Proof.
  intros Hi Hparam Hann (j & q & a & Hj & Hq & Hqa & Hname).
  assert (Z.to_nat j = Z.to_nat i) by (eapply distinct_names; eauto).
  replace (Z.to_nat j) with (Z.to_nat i) in Hq by congruence.
  congruence.
Qed.

(** The keys of the type map after the loop: those before it and the
    names of the value parameters without a declared type. *)
Lemma infer_other_args_keys (args_list : list PyValue) (start_idx : Z)
    (space : ExecutionSpace) (u u' : UpdatedTypes.t) (k : string) :
  infer_other_args param_list policy_params args_list start_idx space u = Ok u' ->
  In k (Dict.keys (UpdatedTypes.inferred_types u')) ->
  In k (Dict.keys (UpdatedTypes.inferred_types u))
  \/ exists i param,
      (policy_params <= i)%Z
      /\ nth_error param_list (Z.to_nat i) = Some param
      /\ Param.annotation param = None
      /\ Param.name param = k.
Proof.
  intros Hrun. unfold infer_other_args in Hrun.
  set (hi := Z.of_nat (List.length param_list)) in *.
  pose (P := fun (done : list Z) (s : UpdatedTypes.t) =>
    In k (Dict.keys (UpdatedTypes.inferred_types s)) ->
    In k (Dict.keys (UpdatedTypes.inferred_types u))
    \/ exists i param,
        (policy_params <= i)%Z
        /\ nth_error param_list (Z.to_nat i) = Some param
        /\ Param.annotation param = None
        /\ Param.name param = k).
  apply (for_each_invariant _ P (range policy_params hi)) with (s := u) (3 := Hrun).
  - intros done a rest s s' Hsplit HP Hbody Hk.
    assert (Ha : (policy_params <= a < hi)%Z).
    { apply in_range. rewrite Hsplit. apply in_elt. }
    destruct (getitem param_list a) as [e|pa] eqn:Hpa; [discriminate|].
    destruct (getitem args_list _) as [e|va]; [discriminate|].
    cbn [bind] in Hbody. apply getitem_nth_error in Hpa; [|lia].
    apply infer_other_arg_maps in Hbody as [_ Htypes].
    destruct (Param.annotation pa) eqn:Hann.
    + rewrite Htypes in Hk. now apply HP.
    + destruct Htypes as (ty & _ & Htypes). rewrite Htypes in Hk.
      apply DictFacts.in_keys_set in Hk as [->|Hk]; [|now apply HP].
      right. exists a, pa. repeat split; (lia || assumption).
  - intros Hk. now left.
Qed.

(** Two runs of the loop on arguments that agree wherever the parameter
    has no declared type: the type maps are equal, and the layout maps
    agree outside the names of the declared value parameters. *)
Lemma infer_other_args_related (args1 args2 : list PyValue) (start_idx : Z)
    (space : ExecutionSpace) (u u1 u2 : UpdatedTypes.t) :
  (forall i param v1 v2,
      (policy_params <= i)%Z ->
      nth_error param_list (Z.to_nat i) = Some param ->
      Param.annotation param = None ->
      getitem args1 (start_idx + i - policy_params) = Ok v1 ->
      getitem args2 (start_idx + i - policy_params) = Ok v2 ->
      v1 = v2) ->
  infer_other_args param_list policy_params args1 start_idx space u = Ok u1 ->
  infer_other_args param_list policy_params args2 start_idx space u = Ok u2 ->
  UpdatedTypes.inferred_types u1 = UpdatedTypes.inferred_types u2
  /\ forall k,
      ~ declared_value_param param_list policy_params k ->
      Dict.get (UpdatedTypes.layout_change u1) k
      = Dict.get (UpdatedTypes.layout_change u2) k.
Proof.
  intros Hagree Hrun1 Hrun2. unfold infer_other_args in Hrun1, Hrun2.
  pose (R := fun (s1 s2 : UpdatedTypes.t) =>
    UpdatedTypes.inferred_types s1 = UpdatedTypes.inferred_types s2
    /\ forall k,
        ~ declared_value_param param_list policy_params k ->
        Dict.get (UpdatedTypes.layout_change s1) k
        = Dict.get (UpdatedTypes.layout_change s2) k).
  apply (for_each_related _ _ R _) with (s1 := u) (s2 := u) (3 := Hrun1) (4 := Hrun2);
    [|split; reflexivity].
  intros a s1 s2 s1' s2' Ha [Htypes Hlayouts] Hb1 Hb2.
  apply in_range in Ha.
  destruct (getitem param_list a) as [e|pa] eqn:Hpa; [discriminate|].
  destruct (getitem args1 _) as [e|v1] eqn:Hv1; [discriminate|].
  destruct (getitem args2 _) as [e|v2] eqn:Hv2; [discriminate|].
  cbn [bind] in Hb1, Hb2. apply getitem_nth_error in Hpa; [|lia].
  apply infer_other_arg_maps in Hb1 as [Hl1 Ht1].
  apply infer_other_arg_maps in Hb2 as [Hl2 Ht2].
  destruct (Param.annotation pa) as [ann|] eqn:Hann.
  - split; [congruence|]. intros k Hk.
    assert (Hne : k <> Param.name pa).
    { intros ->. apply Hk. exists a, pa, ann. repeat split; (lia || assumption). }
    rewrite Hl1, Hl2.
    destruct (isinstance_View v1), (isinstance_View v2);
      rewrite ?DictFacts.get_set_other by assumption; now apply Hlayouts.
  - assert (v1 = v2) as <- by (apply (Hagree a pa); (lia || assumption)).
    destruct Ht1 as (ty1 & Hty1 & Ht1), Ht2 as (ty2 & Hty2 & Ht2).
    assert (ty1 = ty2) as <- by (unfold Ok in *; congruence).
    split; [congruence|]. intros k Hk. rewrite Hl1, Hl2.
    destruct (isinstance_View v1); [|now apply Hlayouts].
    destruct (String.eqb_spec k (Param.name pa)) as [->|Hne].
    + now rewrite !DictFacts.get_set_same.
    + rewrite !DictFacts.get_set_other by assumption. now apply Hlayouts.
Qed.

End TwoCalls.

Lemma getitem_app_other {A : Type} (l r : list A) (x y : A) (j : Z) :
  (0 <= j)%Z -> j <> Z.of_nat (List.length l) ->
  getitem (l ++ x :: r)%list j = getitem (l ++ y :: r)%list j.
Proof.
  intros Hj Hne. unfold getitem. rewrite !length_app. cbn [List.length].
  replace (j <? 0)%Z with false by lia.
  assert (Hnth : nth_error (l ++ x :: r)%list (Z.to_nat j)
                 = nth_error (l ++ y :: r)%list (Z.to_nat j)).
  { destruct (Nat.lt_ge_cases (Z.to_nat j) (List.length l)) as [Hlt|Hge].
    - now rewrite !nth_error_app1 by assumption.
    - rewrite !nth_error_app2 by assumption.
      destruct (Z.to_nat j - List.length l)%nat eqn:Hd; [lia | reflexivity]. }
  now rewrite Hnth.
Qed.

Lemma policy_keys_not_declared (param_list : list Param.t) (policy_params : Z)
    (policy : PyValue) (parallel_type : string) (workunit : PyValue)
    (u : UpdatedTypes.t) (k : string) :
  NoDup (map Param.name param_list) ->
  infer_policy_args param_list policy_params policy parallel_type
    (initial_updated_types workunit param_list) = Ok u ->
  declared_value_param param_list policy_params k ->
  ~ In k (Dict.keys (UpdatedTypes.inferred_types u)).
Proof.
  intros Hnd Hrun (j & q & a & Hj & Hq & _ & Hname).
  apply infer_policy_args_frame in Hrun as [_ Hframe].
  apply DictFacts.get_none_iff. rewrite Hframe; [reflexivity|].
  intros i param Hi Hparam Heq.
  assert (Z.to_nat i = Z.to_nat j) by (eapply distinct_names; eauto; congruence).
  lia.
Qed.

(** The type inferred for a value is the empty string only when the
    name of its class is. *)
Lemma infer_param_type_nonempty `{Externals} (param : Param.t) (value : PyValue)
    (param_type : string) :
  type_name value <> "" ->
  infer_param_type param value = Ok param_type ->
  param_type <> "".
Proof.
  intros Hname. unfold infer_param_type, bit_length.
  destruct (type_name value) as [|c name] eqn:Hty; [contradiction|].
  destruct (String.eqb_spec (type_module value) "numpy") as [->|_];
    destruct (String c name =? "int"), (isinstance_int value);
    cbn [bind Ok Raise];
    repeat match goal with
      | |- context [if ?b then _ else _] => destruct b; cbn [bind Ok Raise]
      end;
    destruct (isinstance_View value);
    try destruct (get_pk_datatype _) as [[|c' s']|];
    intros Heq; try discriminate; injection Heq as <-; discriminate.
Qed.

(** The same test seen from a call: in
    [parallel_for(10, w, nameless, view)] with
    [def w(i: int, x, v: pk.View1D[pk.double])], where [nameless] is an
    object of a class whose [__name__] is the empty string, the type map is
    [{"x": ""}], which holds no descriptor, and the layout map is read:
    ["vR"] against ["vL"]. *)
Lemma get_annotations_empty_string_entry :
  exists u1 u2,
    get_annotations (H := example_externals) "parallel_for" example_call_mixed
      [PyInt 10; example_workunit_mixed; example_nameless; example_view LayoutRight]
      [] = Ok (Some u1)
    /\ get_annotations (H := example_externals) "parallel_for" example_call_mixed
         [PyInt 10; example_workunit_mixed; example_nameless; example_view LayoutLeft]
         [] = Ok (Some u2)
    /\ UpdatedTypes.inferred_types u1 = [("x", "")]
    /\ UpdatedTypes.inferred_types u2 = [("x", "")]
    /\ UpdatedTypes.types_signature u1 = Some "vR"
    /\ UpdatedTypes.types_signature u2 = Some "vL"
    /\ UpdatedTypes.types_signature u1 <> UpdatedTypes.types_signature u2.
Proof.
  do 2 eexists. split; [vm_compute; reflexivity|].
  split; [vm_compute; reflexivity|].
  cbn. repeat split. discriminate.
Qed.

(** C9: when the type map is not empty, its descriptors being strings
    that are not empty, the signature depends on the type map and on the
    layout entries of the names that the type map gives a descriptor with
    [View]; the name of a value parameter with a declared type is not a key
    of the type map, so the layout recorded for a view bound to one is not
    read, and two calls whose arguments differ only in values bound to
    parameters with a declared type, in the layout of such a view in
    particular, return the same type map and the same signature. *)
Theorem C9_signature_dependence `{Externals} :
  (forall types layouts1 layouts2 : Dict.t string,
      types <> [] ->
      descriptors_nonempty types ->
      (forall name ty,
          In (name, ty) types -> PyStr.contains "View" ty = true ->
          Dict.get layouts1 name = Dict.get layouts2 name) ->
      get_types_sig types layouts1 = get_types_sig types layouts2)
  /\ (forall parallel_type handled_args param_list args1 kwargs1 args2 kwargs2 u1 u2,
         let policy_params :=
           count_policy_params parallel_type (HandledArgs.policy handled_args) in
         signature_parameters (HandledArgs.workunit handled_args) = Ok param_list ->
         NoDup (map Param.name param_list) ->
         (forall i param v1 v2,
             (policy_params <= i)%Z ->
             nth_error param_list (Z.to_nat i) = Some param ->
             Param.annotation param = None ->
             getitem (queue_kwargs param_list policy_params args1 kwargs1)
               (value_index handled_args + i - policy_params) = Ok v1 ->
             getitem (queue_kwargs param_list policy_params args2 kwargs2)
               (value_index handled_args + i - policy_params) = Ok v2 ->
             v1 = v2) ->
         get_annotations parallel_type handled_args args1 kwargs1 = Ok (Some u1) ->
         get_annotations parallel_type handled_args args2 kwargs2 = Ok (Some u2) ->
         UpdatedTypes.inferred_types u1 <> [] ->
         descriptors_nonempty (UpdatedTypes.inferred_types u1) ->
         UpdatedTypes.inferred_types u1 = UpdatedTypes.inferred_types u2
         /\ UpdatedTypes.types_signature u1 = UpdatedTypes.types_signature u2
         /\ (forall k,
                declared_value_param param_list policy_params k ->
                ~ In k (Dict.keys (UpdatedTypes.inferred_types u1))))
  /\ (forall parallel_type handled_args param_list args1 kwargs1 args2 kwargs2 u1 u2
             before after v layout' param a,
         let policy_params :=
           count_policy_params parallel_type (HandledArgs.policy handled_args) in
         signature_parameters (HandledArgs.workunit handled_args) = Ok param_list ->
         NoDup (map Param.name param_list) ->
         queue_kwargs param_list policy_params args1 kwargs1
         = (before ++ PyView v :: after)%list ->
         queue_kwargs param_list policy_params args2 kwargs2
         = (before ++ PyView (View.mk layout' (View.dtype v) (View.shape v))
                   :: after)%list ->
         nth_error param_list
           (Z.to_nat (policy_params + Z.of_nat (List.length before)
                      - value_index handled_args)) = Some param ->
         Param.annotation param = Some a ->
         get_annotations parallel_type handled_args args1 kwargs1 = Ok (Some u1) ->
         get_annotations parallel_type handled_args args2 kwargs2 = Ok (Some u2) ->
         UpdatedTypes.inferred_types u1 <> [] ->
         descriptors_nonempty (UpdatedTypes.inferred_types u1) ->
         UpdatedTypes.types_signature u1 = UpdatedTypes.types_signature u2).
Proof.
  split.
  { intros types layouts1 layouts2 Hne Hall.
    apply get_types_sig_layouts_agree. now apply descriptors_some_nonempty. }
  assert (Hcalls :
    forall parallel_type handled_args param_list args1 kwargs1 args2 kwargs2 u1 u2,
      let policy_params :=
        count_policy_params parallel_type (HandledArgs.policy handled_args) in
      signature_parameters (HandledArgs.workunit handled_args) = Ok param_list ->
      NoDup (map Param.name param_list) ->
      (forall i param v1 v2,
          (policy_params <= i)%Z ->
          nth_error param_list (Z.to_nat i) = Some param ->
          Param.annotation param = None ->
          getitem (queue_kwargs param_list policy_params args1 kwargs1)
            (value_index handled_args + i - policy_params) = Ok v1 ->
          getitem (queue_kwargs param_list policy_params args2 kwargs2)
            (value_index handled_args + i - policy_params) = Ok v2 ->
          v1 = v2) ->
      get_annotations parallel_type handled_args args1 kwargs1 = Ok (Some u1) ->
      get_annotations parallel_type handled_args args2 kwargs2 = Ok (Some u2) ->
      UpdatedTypes.inferred_types u1 <> [] ->
      descriptors_nonempty (UpdatedTypes.inferred_types u1) ->
      UpdatedTypes.inferred_types u1 = UpdatedTypes.inferred_types u2
      /\ UpdatedTypes.types_signature u1 = UpdatedTypes.types_signature u2
      /\ (forall k,
             declared_value_param param_list policy_params k ->
             ~ In k (Dict.keys (UpdatedTypes.inferred_types u1)))).
  { intros parallel_type handled_args param_list args1 kwargs1 args2 kwargs2 u1 u2
      policy_params Hsig Hnd Hagree Hrun1 Hrun2 Hne Hall.
    pose proof (descriptors_some_nonempty _ Hne Hall) as Hsome.
    pose proof (count_policy_params_nonneg parallel_type
                  (HandledArgs.policy handled_args)) as Hpp.
    fold policy_params in Hpp.
    unfold get_annotations in Hrun1, Hrun2. fold policy_params in Hrun1, Hrun2.
    rewrite Hsig in Hrun1, Hrun2. unfold Ok in Hrun1, Hrun2.
    cbn [bind] in Hrun1, Hrun2.
    fold (initial_updated_types (HandledArgs.workunit handled_args) param_list)
      in Hrun1, Hrun2.
    destruct (infer_policy_args _ _ _ _ _) as [e|u] eqn:Hpolicy; [discriminate|].
    cbn [bind] in Hrun1, Hrun2.
    pose proof (fun k => policy_keys_not_declared param_list policy_params _ _ _ u k
                           Hnd Hpolicy) as Hkeys.
    destruct (Z.of_nat (List.length param_list) =? policy_params)%Z.
    - destruct (Nat.eqb _ 0); [discriminate|].
      injection Hrun1 as <-. injection Hrun2 as <-.
      repeat split. exact Hkeys.
    - destruct (negb _); [discriminate|].
      destruct (negb _); [discriminate|].
      destruct (getattr_space _) as [e|space]; [discriminate|].
      cbn [bind] in Hrun1, Hrun2.
      destruct (infer_other_args _ _ (queue_kwargs _ _ args1 _) _ _ _)
        as [e|t1] eqn:Hother1; [discriminate|].
      destruct (infer_other_args _ _ (queue_kwargs _ _ args2 _) _ _ _)
        as [e|t2] eqn:Hother2; [discriminate|].
      cbn [bind] in Hrun1, Hrun2.
      destruct (_ && _); [discriminate|].
      destruct (_ && _); [discriminate|].
      injection Hrun1 as <-. injection Hrun2 as <-.
      cbn [UpdatedTypes.set_types_signature UpdatedTypes.inferred_types
             UpdatedTypes.types_signature] in *.
      destruct (infer_other_args_related param_list policy_params Hpp _ _ _ _ _ _ _
                  Hagree Hother1 Hother2) as [Htypes Hlayouts].
      assert (Hnot : forall k,
                 declared_value_param param_list policy_params k ->
                 ~ In k (Dict.keys (UpdatedTypes.inferred_types t1))).
      { intros k Hk Hin.
        destruct (infer_other_args_keys param_list policy_params Hpp _ _ _ _ _ k
                    Hother1 Hin) as [Hin0|(i & param & Hi & Hparam & Hann & <-)].
        - now apply (Hkeys k).
        - now apply (undeclared_not_declared param_list policy_params Hnd i param). }
      split; [exact Htypes|]. split; [|exact Hnot].
      rewrite <- Htypes. apply get_types_sig_layouts_agree; [exact Hsome|].
      intros name ty Hin _. apply Hlayouts. intros Hd.
      apply (Hnot name Hd). apply in_map_iff. now exists (name, ty). }
  split; [exact Hcalls|].
  intros parallel_type handled_args param_list args1 kwargs1 args2 kwargs2 u1 u2
    before after v layout' param a policy_params Hsig Hnd Hq1 Hq2 Hparam Hann
    Hrun1 Hrun2 Hnonempty Hall.
  pose proof (count_policy_params_nonneg parallel_type
                (HandledArgs.policy handled_args)) as Hpp.
  fold policy_params in Hpp.
  assert (Hidx : (2 <= value_index handled_args)%Z).
  { unfold value_index. destruct (HandledArgs.name handled_args); lia. }
  apply (Hcalls parallel_type handled_args param_list args1 kwargs1 args2 kwargs2
           u1 u2 Hsig Hnd); try assumption.
  fold policy_params. rewrite Hq1, Hq2.
  intros i param0 v1 v2 Hi Hparam0 Hann0 Hv1 Hv2.
  destruct (Z.eq_dec (value_index handled_args + i - policy_params)
              (Z.of_nat (List.length before))) as [Heq|Hne].
  - exfalso.
    replace (policy_params + Z.of_nat (List.length before)
             - value_index handled_args)%Z with i in Hparam by lia.
    congruence.
  - rewrite (getitem_app_other before after _
               (PyView (View.mk layout' (View.dtype v) (View.shape v))))
      in Hv1 by (lia || assumption).
    unfold Ok in *. congruence.
Qed.

(** * The claims at concrete inputs *)

Ltac distinct_strings := repeat constructor; cbn; intuition discriminate.

Lemma C1_witness :
  [("i", "int"); ("v", "View2D:double")] <> ([] : Dict.t string)
  /\ get_types_sig [("i", "int"); ("v", "View2D:double")] [("v", "LayoutRight")]
     = Some (spec_signature [("i", "int"); ("v", "View2D:double")]
               [("v", "LayoutRight")]).
Proof.
  split; [discriminate|].
  apply (proj1 (@C1_signature_of_type_map example_externals)).
  - discriminate.
  - intros name descriptor [Hin|[Hin|[]]]; injection Hin as <- <-; discriminate.
Defined.

Example signature_of_reduction :
  get_types_sig [("i", "int"); ("acc", "Acc:double"); ("v", "View2D:double")]
    [("v", "LayoutRight")] = Some "id2DdR".
Proof. reflexivity. Qed.

Lemma C2_witness :
  exists u,
    get_annotations (H := example_externals) "parallel_for" example_call_declared
      [PyInt 10; example_workunit_declared] [("x", example_view LayoutDefault)]
    = Ok (Some u)
    /\ UpdatedTypes.types_signature u = Some "xR".
Proof.
  eexists. split; [vm_compute; reflexivity|].
  destruct (@C2_signature_presence example_externals "parallel_for"
              example_call_declared [PyInt 10; example_workunit_declared]
              [("x", example_view LayoutDefault)] _ eq_refl)
    as (param_list & u & Hsig & Hpolicy & Hrest).
  injection Hsig as <-. cbn in Hrest.
  destruct Hrest as (space & u' & Hother & _ & Hsome).
  destruct (Hsome _ eq_refl) as (signature & Hfield & _ & _).
  exact eq_refl.
Defined.

Lemma C3_witness :
  isinstance_str (PyStr "label") = true
  /\ handle_args example_process true [PyStr "label"; PyInt 10; example_workunit_i]
     = Ok (HandledArgs.mk (Some (PyStr "label"))
             (normalize_policy example_process (PyInt 10)) example_workunit_i
             None (PyInt 0)).
Proof.
  split; [reflexivity|].
  apply (proj1 (C3_call_shape example_process true (PyStr "label") (PyInt 10)
                  example_workunit_i)).
  reflexivity.
Defined.

Example bare_integer_policy :
  handle_args example_process false [PyInt 10; example_workunit_reduce; PyFloat 3.5]
  = Ok (HandledArgs.mk None (PyPolicy (RangePolicy OpenMP 0 10))
          example_workunit_reduce None (PyFloat 3.5)).
Proof. reflexivity. Qed.

Lemma C4_witness :
  (2 <= Z.of_nat (List.length [Param.mk "i" None; Param.mk "acc" None]))%Z
  /\ NoDup (map Param.name [Param.mk "i" None; Param.mk "acc" None])
  /\ exists u',
      infer_policy_args [Param.mk "i" None; Param.mk "acc" None] 2
        (PyPolicy (RangePolicy OpenMP 0 10)) "parallel_reduce"
        (initial_updated_types example_workunit_reduce
           [Param.mk "i" None; Param.mk "acc" None]) = Ok u'
      /\ Dict.get (UpdatedTypes.inferred_types u') "i" = Some "int"
      /\ Dict.get (UpdatedTypes.inferred_types u') "acc" = Some "Acc:double".
Proof.
  assert (Hlen : (2 <= Z.of_nat (List.length [Param.mk "i" None; Param.mk "acc" None]))%Z)
    by (cbn; lia).
  assert (Hnd : NoDup (map Param.name [Param.mk "i" None; Param.mk "acc" None]))
    by distinct_strings.
  split; [exact Hlen|]. split; [exact Hnd|].
  destruct (C4_policy_roles [Param.mk "i" None; Param.mk "acc" None] 2
              (PyPolicy (RangePolicy OpenMP 0 10)) "parallel_reduce"
              (initial_updated_types example_workunit_reduce
                 [Param.mk "i" None; Param.mk "acc" None]) Hlen Hnd)
    as (u' & Hrun & Hroles).
  exists u'. split; [exact Hrun|]. split.
  - apply (Hroles 0%Z (Param.mk "i" None)); [lia | reflexivity].
  - apply (Hroles 1%Z (Param.mk "acc" None)); [lia | reflexivity].
Defined.

Example scan_roles :
  infer_policy_args
    [Param.mk "i" None; Param.mk "acc" None; Param.mk "last_pass" None] 3
    (PyPolicy (RangePolicy OpenMP 0 10)) "parallel_scan"
    (initial_updated_types example_workunit_reduce [])
  = Ok (UpdatedTypes.mk example_workunit_reduce
          [("i", "int"); ("acc", "Acc:double"); ("last_pass", "bool")] [] [] None).
Proof. reflexivity. Qed.

Lemma C5_witness :
  (32 <= int_bit_length 2147483648)%Z
  /\ Dict.get
       (UpdatedTypes.inferred_types
          (UpdatedTypes.mk example_workunit_n [("n", "numpy:int64")]
             [Param.mk "i" (Some "int"); Param.mk "n" None] [] None))
       (Param.name (Param.mk "n" None))
     = Some "numpy:int64".
Proof.
  assert (Hlarge : (32 <= int_bit_length 2147483648)%Z) by (vm_compute; discriminate).
  split; [exact Hlarge|].
  refine (proj2 (proj2
    (@C5_integer_promotion example_externals
       [Param.mk "i" (Some "int"); Param.mk "n" None] 1
       [PyInt 10; example_workunit_n; PyInt 2147483648] 2 OpenMP
       (initial_updated_types example_workunit_n
          [Param.mk "i" (Some "int"); Param.mk "n" None])
       _ 1 (Param.mk "n" None) 2147483648 _ _ _ _ _ _)) Hlarge).
  - lia.
  - distinct_strings.
  - reflexivity.
  - reflexivity.
  - reflexivity.
  - reflexivity.
Defined.

Example promotion_boundary :
  int_bit_length 2147483647 = 31%Z
  /\ int_bit_length 2147483648 = 32%Z
  /\ infer_param_type (H := example_externals) (Param.mk "n" None) (PyInt 2147483647)
     = Ok "int"
  /\ infer_param_type (H := example_externals) (Param.mk "n" None) (PyInt 2147483648)
     = Ok "numpy:int64"
  /\ infer_param_type (H := example_externals) (Param.mk "n" None) (PyInt (-2147483648))
     = Ok "numpy:int64".
Proof. repeat split; reflexivity. Qed.

Lemma C6_witness :
  Instance.type_module (Instance.mk "float64" "numpy" base_float) = "numpy"
  /\ Instance.type_name (Instance.mk "float64" "numpy" base_float) <> "int"
  /\ PyStr.mem "float64" (SUPPORTED_NP_DTYPES (H := example_externals)) = true
  /\ infer_other_arg (H := example_externals) OpenMP (Param.mk "x" None)
       example_float64 (initial_updated_types example_workunit_n [])
     = Ok (UpdatedTypes.set_inferred_type
             (initial_updated_types example_workunit_n []) "x" "numpy:double").
Proof.
  assert (Hname : Instance.type_name (Instance.mk "float64" "numpy" base_float) <> "int")
    by discriminate.
  split; [reflexivity|]. split; [exact Hname|]. split; [reflexivity|].
  apply (proj1 (proj2 (proj2
    (@C6_numpy_scalars example_externals (Param.mk "x" None)
       (Instance.mk "float64" "numpy" base_float) eq_refl Hname eq_refl))
    eq_refl)).
Defined.

Example unsupported_numpy_scalar :
  get_annotations (H := example_externals) "parallel_for"
    (HandledArgs.mk None (PyPolicy (RangePolicy OpenMP 0 10)) example_workunit_n
       None (PyInt 0))
    [PyInt 10; example_workunit_n; example_complex128] []
  = Raise (TypeError_numpy_type_unsupported "complex128").
Proof. reflexivity. Qed.


Example view_round_trip :
  infer_other_args (H := example_externals)
    [Param.mk "i" (Some "int"); Param.mk "v" None] 1
    [PyInt 10; example_workunit_n; PyView example_view_2d] 2 OpenMP
    (initial_updated_types example_workunit_n [])
  = Ok (UpdatedTypes.mk example_workunit_n [("v", "View2D:double")] []
          [("v", "LayoutRight")] None).
Proof. reflexivity. Qed.

Lemma C8_witness :
  get_annotations (H := example_externals) "parallel_for" example_call_declared
    [PyInt 10; example_workunit_declared] []
  = Raise (AssertionError_unannotated_arguments_mismatch 1 0).
Proof.
  refine (proj1 (proj2 (proj2
    (@C8_arguments_mismatch example_externals "parallel_for" example_call_declared
       [PyInt 10; example_workunit_declared] []
       [Param.mk "i" (Some "int"); Param.mk "x" (Some "pk.View1D[pk.double]")]
       (initial_updated_types example_workunit_declared
          [Param.mk "i" (Some "int"); Param.mk "x" (Some "pk.View1D[pk.double]")])
       eq_refl eq_refl _))) _).
  - cbn. lia.
  - cbn. lia.
Defined.

Lemma C9_witness :
  exists u1 u2,
    get_annotations (H := example_externals) "parallel_for" example_call_mixed
      [PyInt 10; example_workunit_mixed; PyInt 5; example_view LayoutRight] []
    = Ok (Some u1)
    /\ get_annotations (H := example_externals) "parallel_for" example_call_mixed
         [PyInt 10; example_workunit_mixed; PyInt 5; example_view LayoutLeft] []
       = Ok (Some u2)
    /\ UpdatedTypes.types_signature u1 = UpdatedTypes.types_signature u2.
Proof.
  do 2 eexists. split; [vm_compute; reflexivity|].
  split; [vm_compute; reflexivity|].
  refine (proj2 (proj2 (@C9_signature_dependence example_externals))
            "parallel_for" example_call_mixed
            [Param.mk "i" (Some "int"); Param.mk "x" None;
             Param.mk "v" (Some "pk.View1D[pk.double]")]
            [PyInt 10; example_workunit_mixed; PyInt 5; example_view LayoutRight] []
            [PyInt 10; example_workunit_mixed; PyInt 5; example_view LayoutLeft] []
            _ _
            [PyInt 10; example_workunit_mixed; PyInt 5] []
            (View.mk LayoutRight (DataType_member "double") [8%Z]) LayoutLeft
            (Param.mk "v" (Some "pk.View1D[pk.double]")) "pk.View1D[pk.double]"
            eq_refl _ eq_refl eq_refl eq_refl eq_refl eq_refl eq_refl _ _).
  - distinct_strings.
  - discriminate.
  - intros name descriptor [Hin|[]]. injection Hin as <- <-. discriminate.
Defined.

(** * Further properties of the code *)

(** ** [handle_args]: the other shapes *)

(** A call with fewer than two or more than four arguments is a
    [ValueError] that reports their number; the empty call is one. *)
Theorem handle_args_wrong_count (process : km.Process) (is_for : bool)
    (unpacked : list PyValue) :
  (List.length unpacked < 2 \/ 4 < List.length unpacked)%nat ->
  handle_args process is_for unpacked
  = Raise (ValueError_incorrect_number_of_arguments (List.length unpacked)).
Proof.
  intros Hlen. unfold handle_args.
  destruct unpacked as [|u0 [|u1 [|u2 [|u3 [|u4 rest]]]]]; cbn in Hlen; try lia;
    reflexivity.
Qed.

Lemma handle_args_wrong_count_witness :
  (List.length (@nil PyValue) < 2 \/ 4 < List.length (@nil PyValue))%nat
  /\ handle_args example_process true []
     = Raise (ValueError_incorrect_number_of_arguments 0).
Proof.
  assert (Hlen : (List.length (@nil PyValue) < 2
                  \/ 4 < List.length (@nil PyValue))%nat) by (left; cbn; lia).
  split; [exact Hlen|].
  exact (handle_args_wrong_count example_process true [] Hlen).
Defined.

Lemma isinstance_int_is_numeric (v : PyValue) (n : Z) :
  isinstance_int v = Some n -> isinstance_int_float v = true.
Proof. intros Hn. unfold isinstance_int_float. now rewrite Hn. Qed.

Lemma normalize_policy_not_int (process : km.Process) (policy : PyValue) :
  isinstance_int (normalize_policy process policy) = None.
Proof.
  unfold normalize_policy. destruct (isinstance_int policy) eqn:Hp;
    [reflexivity | exact Hp].
Qed.

(** What every record that [handle_args] returns satisfies: the call had
    two to four arguments; the policy is not a bare integer; a label is a
    string; a view is there only for an element-wise dispatch, is a
    [ViewType], and comes with the initial value left at its default 0; the
    initial value is an [int] or a [float]. *)
Theorem handle_args_result (process : km.Process) (is_for : bool)
    (unpacked : list PyValue) (h : HandledArgs.t) :
  handle_args process is_for unpacked = Ok h ->
  (2 <= List.length unpacked <= 4)%nat
  /\ isinstance_int (HandledArgs.policy h) = None
  /\ (forall label, HandledArgs.name h = Some label -> isinstance_str label = true)
  /\ (forall v, HandledArgs.view h = Some v ->
                is_for = true /\ isinstance_ViewType v = true
                /\ HandledArgs.initial_value h = PyInt 0)
  /\ isinstance_int_float (HandledArgs.initial_value h) = true.
Proof.
  unfold handle_args. intros Hrun.
  destruct (bind_arguments is_for unpacked)
    as [e|[[[[name policy] workunit] view] initial_value]] eqn:Hbound;
    [discriminate|].
  cbn [bind] in Hrun. injection Hrun as <-.
  cbn [HandledArgs.name HandledArgs.policy HandledArgs.view
         HandledArgs.initial_value].
  split; [|split; [apply normalize_policy_not_int|]].
  - destruct unpacked as [|u0 [|u1 [|u2 [|u3 [|u4 rest]]]]]; cbn in *;
      try discriminate; lia.
  - assert (Hgoal : forall name' view' initial_value',
               (forall label, name' = Some label -> isinstance_str label = true) ->
               (forall v, view' = Some v ->
                          is_for = true /\ isinstance_ViewType v = true
                          /\ initial_value' = PyInt 0) ->
               isinstance_int_float initial_value' = true ->
               (forall label, name' = Some label -> isinstance_str label = true)
               /\ (forall v, view' = Some v ->
                             is_for = true /\ isinstance_ViewType v = true
                             /\ initial_value' = PyInt 0)
               /\ isinstance_int_float initial_value' = true)
      by (intros; split; [assumption | split; assumption]).
    unfold bind_arguments in Hbound.
    destruct unpacked as [|u0 [|u1 [|u2 [|u3 [|u4 rest]]]]]; try discriminate.
    + injection Hbound as <- <- <- <- <-.
      apply Hgoal; [discriminate | discriminate | reflexivity].
    + destruct (isinstance_str u0) eqn:Hstr.
      { injection Hbound as <- <- <- <- <-.
        apply Hgoal; [|discriminate | reflexivity].
        intros label Hl. injection Hl as <-. exact Hstr. }
      destruct (is_for && isinstance_ViewType u2) eqn:Hview.
      { injection Hbound as <- <- <- <- <-.
        apply andb_prop in Hview as [-> Hview].
        apply Hgoal; [discriminate | | reflexivity].
        intros v Hv. injection Hv as <-. now repeat split. }
      destruct (isinstance_int_float u2) eqn:Hnum; [|discriminate].
      injection Hbound as <- <- <- <- <-.
      apply Hgoal; [discriminate | discriminate | exact Hnum].
    + destruct (isinstance_str u0) eqn:Hstr; [|discriminate].
      assert (Hname : forall label, Some u0 = Some label -> isinstance_str label = true)
        by (intros label Hl; injection Hl as <-; exact Hstr).
      destruct (is_for && isinstance_ViewType u3) eqn:Hview.
      { injection Hbound as <- <- <- <- <-.
        apply andb_prop in Hview as [-> Hview].
        apply Hgoal; [exact Hname | | reflexivity].
        intros v Hv. injection Hv as <-. now repeat split. }
      destruct (isinstance_int_float u3) eqn:Hnum; [|discriminate].
      injection Hbound as <- <- <- <- <-.
      apply Hgoal; [exact Hname | discriminate | exact Hnum].
Qed.

Lemma handle_args_result_witness :
  handle_args example_process true
    [PyStr "label"; PyInt 10; example_workunit_i; example_view LayoutDefault]
  = Ok (HandledArgs.mk (Some (PyStr "label")) (PyPolicy (RangePolicy OpenMP 0 10))
          example_workunit_i (Some (example_view LayoutDefault)) (PyInt 0))
  /\ isinstance_int (PyPolicy (RangePolicy OpenMP 0 10)) = None.
Proof.
  split; [reflexivity|].
  exact (proj1 (proj2
    (handle_args_result example_process true
       [PyStr "label"; PyInt 10; example_workunit_i; example_view LayoutDefault]
       _ eq_refl))).
Defined.

(** A label in front changes the label of the result and nothing else:
    a labelled call of three arguments resolves like the call of the two
    others, and a labelled call of four like the call of the three others,
    provided the policy is not itself a string. *)
Theorem handle_args_label (process : km.Process) (is_for : bool)
    (label u0 u1 u2 : PyValue) :
  isinstance_str label = true ->
  (forall h,
      handle_args process is_for [u0; u1] = Ok h ->
      handle_args process is_for [label; u0; u1] = Ok (with_name (Some label) h))
  /\ (isinstance_str u0 = false ->
      (forall h,
          handle_args process is_for [u0; u1; u2] = Ok h ->
          handle_args process is_for [label; u0; u1; u2]
          = Ok (with_name (Some label) h))
      /\ (raises (handle_args process is_for [u0; u1; u2]) ->
          handle_args process is_for [label; u0; u1; u2]
          = Raise (TypeError_wrong_arguments [label; u0; u1; u2]))).
Proof.
  intros Hlabel. unfold handle_args. cbn [bind_arguments]. rewrite Hlabel.
  split.
  - intros h Hrun. injection Hrun as <-. reflexivity.
  - intros ->. destruct (is_for && isinstance_ViewType u2).
    + split; [intros h Hrun; injection Hrun as <-; reflexivity|].
      intros [e He]. discriminate.
    + destruct (isinstance_int_float u2).
      * split; [intros h Hrun; injection Hrun as <-; reflexivity|].
        intros [e He]. discriminate.
      * split; [intros h Hrun; discriminate | reflexivity].
Qed.

Lemma handle_args_label_witness :
  isinstance_str (PyStr "label") = true
  /\ handle_args example_process false [PyStr "label"; PyInt 10; example_workunit_i; PyInt 5]
     = Ok (with_name (Some (PyStr "label"))
             (HandledArgs.mk None (PyPolicy (RangePolicy OpenMP 0 10))
                example_workunit_i None (PyInt 5))).
Proof.
  split; [reflexivity|].
  exact (proj1 (proj2
    (handle_args_label example_process false (PyStr "label") (PyInt 10)
       example_workunit_i (PyInt 5) eq_refl) eq_refl) _ eq_refl).
Defined.

(** ** Keyword arguments *)

Lemma queue_kwargs_flat_map (param_list : list Param.t) (policy_params : Z)
    (args_list : list PyValue) (passed_kwargs : Dict.t PyValue) :
  queue_kwargs param_list policy_params args_list passed_kwargs
  = (args_list
     ++ flat_map
          (fun param =>
             match Dict.get passed_kwargs (Param.name param) with
             | Some value => [value]
             | None => []
             end)
          (value_params param_list policy_params))%list.
Proof.
  unfold queue_kwargs, value_params.
  assert (Hfold : forall params acc,
    fold_left
      (fun args_list param =>
         match Dict.get passed_kwargs (Param.name param) with
         | Some value => (args_list ++ [value])%list
         | None => args_list
         end) params acc
    = (acc ++ flat_map
               (fun param =>
                  match Dict.get passed_kwargs (Param.name param) with
                  | Some value => [value]
                  | None => []
                  end) params)%list).
  { induction params as [|param params IH]; intros acc; cbn [fold_left flat_map].
    - now rewrite app_nil_r.
    - rewrite IH. destruct (Dict.get passed_kwargs (Param.name param));
        [now rewrite <- app_assoc | reflexivity]. }
  destruct passed_kwargs as [|entry kwargs].
  - cbn. induction (skipn _ _); cbn; [now rewrite app_nil_r | assumption].
  - cbn [Dict.len List.length Nat.eqb negb]. apply Hfold.
Qed.

Lemma get_annotations_queued `{Externals} (parallel_type : string)
    (handled_args : HandledArgs.t) (args : list PyValue)
    (passed_kwargs : Dict.t PyValue) (param_list : list Param.t) :
  signature_parameters (HandledArgs.workunit handled_args) = Ok param_list ->
  get_annotations parallel_type handled_args args passed_kwargs
  = get_annotations parallel_type handled_args
      (queue_kwargs param_list
         (count_policy_params parallel_type (HandledArgs.policy handled_args))
         args passed_kwargs)
      [].
Proof.
  intros Hsig. unfold get_annotations. rewrite Hsig. reflexivity.
Qed.



(** Only what the keyword arguments give for the names of the value
    parameters counts: their order does not, and a keyword that names no
    value parameter (a policy-owned one, or no parameter at all) is
    ignored. *)
Theorem kwargs_by_name `{Externals} (parallel_type : string)
    (handled_args : HandledArgs.t) (args : list PyValue)
    (kwargs1 kwargs2 : Dict.t PyValue) (param_list : list Param.t) :
  signature_parameters (HandledArgs.workunit handled_args) = Ok param_list ->
  (forall param,
      In param
        (value_params param_list
           (count_policy_params parallel_type (HandledArgs.policy handled_args))) ->
      Dict.get kwargs1 (Param.name param) = Dict.get kwargs2 (Param.name param)) ->
  get_annotations parallel_type handled_args args kwargs1
  = get_annotations parallel_type handled_args args kwargs2.
Proof.
  intros Hsig Hsame.
  rewrite (get_annotations_queued _ _ _ kwargs1 _ Hsig).
  rewrite (get_annotations_queued _ _ _ kwargs2 _ Hsig).
  rewrite !queue_kwargs_flat_map. do 2 f_equal.
  rewrite !flat_map_concat_map. f_equal.
  apply map_ext_in. intros param Hin. now rewrite (Hsame param Hin).
Qed.

Lemma kwargs_by_name_witness :
  get_annotations (H := example_externals) "parallel_for" example_call_mixed
    [PyInt 10; example_workunit_mixed]
    [("v", example_view LayoutDefault); ("x", PyInt 5); ("i", PyInt 0)]
  = get_annotations (H := example_externals) "parallel_for" example_call_mixed
      [PyInt 10; example_workunit_mixed]
      [("x", PyInt 5); ("v", example_view LayoutDefault)].
Proof.
  apply (@kwargs_by_name example_externals "parallel_for" example_call_mixed
           [PyInt 10; example_workunit_mixed] _ _
           [Param.mk "i" (Some "int"); Param.mk "x" None;
            Param.mk "v" (Some "pk.View1D[pk.double]")] eq_refl).
  intros param [<-|[<-|[]]]; reflexivity.
Defined.

(** ** [get_types_sig]: the other cases and two bounds *)

(** [get_types_sig] returns [None] exactly when both maps are empty. *)
Theorem get_types_sig_none (types layouts : Dict.t string) :
  get_types_sig types layouts = None <-> types = [] /\ layouts = [].
Proof.
  unfold get_types_sig. destruct layouts, types; cbn; split;
    try discriminate; try (intros [? ?]; discriminate); auto.
Qed.

Lemma get_types_sig_none_witness :
  ([] : Dict.t string) = [] /\ get_types_sig [] [] = None.
Proof.
  split; [reflexivity|].
  apply (proj2 (get_types_sig_none [] [])). now split.
Defined.

Lemma layouts_loop_from (layouts : Dict.t string) (acc : string) :
  layouts_loop acc layouts = acc ++ names_and_layouts layouts.
Proof.
  unfold layouts_loop, names_and_layouts.
  assert (Hc : forall x l, String.concat "" (x :: l) = x ++ String.concat "" l).
  { intros x [|y l]; simpl; [now rewrite append_empty_r | reflexivity]. }
  revert acc. induction layouts as [|[name tag] layouts IH]; intros acc.
  - cbn. now rewrite append_empty_r.
  - cbn [fold_left map]. rewrite IH, Hc. cbn [fst snd].
    now rewrite !append_assoc.
Qed.

Lemma get_types_sig_of_layouts (types layouts : Dict.t string) :
  spec_uncompacted types layouts = "" ->
  layouts <> [] ->
  get_types_sig types layouts = Some (compact (names_and_layouts layouts)).
Proof.
  intros Hempty Hne. unfold get_types_sig.
  replace (Nat.eqb (Dict.len layouts) 0) with false
    by (destruct layouts; [congruence | reflexivity]).
  cbn [andb]. rewrite types_loop_is_spec, Hempty. cbn [String.eqb].
  now rewrite layouts_loop_from.
Qed.

(** With no inferred type, or with empty descriptors only, the signature
    is made of the layout map: each name followed by its tag, compacted.
    Here, unlike with inferred types, the parameter names are part of the
    signature. *)
Theorem get_types_sig_layouts_only (types layouts : Dict.t string) :
  spec_uncompacted types layouts = "" ->
  layouts <> [] ->
  get_types_sig types layouts = Some (compact (names_and_layouts layouts)).
Proof. apply get_types_sig_of_layouts. Qed.

Lemma get_types_sig_layouts_only_witness :
  spec_uncompacted [] [("x", "LayoutRight"); ("y", "LayoutLeft")] = ""
  /\ get_types_sig [] [("x", "LayoutRight"); ("y", "LayoutLeft")]
     = Some (compact (names_and_layouts [("x", "LayoutRight"); ("y", "LayoutLeft")])).
Proof.
  split; [reflexivity|].
  apply get_types_sig_layouts_only; [reflexivity | discriminate].
Defined.

Lemma length_append (a b : string) :
  String.length (a ++ b) = (String.length a + String.length b)%nat.
Proof. induction a as [|x a IH]; simpl; [reflexivity | now rewrite IH]. Qed.

Lemma prefix_length (a b : string) :
  String.prefix a b = true -> (String.length a <= String.length b)%nat.
Proof.
  revert a. induction b as [|y b IH]; intros [|x a]; simpl; try (intros; lia);
    try discriminate.
  destruct (ascii_dec x y); [|discriminate]. intros Hp. apply IH in Hp. lia.
Qed.

(** A replacement by a string that is not longer does not lengthen. *)
Lemma replace_from_length (old new : string) (skip : nat) (s : string) :
  (String.length new <= String.length old)%nat ->
  (String.length (PyStr.replace_from old new skip s) <= String.length s - skip)%nat.
Proof.
  intros Hnew. revert skip.
  induction s as [|c s IH]; intros skip; [simpl; lia|].
  cbn [PyStr.replace_from]. destruct skip as [|k].
  - destruct (String.prefix old (String c s)) eqn:Hp.
    + apply prefix_length in Hp. cbn [String.length] in *.
      rewrite length_append. specialize (IH (String.length old - 1)%nat). lia.
    + cbn [String.length]. specialize (IH 0%nat). lia.
  - cbn [String.length]. specialize (IH k). lia.
Qed.

Lemma replace_length (old new s : string) :
  (String.length new <= String.length old)%nat ->
  (String.length (PyStr.replace old new s) <= String.length s)%nat.
Proof.
  intros Hnew. unfold PyStr.replace.
  pose proof (replace_from_length old new 0 s Hnew). lia.
Qed.

Lemma occurs_append (c : ascii) (a b : string) :
  occurs c (a ++ b) <-> occurs c a \/ occurs c b.
Proof.
  unfold occurs. induction a as [|x a IH]; simpl; [tauto|]. rewrite IH. tauto.
Qed.

(** A replacement brings in no character that is in neither the string
    nor the replacement. *)
Lemma replace_from_occurs (c : ascii) (old new : string) (skip : nat) (s : string) :
  occurs c (PyStr.replace_from old new skip s) -> occurs c new \/ occurs c s.
Proof.
  revert skip. induction s as [|x s IH]; intros skip; [simpl; tauto|].
  cbn [PyStr.replace_from]. destruct skip as [|k].
  - destruct (String.prefix old (String x s)).
    + intros Hocc. apply occurs_append in Hocc as [Hocc|Hocc]; [now left|].
      apply IH in Hocc as [Hocc|Hocc]; [now left | right; now right].
    + intros [<-|Hocc]; [right; now left|].
      apply IH in Hocc as [Hocc|Hocc]; [now left | right; now right].
  - intros Hocc. apply IH in Hocc as [Hocc|Hocc]; [now left | right; now right].
Qed.

Lemma replace_keeps_absent (c : ascii) (old new s : string) :
  ~ occurs c new -> ~ occurs c s -> ~ occurs c (PyStr.replace old new s).
Proof.
  intros Hnew Hs Hocc. apply replace_from_occurs in Hocc. tauto.
Qed.

(** Replacing a character by nothing leaves none of it. *)
Lemma replace_char_removes (c : ascii) (s : string) :
  ~ occurs c (PyStr.replace (String c "") "" s).
Proof.
  unfold PyStr.replace. induction s as [|x s IH]; [simpl; tauto|].
  cbn [PyStr.replace_from String.prefix String.length Nat.sub].
  destruct (ascii_dec c x) as [Heq|Hne].
  - destruct s; exact IH.
  - intros [Heq|Hocc]; [congruence | now apply IH].
Qed.

Lemma contains_char (c : ascii) (s : string) :
  PyStr.contains (String c "") s = true <-> occurs c s.
Proof.
  unfold occurs. induction s as [|x s IH]; cbn [PyStr.contains String.prefix].
  - simpl. split; [discriminate | tauto].
  - cbn [list_ascii_of_string In]. destruct (ascii_dec c x) as [->|Hne].
    + destruct s; simpl; tauto.
    + cbn [orb]. rewrite IH. split; [tauto | intros [?|?]; [congruence | assumption]].
Qed.

Lemma compact_no_colon (s : string) : ~ occurs ":" (compact s).
Proof.
  unfold compact.
  do 4 (apply replace_keeps_absent; [cbv; intuition discriminate|]).
  apply (replace_char_removes ":").
Qed.

(** No signature has a colon in it, and none is longer than the
    descriptors and layout entries it is made of. *)
Theorem get_types_sig_bounds (types layouts : Dict.t string) (signature : string) :
  get_types_sig types layouts = Some signature ->
  PyStr.contains ":" signature = false
  /\ (String.length signature
      <= String.length (spec_uncompacted types layouts)
         + String.length (names_and_layouts layouts))%nat.
Proof.
  unfold get_types_sig. destruct (_ && _); [discriminate|].
  intros Hsig. injection Hsig as <-. split.
  - destruct (PyStr.contains ":" _) eqn:Hc; [|reflexivity].
    apply contains_char in Hc. now apply compact_no_colon in Hc.
  - rewrite types_loop_is_spec.
    assert (Hcompact : forall s, (String.length (compact s) <= String.length s)%nat).
    { intros s. unfold compact.
      repeat (etransitivity; [apply replace_length; cbn; lia|]).
      reflexivity. }
    destruct (String.eqb_spec (spec_uncompacted types layouts) "") as [->|Hne].
    + rewrite layouts_loop_from. cbn [append String.length].
      apply Hcompact.
    + etransitivity; [apply Hcompact|]. lia.
Qed.

Lemma get_types_sig_bounds_witness :
  get_types_sig [("v", "View2D:double"); ("acc", "Acc:double")] [("v", "LayoutLeft")]
  = Some "2DdLd"
  /\ PyStr.contains ":" "2DdLd" = false.
Proof.
  split; [reflexivity|].
  exact (proj1 (get_types_sig_bounds
                  [("v", "View2D:double"); ("acc", "Acc:double")]
                  [("v", "LayoutLeft")] "2DdLd" eq_refl)).
Defined.

(** ** [get_pk_datatype] and the values of other classes *)

(** [get_pk_datatype] returns [None] exactly for what is neither a member
    of [DataType] nor a class of data type, and never returns [float64] or
    [float32]. *)
Theorem get_pk_datatype_aliases (d : DTypeObject) :
  (get_pk_datatype d = None <-> d = not_a_datatype)
  /\ get_pk_datatype d <> Some "float64"
  /\ get_pk_datatype d <> Some "float32".
Proof.
  rewrite get_pk_datatype_alias. split; [|split].
  - destruct d; cbn; split; (discriminate || reflexivity).
  - destruct (spec_dtype_name d) as [name|]; cbn [option_map]; [|discriminate].
    unfold spec_float_alias.
    destruct (String.eqb_spec name "float64"); [discriminate|].
    destruct (String.eqb_spec name "float32"); [discriminate | congruence].
  - destruct (spec_dtype_name d) as [name|]; cbn [option_map]; [|discriminate].
    unfold spec_float_alias.
    destruct (String.eqb_spec name "float64"); [discriminate|].
    destruct (String.eqb_spec name "float32"); [discriminate | congruence].
Qed.

Lemma get_pk_datatype_aliases_witness :
  get_pk_datatype not_a_datatype = None.
Proof.
  apply (proj1 (get_pk_datatype_aliases not_a_datatype)). reflexivity.
Defined.

Example get_pk_datatype_float64 :
  get_pk_datatype (DataType_member "float64") = Some "double"
  /\ get_pk_datatype (DataTypeClass_subclass "float32") = Some "float"
  /\ get_pk_datatype (DataType_member "int32") = Some "int32".
Proof. repeat split. Qed.

(** A value that is no view, whose class is not named [int] and does not
    come from numpy, is inferred as the name of its class: [bool] for a
    [bool], which is never promoted, [float] for a [float], [str] for a
    string. *)
Theorem infer_param_type_class_name `{Externals} (param : Param.t) (value : PyValue) :
  type_name value <> "int" ->
  type_module value <> "numpy" ->
  isinstance_View value = None ->
  infer_param_type param value = Ok (type_name value).
Proof.
  intros Hname Hmod Hview. unfold infer_param_type.
  destruct (String.eqb_spec (type_name value) "int"); [contradiction|].
  unfold Ok at 1. cbn [bind].
  destruct (String.eqb_spec (type_module value) "numpy"); [contradiction|].
  unfold Ok at 1. cbn [bind]. now rewrite Hview.
Qed.

Lemma infer_param_type_class_name_witness :
  type_name (PyBool true) <> "int"
  /\ infer_param_type (H := example_externals) (Param.mk "flag" None) (PyBool true)
     = Ok "bool".
Proof.
  assert (Hname : type_name (PyBool true) <> "int") by discriminate.
  split; [exact Hname|].
  apply (@infer_param_type_class_name example_externals (Param.mk "flag" None)
           (PyBool true) Hname); [discriminate | reflexivity].
Defined.

(** ** What [get_annotations] returns *)

(** The stages a call went through when it returned. *)
Lemma get_annotations_ok `{Externals} (parallel_type : string)
    (handled_args : HandledArgs.t) (args : list PyValue)
    (passed_kwargs : Dict.t PyValue) (r : option UpdatedTypes.t) :
  get_annotations parallel_type handled_args args passed_kwargs = Ok r ->
  exists param_list u0,
    signature_parameters (HandledArgs.workunit handled_args) = Ok param_list
    /\ infer_policy_args param_list
         (count_policy_params parallel_type (HandledArgs.policy handled_args))
         (HandledArgs.policy handled_args) parallel_type
         (initial_updated_types (HandledArgs.workunit handled_args) param_list)
       = Ok u0
    /\ ((Z.of_nat (List.length param_list)
         = count_policy_params parallel_type (HandledArgs.policy handled_args)
         /\ r = match UpdatedTypes.inferred_types u0 with
                | [] => None
                | _ => Some u0
                end)
        \/ (Z.of_nat (List.length param_list)
            <> count_policy_params parallel_type (HandledArgs.policy handled_args)
            /\ (Z.of_nat (List.length param_list)
                - count_policy_params parallel_type (HandledArgs.policy handled_args)
                = Z.of_nat
                    (List.length
                       (queue_kwargs param_list
                          (count_policy_params parallel_type
                             (HandledArgs.policy handled_args))
                          args passed_kwargs))
                  - value_index handled_args)%Z
            /\ exists space u1,
                infer_other_args param_list
                  (count_policy_params parallel_type (HandledArgs.policy handled_args))
                  (queue_kwargs param_list
                     (count_policy_params parallel_type
                        (HandledArgs.policy handled_args))
                     args passed_kwargs)
                  (value_index handled_args) space u0 = Ok u1
                /\ r = match UpdatedTypes.inferred_types u1,
                             UpdatedTypes.layout_change u1 with
                       | [], [] => None
                       | _, _ =>
                           Some (UpdatedTypes.set_types_signature u1
                                   (get_types_sig (UpdatedTypes.inferred_types u1)
                                      (UpdatedTypes.layout_change u1)))
                       end)).
Proof.
  unfold get_annotations. intros Hrun.
  destruct (signature_parameters _) as [e|param_list] eqn:Hsig; [discriminate|].
  cbn [bind] in Hrun.
  set (policy_params :=
         count_policy_params parallel_type (HandledArgs.policy handled_args)) in *.
  fold (initial_updated_types (HandledArgs.workunit handled_args) param_list) in Hrun.
  destruct (infer_policy_args _ _ _ _ _) as [e|u0] eqn:Hpolicy; [discriminate|].
  cbn [bind] in Hrun.
  exists param_list, u0. split; [reflexivity|]. split; [exact Hpolicy|].
  destruct (Z.eqb_spec (Z.of_nat (List.length param_list)) policy_params) as [Heq|Hne].
  - left. split; [exact Heq|].
    destruct (UpdatedTypes.inferred_types u0); cbn in Hrun;
      injection Hrun as <-; reflexivity.
  - right. split; [exact Hne|].
    destruct (Z.eqb_spec
                (Z.of_nat (List.length param_list) - policy_params)
                (Z.of_nat
                   (List.length
                      (queue_kwargs param_list policy_params args passed_kwargs))
                 - value_index handled_args)) as [Hcount|Hcount];
      cbn [negb] in Hrun; [|discriminate].
    split; [exact Hcount|].
    destruct (getattr_space _) as [e|space]; [discriminate|].
    cbn [bind] in Hrun.
    destruct (infer_other_args _ _ _ _ _ _) as [e|u1] eqn:Hother; [discriminate|].
    cbn [bind] in Hrun.
    exists space, u1. split; [exact Hother|].
    destruct (UpdatedTypes.inferred_types u1), (UpdatedTypes.layout_change u1);
      cbn in Hrun; injection Hrun as <-; reflexivity.
Qed.

Lemma in_keys_get {V : Type} (d : Dict.t V) (k : string) :
  In k (Dict.keys d) <-> Dict.get d k <> None.
Proof.
  pose proof (DictFacts.get_none_iff d k) as Hnone.
  destruct (Dict.get d k) as [v|] eqn:Hget.
  - split; [discriminate|]. intros _.
    destruct (in_dec string_dec k (Dict.keys d)) as [Hin|Hout]; [exact Hin|].
    apply Hnone in Hout. discriminate.
  - split; [intros Hin _; now apply (proj1 Hnone) | congruence].
Qed.

Lemma infer_policy_arg_declared (policy_params : Z) (policy : PyValue)
    (parallel_type : string) (i : Z) (param : Param.t) (u : UpdatedTypes.t)
    (a : string) :
  Param.annotation param = Some a ->
  infer_policy_arg policy_params policy parallel_type i param u = Ok u.
Proof. intros Hann. unfold infer_policy_arg. now rewrite Hann. Qed.

(** The keys of the type map after the loop over the policy-owned
    parameters: those before it and names of policy-owned parameters
    without a declared type. *)
Lemma infer_policy_args_keys (param_list : list Param.t) (policy_params : Z)
    (policy : PyValue) (parallel_type : string) (u u' : UpdatedTypes.t)
    (k : string) :
  infer_policy_args param_list policy_params policy parallel_type u = Ok u' ->
  In k (Dict.keys (UpdatedTypes.inferred_types u')) ->
  In k (Dict.keys (UpdatedTypes.inferred_types u))
  \/ exists i param,
      (0 <= i < policy_params)%Z
      /\ nth_error param_list (Z.to_nat i) = Some param
      /\ Param.annotation param = None
      /\ Param.name param = k.
Proof.
  intros Hrun. unfold infer_policy_args in Hrun.
  pose (P := fun (done : list Z) (s : UpdatedTypes.t) =>
    In k (Dict.keys (UpdatedTypes.inferred_types s)) ->
    In k (Dict.keys (UpdatedTypes.inferred_types u))
    \/ exists i param,
        (0 <= i < policy_params)%Z
        /\ nth_error param_list (Z.to_nat i) = Some param
        /\ Param.annotation param = None
        /\ Param.name param = k).
  apply (for_each_invariant _ P (range 0 policy_params)) with (s := u) (3 := Hrun).
  - intros done a rest s s' Hsplit HP Hbody Hk.
    assert (Ha : (0 <= a < policy_params)%Z).
    { apply in_range. rewrite Hsplit. apply in_elt. }
    destruct (getitem param_list a) as [e|pa] eqn:Hpa; [discriminate|].
    cbn [bind] in Hbody. apply getitem_nth_error in Hpa; [|lia].
    destruct (Param.annotation pa) as [ann|] eqn:Hann.
    + rewrite (infer_policy_arg_declared _ _ _ _ _ _ ann Hann) in Hbody.
      injection Hbody as <-. now apply HP.
    + destruct (String.eqb_spec k (Param.name pa)) as [->|Hne].
      * right. exists a, pa. repeat split; (lia || assumption).
      * apply infer_policy_arg_frame in Hbody as [_ Hother].
        apply HP. apply in_keys_get. rewrite <- (Hother k Hne).
        now apply in_keys_get.
  - intros Hk. now left.
Qed.

Lemma same_name_same_param (param_list : list Param.t) (p q : Param.t) :
  NoDup (map Param.name param_list) ->
  In p param_list -> In q param_list -> Param.name p = Param.name q -> p = q.
Proof.
  intros Hnd Hp Hq Hname.
  apply In_nth_error in Hp as [x Hx]. apply In_nth_error in Hq as [y Hy].
  assert (x = y) by (eapply distinct_names; eauto).
  congruence.
Qed.

(** Inference never gives a type to a parameter that has a declared one:
    every key of the returned type map is the name of a parameter without
    a declared type, and a declared parameter has no entry. *)
Theorem declared_never_inferred `{Externals} (parallel_type : string)
    (handled_args : HandledArgs.t) (args : list PyValue)
    (passed_kwargs : Dict.t PyValue) (param_list : list Param.t)
    (u : UpdatedTypes.t) :
  signature_parameters (HandledArgs.workunit handled_args) = Ok param_list ->
  NoDup (map Param.name param_list) ->
  get_annotations parallel_type handled_args args passed_kwargs = Ok (Some u) ->
  (forall k,
      In k (Dict.keys (UpdatedTypes.inferred_types u)) ->
      exists param,
        In param param_list /\ Param.name param = k
        /\ Param.annotation param = None)
  /\ (forall param a,
         In param param_list -> Param.annotation param = Some a ->
         Dict.get (UpdatedTypes.inferred_types u) (Param.name param) = None).
Proof.
  intros Hsig Hnd Hrun.
  assert (Hkeys : forall k,
    In k (Dict.keys (UpdatedTypes.inferred_types u)) ->
    exists param,
      In param param_list /\ Param.name param = k /\ Param.annotation param = None).
  { apply get_annotations_ok in Hrun
      as (pl & u0 & Hsig' & Hpolicy & Hcases).
    rewrite Hsig in Hsig'. injection Hsig' as <-.
    pose proof (count_policy_params_nonneg parallel_type
                  (HandledArgs.policy handled_args)) as Hpp.
    assert (Hkeys0 : forall k,
      In k (Dict.keys (UpdatedTypes.inferred_types u0)) ->
      exists param,
        In param param_list /\ Param.name param = k
        /\ Param.annotation param = None).
    { intros k Hk.
      destruct (infer_policy_args_keys _ _ _ _ _ _ k Hpolicy Hk)
        as [[]|(i & param & _ & Hparam & Hann & Hname)].
      exists param. split; [eapply nth_error_In; eassumption | now split]. }
    destruct Hcases as [[_ Hr]|(_ & _ & space & u1 & Hother & Hr)].
    - destruct (UpdatedTypes.inferred_types u0) eqn:Htypes; [discriminate|].
      injection Hr as ->. rewrite Htypes. exact Hkeys0.
    - assert (Hu : UpdatedTypes.inferred_types u = UpdatedTypes.inferred_types u1).
      { destruct (UpdatedTypes.inferred_types u1) eqn:Ht1,
          (UpdatedTypes.layout_change u1) eqn:Hl1;
          try discriminate; injection Hr as ->; cbn; assumption. }
      rewrite Hu. intros k Hk.
      destruct (infer_other_args_keys param_list _ Hpp _ _ _ _ _ k Hother Hk)
        as [Hk0|(i & param & _ & Hparam & Hann & Hname)]; [now apply Hkeys0|].
      exists param. split; [eapply nth_error_In; eassumption | now split]. }
  split; [exact Hkeys|].
  intros param a Hin Hann.
  destruct (Dict.get (UpdatedTypes.inferred_types u) (Param.name param)) eqn:Hget;
    [|reflexivity].
  exfalso.
  destruct (Hkeys (Param.name param)) as (q & Hq & Hname & Hqann).
  { apply in_keys_get. congruence. }
  assert (q = param) by (eapply same_name_same_param; eauto).
  congruence.
Qed.

Lemma declared_never_inferred_witness :
  exists u,
    get_annotations (H := example_externals) "parallel_for" example_call_mixed
      [PyInt 10; example_workunit_mixed; PyInt 5; example_view LayoutRight] []
    = Ok (Some u)
    /\ Dict.get (UpdatedTypes.inferred_types u) "v" = None.
Proof.
  eexists. split; [vm_compute; reflexivity|].
  refine (proj2
    (@declared_never_inferred example_externals "parallel_for" example_call_mixed
       [PyInt 10; example_workunit_mixed; PyInt 5; example_view LayoutRight] []
       [Param.mk "i" (Some "int"); Param.mk "x" None;
        Param.mk "v" (Some "pk.View1D[pk.double]")]
       _ eq_refl _ eq_refl)
    (Param.mk "v" (Some "pk.View1D[pk.double]")) "pk.View1D[pk.double]" _ eq_refl).
  - distinct_strings.
  - right. right. now left.
Defined.

Lemma in_set {V : Type} (d : Dict.t V) (k k' : string) (v v' : V) :
  In (k', v') (Dict.set d k v) -> (k' = k /\ v' = v) \/ In (k', v') d.
Proof.
  induction d as [|[k0 v0] d IH]; cbn [Dict.set].
  - intros [Heq|[]]. left. split; congruence.
  - destruct (String.eqb k0 k).
    + intros [Heq|Hin]; [left; split; congruence | right; now right].
    + intros [Heq|Hin]; [right; now left|].
      destruct (IH Hin) as [Hnew|Hold]; [now left | right; now right].
Qed.

Lemma getitem_In {A : Type} (l : list A) (i : Z) (a : A) :
  getitem l i = Ok a -> In a l.
Proof.
  unfold getitem. destruct (_ <? 0)%Z; [discriminate|].
  destruct (nth_error l _) eqn:Hnth; [|discriminate].
  intros Heq. injection Heq as <-. eapply nth_error_In; eassumption.
Qed.

Lemma layout_tag_values `{Externals} (space : ExecutionSpace) (v : View.t) :
  layout_tag space v = "LayoutRight" \/ layout_tag space v = "LayoutLeft".
Proof. unfold layout_tag. destruct (Layout_eqb _ LayoutRight); auto. Qed.

(** The entries of the layout map after the loop over the value
    parameters: those before it, and one of the two tags under the name of
    a value parameter bound to a view. *)
Lemma infer_other_args_layouts `{Externals} (param_list : list Param.t)
    (policy_params : Z) (args_list : list PyValue) (start_idx : Z)
    (space : ExecutionSpace) (u u' : UpdatedTypes.t) (k tag : string) :
  (0 <= policy_params)%Z ->
  infer_other_args param_list policy_params args_list start_idx space u = Ok u' ->
  In (k, tag) (UpdatedTypes.layout_change u') ->
  In (k, tag) (UpdatedTypes.layout_change u)
  \/ ((tag = "LayoutRight" \/ tag = "LayoutLeft")
      /\ exists i param w,
          (policy_params <= i)%Z
          /\ nth_error param_list (Z.to_nat i) = Some param
          /\ Param.name param = k
          /\ getitem args_list (start_idx + i - policy_params) = Ok (PyView w)).
Proof.
  intros Hpp Hrun. unfold infer_other_args in Hrun.
  set (hi := Z.of_nat (List.length param_list)) in *.
  pose (P := fun (done : list Z) (s : UpdatedTypes.t) =>
    In (k, tag) (UpdatedTypes.layout_change s) ->
    In (k, tag) (UpdatedTypes.layout_change u)
    \/ ((tag = "LayoutRight" \/ tag = "LayoutLeft")
        /\ exists i param w,
            (policy_params <= i)%Z
            /\ nth_error param_list (Z.to_nat i) = Some param
            /\ Param.name param = k
            /\ getitem args_list (start_idx + i - policy_params) = Ok (PyView w))).
  apply (for_each_invariant _ P (range policy_params hi)) with (s := u) (3 := Hrun).
  - intros done a rest s s' Hsplit HP Hbody Hk.
    assert (Ha : (policy_params <= a < hi)%Z).
    { apply in_range. rewrite Hsplit. apply in_elt. }
    destruct (getitem param_list a) as [e|pa] eqn:Hpa; [discriminate|].
    destruct (getitem args_list _) as [e|va] eqn:Hva; [discriminate|].
    cbn [bind] in Hbody. apply getitem_nth_error in Hpa; [|lia].
    apply infer_other_arg_maps in Hbody as [Hlayout _].
    rewrite Hlayout in Hk.
    destruct va as [| | | |w| | | | |]; cbn [isinstance_View] in Hk;
      try now apply HP.
    apply in_set in Hk as [[-> ->]|Hk]; [|now apply HP].
    right. split; [apply layout_tag_values|].
    exists a, pa, w. repeat split; (lia || assumption).
  - intros Hk. now left.
Qed.

(** Every entry of the returned layout map is [LayoutRight] or
    [LayoutLeft] under the name of a value parameter that a view is bound
    to: the policy-owned parameters never get one. *)
Theorem layout_entries `{Externals} (parallel_type : string)
    (handled_args : HandledArgs.t) (args : list PyValue)
    (passed_kwargs : Dict.t PyValue) (param_list : list Param.t)
    (u : UpdatedTypes.t) (k tag : string) :
  signature_parameters (HandledArgs.workunit handled_args) = Ok param_list ->
  get_annotations parallel_type handled_args args passed_kwargs = Ok (Some u) ->
  In (k, tag) (UpdatedTypes.layout_change u) ->
  (tag = "LayoutRight" \/ tag = "LayoutLeft")
  /\ exists i param w,
      (count_policy_params parallel_type (HandledArgs.policy handled_args) <= i)%Z
      /\ nth_error param_list (Z.to_nat i) = Some param
      /\ Param.name param = k
      /\ getitem
           (queue_kwargs param_list
              (count_policy_params parallel_type (HandledArgs.policy handled_args))
              args passed_kwargs)
           (value_index handled_args + i
            - count_policy_params parallel_type (HandledArgs.policy handled_args))
         = Ok (PyView w).
Proof.
  intros Hsig Hrun Hin.
  apply get_annotations_ok in Hrun as (pl & u0 & Hsig' & Hpolicy & Hcases).
  rewrite Hsig in Hsig'. injection Hsig' as <-.
  pose proof (count_policy_params_nonneg parallel_type
                (HandledArgs.policy handled_args)) as Hpp.
  apply infer_policy_args_frame in Hpolicy as [(_ & _ & Hlayout0 & _) _].
  cbn in Hlayout0.
  destruct Hcases as [[_ Hr]|(_ & _ & space & u1 & Hother & Hr)].
  - destruct (UpdatedTypes.inferred_types u0); [discriminate|].
    injection Hr as ->. rewrite Hlayout0 in Hin. contradiction.
  - assert (Hu : UpdatedTypes.layout_change u = UpdatedTypes.layout_change u1).
    { destruct (UpdatedTypes.inferred_types u1) eqn:Ht1,
        (UpdatedTypes.layout_change u1) eqn:Hl1;
        try discriminate; injection Hr as ->; cbn; assumption. }
    rewrite Hu in Hin.
    destruct (infer_other_args_layouts _ _ _ _ _ _ _ k tag Hpp Hother Hin)
      as [Hin0|Hnew]; [|exact Hnew].
    rewrite Hlayout0 in Hin0. contradiction.
Qed.

Lemma layout_entries_witness :
  exists u,
    get_annotations (H := example_externals) "parallel_for" example_call_declared
      [PyInt 10; example_workunit_declared] [("x", example_view LayoutDefault)]
    = Ok (Some u)
    /\ In ("x", "LayoutRight") (UpdatedTypes.layout_change u)
    /\ ("LayoutRight" = "LayoutRight" \/ "LayoutRight" = "LayoutLeft").
Proof.
  eexists. split; [vm_compute; reflexivity|].
  assert (Hin : In ("x", "LayoutRight")
                  (UpdatedTypes.layout_change
                     (UpdatedTypes.mk example_workunit_declared []
                        [Param.mk "i" (Some "int");
                         Param.mk "x" (Some "pk.View1D[pk.double]")]
                        [("x", "LayoutRight")] (Some "xR")))) by (now left).
  split; [exact Hin|].
  exact (proj1
    (@layout_entries example_externals "parallel_for" example_call_declared
       [PyInt 10; example_workunit_declared] [("x", example_view LayoutDefault)]
       _ _ "x" "LayoutRight" eq_refl eq_refl Hin)).
Defined.

(** A callback whose parameters all have a declared type gets no inferred
    type.  The call returns [None] when no view is among the extra
    arguments; with a view it still returns a result, with the signature
    made of the layout map alone. *)
Theorem all_declared `{Externals} (parallel_type : string)
    (handled_args : HandledArgs.t) (args : list PyValue)
    (passed_kwargs : Dict.t PyValue) (param_list : list Param.t)
    (r : option UpdatedTypes.t) :
  signature_parameters (HandledArgs.workunit handled_args) = Ok param_list ->
  (forall param, In param param_list -> Param.annotation param <> None) ->
  get_annotations parallel_type handled_args args passed_kwargs = Ok r ->
  (forall u,
      r = Some u ->
      UpdatedTypes.inferred_types u = []
      /\ UpdatedTypes.layout_change u <> []
      /\ UpdatedTypes.types_signature u
         = Some (compact (names_and_layouts (UpdatedTypes.layout_change u))))
  /\ ((forall v,
          In v (queue_kwargs param_list
                  (count_policy_params parallel_type (HandledArgs.policy handled_args))
                  args passed_kwargs) ->
          isinstance_View v = None) ->
      r = None).
Proof.
  intros Hsig Hdeclared Hrun.
  apply get_annotations_ok in Hrun as (pl & u0 & Hsig' & Hpolicy & Hcases).
  rewrite Hsig in Hsig'. injection Hsig' as <-.
  pose proof (count_policy_params_nonneg parallel_type
                (HandledArgs.policy handled_args)) as Hpp.
  assert (Htypes0 : UpdatedTypes.inferred_types u0 = []).
  { destruct (UpdatedTypes.inferred_types u0) as [|[k v] d] eqn:Ht; [reflexivity|].
    exfalso.
    destruct (infer_policy_args_keys _ _ _ _ _ _ k Hpolicy)
      as [[]|(i & param & _ & Hparam & Hann & _)].
    { rewrite Ht. now left. }
    apply (Hdeclared param); [eapply nth_error_In; eassumption | exact Hann]. }
  apply infer_policy_args_frame in Hpolicy as [(_ & _ & Hlayout0 & _) _].
  cbn in Hlayout0.
  destruct Hcases as [[_ Hr]|(_ & _ & space & u1 & Hother & Hr)].
  - rewrite Htypes0 in Hr. subst r. split; [discriminate | reflexivity].
  - assert (Htypes1 : UpdatedTypes.inferred_types u1 = []).
    { destruct (UpdatedTypes.inferred_types u1) as [|[k v] d] eqn:Ht; [reflexivity|].
      exfalso.
      destruct (infer_other_args_keys param_list _ Hpp _ _ _ _ _ k Hother)
        as [Hk0|(i & param & _ & Hparam & Hann & _)].
      { rewrite Ht. now left. }
      { rewrite Htypes0 in Hk0. contradiction. }
      apply (Hdeclared param); [eapply nth_error_In; eassumption | exact Hann]. }
    rewrite Htypes1 in Hr. split.
    + intros u Hu. rewrite Hu in Hr.
      destruct (UpdatedTypes.layout_change u1) as [|entry layouts] eqn:Hl1;
        [discriminate|].
      injection Hr as ->.
      cbn [UpdatedTypes.inferred_types UpdatedTypes.layout_change
             UpdatedTypes.types_signature UpdatedTypes.set_types_signature].
      rewrite Htypes1, Hl1.
      split; [reflexivity|]. split; [discriminate|].
      apply get_types_sig_of_layouts; [reflexivity | discriminate].
    + intros Hnoview.
      destruct (UpdatedTypes.layout_change u1) as [|[k tag] layouts] eqn:Hl1;
        [exact Hr|].
      exfalso.
      destruct (infer_other_args_layouts _ _ _ _ _ _ _ k tag Hpp Hother)
        as [Hin0|(_ & i & param & w & _ & _ & _ & Hvalue)].
      { rewrite Hl1. now left. }
      { rewrite Hlayout0 in Hin0. contradiction. }
      apply getitem_In in Hvalue. apply Hnoview in Hvalue. discriminate.
Qed.

Lemma all_declared_witness :
  exists u,
    get_annotations (H := example_externals) "parallel_for" example_call_declared
      [PyInt 10; example_workunit_declared] [("x", example_view LayoutDefault)]
    = Ok (Some u)
    /\ UpdatedTypes.inferred_types u = []
    /\ UpdatedTypes.layout_change u <> []
    /\ UpdatedTypes.types_signature u
       = Some (compact (names_and_layouts (UpdatedTypes.layout_change u))).
Proof.
  eexists. split; [vm_compute; reflexivity|].
  refine (proj1
    (@all_declared example_externals "parallel_for" example_call_declared
       [PyInt 10; example_workunit_declared] [("x", example_view LayoutDefault)]
       [Param.mk "i" (Some "int"); Param.mk "x" (Some "pk.View1D[pk.double]")]
       _ eq_refl _ eq_refl) _ eq_refl).
  intros param [<-|[<-|[]]]; discriminate.
Defined.

(** ** [IndexError] *)

Lemma getitem_out_of_bounds {A : Type} (l : list A) (i : Z) :
  (Z.of_nat (List.length l) <= i)%Z -> getitem l i = Raise IndexError.
Proof.
  intros Hi. unfold getitem. cbv zeta.
  replace (i <? 0)%Z with false by lia. replace (i <? 0)%Z with false by lia.
  assert (Hnone : nth_error l (Z.to_nat i) = None) by (apply nth_error_None; lia).
  now rewrite Hnone.
Qed.

Lemma infer_policy_arg_raise (policy_params : Z) (policy : PyValue)
    (parallel_type : string) (i : Z) (param : Param.t) (u : UpdatedTypes.t)
    (e : Exception) :
  infer_policy_arg policy_params policy parallel_type i param u = Raise e ->
  e = ValueError_policy_not_supported.
Proof.
  intros Hrun. destruct (supported_policy policy) as [p|] eqn:Hsup.
  - destruct (infer_policy_arg_supported policy_params policy p parallel_type
                i param u Hsup) as (u' & Hok & _).
    rewrite Hok in Hrun. discriminate.
  - rewrite infer_policy_arg_unsupported in Hrun by exact Hsup.
    destruct (Param.annotation param); [discriminate|]. now injection Hrun.
Qed.

Lemma infer_param_type_raise_kind `{Externals} (param : Param.t) (value : PyValue)
    (e : Exception) :
  infer_param_type param value = Raise e ->
  e = AttributeError "bit_length"
  \/ (exists param_type, e = TypeError_numpy_type_unsupported param_type)
  \/ e = TypeError_cannot_infer_datatype_for_view (Param.name param).
Proof.
  unfold infer_param_type, bit_length.
  destruct (type_name value =? "int"), (isinstance_int value),
    (type_module value =? "numpy"); cbn [bind Ok Raise];
    repeat match goal with
      | |- context [if ?b then _ else _] => destruct b; cbn [bind Ok Raise]
      end;
    destruct (isinstance_View value);
    try destruct (get_pk_datatype _) as [[|c s]|];
    intros Heq; try discriminate; injection Heq as <-; eauto.
Qed.

(** A loop raises [e] when its steps return on the good items, raise [e]
    on the others, and some item is not good. *)
Lemma for_each_bad_item {A S : Type} (body : A -> S -> result S)
    (good : A -> bool) (e : Exception) (l : list A) :
  (forall a s, In a l -> good a = true -> exists s', body a s = Ok s') ->
  (forall a s, In a l -> good a = false -> body a s = Raise e) ->
  (exists a, In a l /\ good a = false) ->
  forall s, for_each body l s = Raise e.
Proof.
  induction l as [|b l IH]; intros Hgood Hbad (a & Hin & Ha) s; [contradiction|].
  cbn [for_each]. destruct (good b) eqn:Hb.
  - destruct (Hgood b s) as [s' Hs']; [now left | exact Hb|].
    rewrite Hs'. cbn [bind Ok]. unfold Ok. cbn [bind].
    apply IH.
    + intros a' s0 Hin'. apply Hgood. now right.
    + intros a' s0 Hin'. apply Hbad. now right.
    + exists a. split; [|exact Ha]. destruct Hin as [->|Hin]; [congruence | exact Hin].
  - rewrite (Hbad b s); [reflexivity | now left | exact Hb].
Qed.

(** A call raises [IndexError] only when the callback has fewer
    parameters than the policy and the dispatch own, and under a policy
    the code knows it then always does: [parallel_reduce] with a callback
    of one parameter is an [IndexError]. *)
Theorem index_error_when_short `{Externals} (parallel_type : string)
    (handled_args : HandledArgs.t) (args : list PyValue)
    (passed_kwargs : Dict.t PyValue) (param_list : list Param.t) :
  signature_parameters (HandledArgs.workunit handled_args) = Ok param_list ->
  (get_annotations parallel_type handled_args args passed_kwargs = Raise IndexError ->
   (Z.of_nat (List.length param_list)
    < count_policy_params parallel_type (HandledArgs.policy handled_args))%Z)
  /\ (forall p,
         supported_policy (HandledArgs.policy handled_args) = Some p ->
         (Z.of_nat (List.length param_list)
          < count_policy_params parallel_type (HandledArgs.policy handled_args))%Z ->
         get_annotations parallel_type handled_args args passed_kwargs
         = Raise IndexError).
Proof.
  intros Hsig.
  set (policy_params :=
         count_policy_params parallel_type (HandledArgs.policy handled_args)).
  pose proof (count_policy_params_nonneg parallel_type
                (HandledArgs.policy handled_args)) as Hpp.
  fold policy_params in Hpp.
  assert (Hidx : (2 <= value_index handled_args)%Z).
  { unfold value_index. destruct (HandledArgs.name handled_args); lia. }
  split.
  - unfold get_annotations. rewrite Hsig. unfold Ok at 1. cbn [bind].
    fold policy_params.
    destruct (infer_policy_args _ _ _ _ _) as [e|u0] eqn:Hpolicy.
    + cbn [bind]. intros Heq. injection Heq as ->.
      unfold infer_policy_args in Hpolicy.
      apply for_each_raise_origin in Hpolicy as (a & s0 & Ha & Hbody).
      apply in_range in Ha.
      destruct (Z_lt_ge_dec a (Z.of_nat (List.length param_list))) as [Hlt|Hge];
        [|lia].
      exfalso. destruct (getitem_in_bounds param_list a) as [pa Hpa]; [lia|].
      rewrite Hpa in Hbody. cbn [bind Ok] in Hbody. unfold Ok in Hbody.
      cbn [bind] in Hbody. apply infer_policy_arg_raise in Hbody. discriminate.
    + cbn [bind].
      destruct (Z.of_nat (List.length param_list) =? policy_params)%Z.
      { destruct (Nat.eqb _ _); discriminate. }
      destruct (Z.eqb_spec
                  (Z.of_nat (List.length param_list) - policy_params)
                  (Z.of_nat
                     (List.length
                        (queue_kwargs param_list policy_params args passed_kwargs))
                   - value_index handled_args)) as [Hcount|Hcount];
        cbn [negb]; [|discriminate].
      destruct (getattr_space _) as [e|space] eqn:Hspace.
      { cbn [bind]. intros Heq. injection Heq as ->.
        unfold getattr_space in Hspace.
        destruct (HandledArgs.policy handled_args); discriminate. }
      cbn [bind].
      destruct (infer_other_args _ _ _ _ _ _) as [e|u1] eqn:Hother.
      * cbn [bind]. intros Heq. injection Heq as ->. exfalso.
        unfold infer_other_args in Hother.
        apply for_each_raise_origin in Hother as (a & s0 & Ha & Hbody).
        apply in_range in Ha.
        destruct (getitem_in_bounds param_list a) as [pa Hpa]; [lia|].
        destruct (getitem_in_bounds
                    (queue_kwargs param_list policy_params args passed_kwargs)
                    (value_index handled_args + a - policy_params))
          as [va Hva]; [lia|].
        rewrite Hpa, Hva in Hbody. unfold Ok in Hbody. cbn [bind] in Hbody.
        unfold infer_other_arg in Hbody.
        destruct (Param.annotation pa); [discriminate|].
        destruct (infer_param_type pa va) as [e|ty] eqn:Hty; [|discriminate].
        injection Hbody as ->.
        apply infer_param_type_raise_kind in Hty
          as [Hty|[[t Hty]|Hty]]; discriminate.
      * cbn [bind]. destruct (_ && _); discriminate.
  - intros p Hsup Hshort.
    unfold get_annotations. rewrite Hsig. unfold Ok at 1. cbn [bind].
    fold policy_params.
    assert (Hpolicy :
      infer_policy_args param_list policy_params (HandledArgs.policy handled_args)
        parallel_type
        (initial_updated_types (HandledArgs.workunit handled_args) param_list)
      = Raise IndexError).
    { unfold infer_policy_args.
      apply for_each_bad_item
        with (good := fun a => (a <? Z.of_nat (List.length param_list))%Z).
      - intros a s Ha Hgood. apply in_range in Ha.
        destruct (getitem_in_bounds param_list a) as [pa Hpa]; [lia|].
        rewrite Hpa. unfold Ok at 1. cbn [bind].
        destruct (infer_policy_arg_supported policy_params
                    (HandledArgs.policy handled_args) p parallel_type a pa s Hsup)
          as (s' & Hs' & _).
        now exists s'.
      - intros a s Ha Hbad.
        rewrite getitem_out_of_bounds by lia. reflexivity.
      - exists (Z.of_nat (List.length param_list)). split; [apply in_range|]; lia. }
    unfold initial_updated_types in Hpolicy. now rewrite Hpolicy.
Qed.

Lemma index_error_when_short_witness :
  (Z.of_nat (List.length [Param.mk "i" None])
   < count_policy_params "parallel_reduce" (HandledArgs.policy example_call_short))%Z
  /\ get_annotations (H := example_externals) "parallel_reduce" example_call_short
       [PyInt 10; example_workunit_i] []
     = Raise IndexError.
Proof.
  assert (Hshort : (Z.of_nat (List.length [Param.mk "i" None])
                    < count_policy_params "parallel_reduce"
                        (HandledArgs.policy example_call_short))%Z)
    by (vm_compute; reflexivity).
  split; [exact Hshort|].
  exact (proj2
    (@index_error_when_short example_externals "parallel_reduce"
       example_call_short [PyInt 10; example_workunit_i] []
       [Param.mk "i" None] eq_refl) _ eq_refl Hshort).
Defined.

(** ** The order of the type map *)

Lemma keys_set_fresh {V : Type} (d : Dict.t V) (k : string) (v : V) :
  ~ In k (Dict.keys d) -> Dict.keys (Dict.set d k v) = (Dict.keys d ++ [k])%list.
Proof.
  induction d as [|[k0 v0] d IH]; cbn; [reflexivity|].
  intros Hout. destruct (String.eqb_spec k0 k) as [->|Hne].
  - exfalso. apply Hout. now left.
  - cbn. f_equal. apply IH. intros Hin. apply Hout. now right.
Qed.

Lemma skipn_nth_error {A : Type} (l : list A) (n : nat) (x : A) :
  nth_error l n = Some x -> skipn n l = x :: skipn (S n) l.
Proof.
  revert l. induction n as [|n IH]; intros [|y l] Hn; try discriminate.
  - injection Hn as ->. reflexivity.
  - cbn [nth_error] in Hn. cbn [skipn]. exact (IH l Hn).
Qed.

Lemma params_at_seq (param_list : list Param.t) (n a : nat) :
  (a + n = List.length param_list)%nat ->
  params_at param_list (map Z.of_nat (seq a n)) = skipn a param_list.
Proof.
  revert a. induction n as [|n IH]; intros a Hlen.
  - cbn. symmetry. apply skipn_all2. lia.
  - cbn [seq map params_at flat_map]. rewrite Nat2Z.id.
    destruct (nth_error param_list a) as [x|] eqn:Hx.
    + rewrite (skipn_nth_error _ _ _ Hx). cbn [app]. f_equal.
      apply (IH (S a)). lia.
    + apply nth_error_None in Hx. lia.
Qed.

Lemma seq_from (a n : nat) : seq a n = map (Nat.add a) (seq 0 n).
Proof.
  revert a. induction n as [|n IH]; intros a; [reflexivity|].
  cbn [seq map]. rewrite Nat.add_0_r. f_equal.
  rewrite (IH (S a)), <- (seq_shift n 0), map_map.
  apply map_ext. intros k. lia.
Qed.

Lemma params_at_range (param_list : list Param.t) (policy_params : Z) :
  (0 <= policy_params)%Z ->
  params_at param_list (range policy_params (Z.of_nat (List.length param_list)))
  = value_params param_list policy_params.
Proof.
  intros Hpp. unfold value_params.
  destruct (Z_le_gt_dec policy_params (Z.of_nat (List.length param_list)))
    as [Hle|Hgt].
  - rewrite <- (params_at_seq param_list
                  (Z.to_nat (Z.of_nat (List.length param_list) - policy_params))
                  (Z.to_nat policy_params)) by lia.
    f_equal. unfold range.
    rewrite (seq_from (Z.to_nat policy_params)), map_map.
    apply map_ext. intros k. lia.
  - rewrite range_nil by lia. cbn. symmetry. apply skipn_all2. lia.
Qed.

Lemma in_params_at (param_list : list Param.t) (positions : list Z) (q : Param.t) :
  In q (params_at param_list positions)
  <-> exists i, In i positions /\ nth_error param_list (Z.to_nat i) = Some q.
Proof.
  unfold params_at. rewrite in_flat_map. split.
  - intros (i & Hi & Hq). exists i. split; [exact Hi|].
    destruct (nth_error param_list (Z.to_nat i)); [|contradiction].
    destruct Hq as [->|[]]. reflexivity.
  - intros (i & Hi & Hq). exists i. split; [exact Hi|]. rewrite Hq. now left.
Qed.

(** The type map grows in the order of the parameters: after the loop
    over the value parameters its keys are those it had, followed by the
    names of the value parameters without a declared type, as the callback
    declares them.  The signature is read off in this order. *)
Theorem inferred_types_order `{Externals} (param_list : list Param.t)
    (policy_params : Z) (args_list : list PyValue) (start_idx : Z)
    (space : ExecutionSpace) (u u' : UpdatedTypes.t) :
  (0 <= policy_params)%Z ->
  NoDup (map Param.name param_list) ->
  (forall param,
      In param (value_params param_list policy_params) ->
      ~ In (Param.name param) (Dict.keys (UpdatedTypes.inferred_types u))) ->
  infer_other_args param_list policy_params args_list start_idx space u = Ok u' ->
  Dict.keys (UpdatedTypes.inferred_types u')
  = (Dict.keys (UpdatedTypes.inferred_types u)
     ++ map Param.name (filter undeclared (value_params param_list policy_params)))%list.
Proof.
  intros Hpp Hnd Hfresh Hrun. unfold infer_other_args in Hrun.
  set (hi := Z.of_nat (List.length param_list)) in *.
  pose (P := fun (done : list Z) (s : UpdatedTypes.t) =>
    Dict.keys (UpdatedTypes.inferred_types s)
    = (Dict.keys (UpdatedTypes.inferred_types u)
       ++ map Param.name (filter undeclared (params_at param_list done)))%list).
  rewrite <- (params_at_range param_list policy_params Hpp). fold hi.
  apply (for_each_invariant _ P (range policy_params hi)) with (s := u) (3 := Hrun).
  - intros done a rest s s' Hsplit HP Hbody. unfold P in *.
    assert (Ha : (policy_params <= a < hi)%Z).
    { apply in_range. rewrite Hsplit. apply in_elt. }
    assert (Hfresh_a : ~ In a done).
    { pose proof (NoDup_range policy_params hi) as Hn. rewrite Hsplit in Hn.
      apply NoDup_remove_2 in Hn. intros Hd. apply Hn, in_or_app. now left. }
    destruct (getitem param_list a) as [e|pa] eqn:Hpa; [discriminate|].
    destruct (getitem args_list _) as [e|va]; [discriminate|].
    cbn [bind] in Hbody. apply getitem_nth_error in Hpa; [|lia].
    apply infer_other_arg_maps in Hbody as [_ Htypes].
    unfold params_at. rewrite flat_map_app. cbn [flat_map]. rewrite Hpa.
    rewrite app_nil_r, filter_app, map_app. fold (params_at param_list done).
    cbn [filter]. unfold undeclared at 2.
    destruct (Param.annotation pa) eqn:Hann.
    + rewrite Htypes, HP. cbn [map]. now rewrite app_nil_r.
    + destruct Htypes as (ty & _ & Htypes). rewrite Htypes.
      rewrite keys_set_fresh; [rewrite HP; cbn [map]; now rewrite <- app_assoc|].
      rewrite HP. intros Hin. apply in_app_or in Hin as [Hin|Hin].
      * apply (Hfresh pa); [|exact Hin].
        unfold value_params. apply nth_error_In with (n := (Z.to_nat a - Z.to_nat policy_params)%nat).
        rewrite nth_error_skipn. now replace (Z.to_nat policy_params + (Z.to_nat a - Z.to_nat policy_params))%nat with (Z.to_nat a) by lia.
      * apply in_map_iff in Hin as (q & Hname & Hq).
        apply filter_In in Hq as [Hq _].
        apply in_params_at in Hq as (i & Hi & Hq).
        assert (Z.to_nat i = Z.to_nat a) by (eapply distinct_names; eauto).
        assert (Hir : (policy_params <= i < hi)%Z).
        { apply in_range. rewrite Hsplit. apply in_or_app. now left. }
        apply Hfresh_a. replace a with i by lia. exact Hi.
  - unfold P. cbn. now rewrite app_nil_r.
Qed.

Lemma inferred_types_order_witness :
  Dict.keys
    (UpdatedTypes.inferred_types
       (UpdatedTypes.mk example_workunit_mixed
          [("i", "int"); ("y", "float"); ("x", "int")] [] [] None))
  = (Dict.keys [("i", "int")]
     ++ map Param.name
          (filter undeclared
             (value_params
                [Param.mk "i" None; Param.mk "y" None; Param.mk "v" (Some "View");
                 Param.mk "x" None] 1)))%list.
Proof.
  refine (@inferred_types_order example_externals
            [Param.mk "i" None; Param.mk "y" None; Param.mk "v" (Some "View");
             Param.mk "x" None] 1
            [PyInt 10; example_workunit_mixed; PyFloat 1.5; PyInt 7; PyInt 2] 2
            OpenMP
            (UpdatedTypes.mk example_workunit_mixed [("i", "int")] [] [] None)
            _ _ _ _ eq_refl).
  - lia.
  - distinct_strings.
  - intros param [<-|[<-|[<-|[]]]]; cbn; intuition discriminate.
Defined.

(** ** [kokkos_manager]: defaults, runtime and devices *)

(** After [set_default_space(s)] the default space is [s], unless the
    environment variable [DEBUG] is set to a non-empty string: then it is
    [Debug] whatever was stored.  The default precision and the output are
    left alone.  Every later call of [handle_args] that binds its arguments,
    of whatever shape, and whose policy is an integer [n], returns the range
    [0, n) on that space, the other fields as bound. *)
Theorem default_space_round_trip (s : ExecutionSpace) (p : km.Process) :
  fst (km.set_default_space (PyExecutionSpace s) p) = Ok tt
  /\ km.get_default_space (snd (km.set_default_space (PyExecutionSpace s) p))
     = match Dict.get (km.environ p) "DEBUG" with
       | Some (String _ _) => Debug
       | _ => s
       end
  /\ km.get_default_precision (snd (km.set_default_space (PyExecutionSpace s) p))
     = km.get_default_precision p
  /\ km.stdout (snd (km.set_default_space (PyExecutionSpace s) p)) = km.stdout p
  /\ forall is_for unpacked name policy workunit view initial_value n,
      bind_arguments is_for unpacked = Ok (name, policy, workunit, view, initial_value) ->
      isinstance_int policy = Some n ->
      handle_args (snd (km.set_default_space (PyExecutionSpace s) p)) is_for unpacked
      = Ok (HandledArgs.mk name
              (PyPolicy
                 (RangePolicy
                    match Dict.get (km.environ p) "DEBUG" with
                    | Some (String _ _) => Debug
                    | _ => s
                    end 0 n))
              workunit view initial_value).
Proof.
  split; [reflexivity|]. split; [reflexivity|]. split; [reflexivity|].
  split; [reflexivity|].
  intros is_for unpacked name policy workunit view initial_value n Hbound Hint.
  rewrite (handle_args_bound _ _ _ _ _ _ _ _ Hbound).
  now rewrite (normalize_policy_int _ _ _ Hint).
Qed.

Lemma default_space_round_trip_witness :
  handle_args
    (snd (km.set_default_space (PyExecutionSpace (OtherSpace "Cuda")) example_process))
    true [PyStr "loop"; PyBool true; example_workunit_n; example_view LayoutRight]
  = Ok (HandledArgs.mk (Some (PyStr "loop"))
          (PyPolicy (RangePolicy (OtherSpace "Cuda") 0 1))
          example_workunit_n (Some (example_view LayoutRight)) (PyInt 0)).
Proof.
  exact (proj2 (proj2 (proj2 (proj2
    (default_space_round_trip (OtherSpace "Cuda") example_process))))
    true [PyStr "loop"; PyBool true; example_workunit_n; example_view LayoutRight]
    (Some (PyStr "loop")) (PyBool true) example_workunit_n
    (Some (example_view LayoutRight)) (PyInt 0) 1%Z eq_refl eq_refl).
Defined.

(** After [set_default_precision(c)] with a class of data type the default
    precision is [c]; the default space is left alone. *)
Theorem default_precision_round_trip (c : Class.t) (p : km.Process) :
  Class.is_DataTypeClass c = true ->
  fst (km.set_default_precision (PyClass c) p) = Ok tt
  /\ km.get_default_precision (snd (km.set_default_precision (PyClass c) p))
     = PyClass c
  /\ km.get_default_space (snd (km.set_default_precision (PyClass c) p))
     = km.get_default_space p
  /\ km.stdout (snd (km.set_default_precision (PyClass c) p)) = km.stdout p.
Proof.
  intros Hc. unfold km.set_default_precision. cbn. rewrite Hc. cbn.
  repeat split.
Qed.

Lemma default_precision_round_trip_witness :
  Class.is_DataTypeClass (Class.mk "float" true) = true
  /\ km.get_default_precision
       (snd (km.set_default_precision (PyClass (Class.mk "float" true))
               example_process))
     = PyClass (Class.mk "float" true).
Proof.
  split; [reflexivity|].
  exact (proj1 (proj2
    (default_precision_round_trip (Class.mk "float" true) example_process eq_refl))).
Defined.

Lemma alternating_app (b : bool) (l l' : list kokkos_manager.ExternalCall) :
  kokkos_manager.alternating b (l ++ l')
  = match kokkos_manager.alternating b l with
    | Some initialized => kokkos_manager.alternating (negb initialized) l'
    | None => None
    end.
Proof.
  revert b. induction l as [|c l IH]; intros b; cbn.
  - now rewrite negb_involutive.
  - destruct c, b; cbn; try reflexivity; apply IH.
Qed.

(** [initialize] and [finalize] keep the calls into Kokkos well
    bracketed: [kokkos.initialize] and [kokkos.finalize] alternate,
    starting with [initialize], and [IS_INITIALIZED] tells which came last.
    Each of the two is idempotent. *)
Theorem initialize_finalize_bracketed (r : kokkos_manager.Runtime) :
  kokkos_manager.alternating true (kokkos_manager.calls r)
  = Some (km.IS_INITIALIZED (km.CONSTANTS (kokkos_manager.process r))) ->
  (kokkos_manager.alternating true
     (kokkos_manager.calls (kokkos_manager.initialize r)) = Some true
   /\ km.IS_INITIALIZED
        (km.CONSTANTS (kokkos_manager.process (kokkos_manager.initialize r))) = true)
  /\ (kokkos_manager.alternating true
        (kokkos_manager.calls (kokkos_manager.finalize r)) = Some false
      /\ km.IS_INITIALIZED
           (km.CONSTANTS (kokkos_manager.process (kokkos_manager.finalize r))) = false)
  /\ kokkos_manager.initialize (kokkos_manager.initialize r)
     = kokkos_manager.initialize r
  /\ kokkos_manager.finalize (kokkos_manager.finalize r)
     = kokkos_manager.finalize r.
Proof.
  intros Hok.
  unfold kokkos_manager.initialize, kokkos_manager.finalize.
  destruct (km.IS_INITIALIZED (km.CONSTANTS (kokkos_manager.process r))) eqn:Hflag;
    cbn [Bool.eqb]; cbn; rewrite ?Hflag; cbn; rewrite ?alternating_app, ?Hok; cbn;
    repeat split; try assumption; try reflexivity.
Qed.

Lemma initialize_finalize_bracketed_witness :
  kokkos_manager.alternating true
    (kokkos_manager.calls kokkos_manager.initial_runtime)
  = Some (km.IS_INITIALIZED
            (km.CONSTANTS (kokkos_manager.process kokkos_manager.initial_runtime)))
  /\ kokkos_manager.calls
       (kokkos_manager.initialize
          (kokkos_manager.initialize kokkos_manager.initial_runtime))
     = [kokkos_manager.kokkos_initialize].
Proof.
  split; [reflexivity|].
  rewrite (proj1 (proj2 (proj2
    (initialize_finalize_bracketed kokkos_manager.initial_runtime eq_refl)))).
  reflexivity.
Defined.

(** [set_device_id] rejects what is not an integer with a [TypeError] and
    an integer outside [0 .. NUM_GPUS) with a [RuntimeError], and leaves
    the runtime as it was; without GPUs every device is rejected. *)
Theorem set_device_id_rejects (device_id : PyValue) (r : kokkos_manager.Runtime) :
  (forall d,
      isinstance_int device_id = Some d ->
      (d < 0 \/ km.NUM_GPUS (km.CONSTANTS (kokkos_manager.process r)) <= d)%Z) ->
  kokkos_manager.set_device_id device_id r
  = (inl match isinstance_int device_id with
         | None => kokkos_manager.TypeError_device_id_must_be_int
         | Some d =>
             kokkos_manager.RuntimeError_device_does_not_exist d
               (km.NUM_GPUS (km.CONSTANTS (kokkos_manager.process r)))
         end,
     r).
Proof.
  intros Hbad. unfold kokkos_manager.set_device_id.
  destruct (isinstance_int device_id) as [d|]; [|reflexivity].
  specialize (Hbad d eq_refl). cbv zeta.
  replace ((d >=? km.NUM_GPUS (km.CONSTANTS (kokkos_manager.process r)))%Z
           || (d <? 0)%Z) with true; [reflexivity|].
  symmetry. apply orb_true_iff. lia.
Qed.

Lemma set_device_id_rejects_witness :
  kokkos_manager.set_device_id (PyInt 0) kokkos_manager.initial_runtime
  = (inl (kokkos_manager.RuntimeError_device_does_not_exist 0 0),
     kokkos_manager.initial_runtime).
Proof.
  apply (set_device_id_rejects (PyInt 0) kokkos_manager.initial_runtime).
  intros d Hd. injection Hd as <-. cbn. lia.
Defined.

(** With several devices and one module per device, [set_device_id(d)]
    for [d] in [0 .. NUM_GPUS) makes one call to [cupy], after which
    [get_device_id()] is [d] and the GPU module is the one at position [d];
    the CPU module stays [kokkos].  With a single device the call changes
    nothing. *)
Theorem set_device_id_selects (device_id : PyValue) (d : Z)
    (r : kokkos_manager.Runtime) :
  kokkos_manager.devices_consistent r ->
  isinstance_int device_id = Some d ->
  (0 <= d < km.NUM_GPUS (km.CONSTANTS (kokkos_manager.process r)))%Z ->
  exists r',
    kokkos_manager.set_device_id device_id r = (inr tt, r')
    /\ kokkos_manager.devices_consistent r'
    /\ kokkos_manager.get_kokkos_module true r' = kokkos_manager.kokkos
    /\ (km.NUM_GPUS (km.CONSTANTS (kokkos_manager.process r)) = 1%Z -> r' = r)
    /\ (km.NUM_GPUS (km.CONSTANTS (kokkos_manager.process r)) <> 1%Z ->
        kokkos_manager.get_device_id r' = d
        /\ nth_error (kokkos_manager.get_kokkos_gpu_modules r) (Z.to_nat d)
           = Some (kokkos_manager.get_kokkos_module false r')
        /\ kokkos_manager.calls r'
           = (kokkos_manager.calls r ++ [kokkos_manager.cupy_setDevice d])%list
        /\ kokkos_manager.get_num_gpus r' = kokkos_manager.get_num_gpus r).
Proof.
  intros Hcons Hint Hd. unfold kokkos_manager.set_device_id. rewrite Hint.
  cbv zeta.
  replace ((d >=? km.NUM_GPUS (km.CONSTANTS (kokkos_manager.process r)))%Z
           || (d <? 0)%Z) with false
    by (symmetry; apply orb_false_iff; lia).
  destruct (Z.eqb_spec (km.NUM_GPUS (km.CONSTANTS (kokkos_manager.process r))) 1)
    as [Hone|Hmany].
  - exists r. split; [reflexivity|]. split; [exact Hcons|].
    split; [reflexivity|]. split; [intros _; reflexivity|].
    intros Hne. contradiction.
  - unfold kokkos_manager.devices_consistent in Hcons.
    cbn [kokkos_manager.KOKKOS_GPU_MODULE_LIST kokkos_manager.with_process
           kokkos_manager.call].
    destruct (getitem_in_bounds (kokkos_manager.KOKKOS_GPU_MODULE_LIST r) d)
      as [gpu_lib Hlib]; [lia|].
    rewrite Hlib. apply getitem_nth_error in Hlib; [|lia].
    eexists. split; [reflexivity|].
    split; [exact Hcons|]. split; [reflexivity|].
    split; [intros Hone; contradiction|]. intros _.
    repeat split. exact Hlib.
Qed.

Lemma set_device_id_selects_witness :
  kokkos_manager.devices_consistent example_runtime_two_gpus
  /\ exists r',
      kokkos_manager.set_device_id (PyInt 1) example_runtime_two_gpus = (inr tt, r')
      /\ kokkos_manager.get_device_id r' = 1%Z
      /\ kokkos_manager.get_kokkos_module false r' = kokkos_manager.gpu 1.
Proof.
  assert (Hcons : kokkos_manager.devices_consistent example_runtime_two_gpus)
    by reflexivity.
  split; [exact Hcons|].
  destruct (set_device_id_selects (PyInt 1) 1 example_runtime_two_gpus Hcons eq_refl)
    as (r' & Hrun & _ & _ & _ & Hmany); [cbn; lia|].
  exists r'. split; [exact Hrun|].
  destruct Hmany as (Hid & Hmodule & _); [cbn; discriminate|].
  split; [exact Hid|].
  cbn in Hmodule. now injection Hmodule.
Defined.

(** ** More on [get_annotations] *)

(** When every parameter of the callback is policy-owned, the extra
    arguments are not looked at: none is counted, none is inspected, and a
    call with surplus arguments returns like the call without them. *)
Theorem policy_only_ignores_arguments `{Externals} (parallel_type : string)
    (handled_args : HandledArgs.t) (args : list PyValue)
    (passed_kwargs : Dict.t PyValue) (param_list : list Param.t) :
  signature_parameters (HandledArgs.workunit handled_args) = Ok param_list ->
  Z.of_nat (List.length param_list)
  = count_policy_params parallel_type (HandledArgs.policy handled_args) ->
  get_annotations parallel_type handled_args args passed_kwargs
  = get_annotations parallel_type handled_args [] [].
Proof.
  intros Hsig Hlen. unfold get_annotations. rewrite Hsig. unfold Ok.
  cbn [bind].
  destruct (infer_policy_args _ _ _ _ _) as [e|u0]; [reflexivity|].
  cbn [bind]. apply Z.eqb_eq in Hlen. now rewrite Hlen.
Qed.

Lemma policy_only_ignores_arguments_witness :
  get_annotations (H := example_externals) "parallel_for" example_call_i
    [PyInt 10; example_workunit_i; PyInt 1; PyStr "surplus"] [("z", PyInt 3)]
  = get_annotations (H := example_externals) "parallel_for" example_call_i [] [].
Proof.
  exact (@policy_only_ignores_arguments example_externals "parallel_for"
           example_call_i [PyInt 10; example_workunit_i; PyInt 1; PyStr "surplus"]
           [("z", PyInt 3)] [Param.mk "i" None] eq_refl eq_refl).
Defined.

Lemma for_each_ext_in {A S : Type} (body1 body2 : A -> S -> result S) (l : list A) :
  (forall a s, In a l -> body1 a s = body2 a s) ->
  forall s, for_each body1 l s = for_each body2 l s.
Proof.
  induction l as [|a l IH]; intros Hext s; [reflexivity|].
  cbn [for_each]. rewrite (Hext a s) by now left.
  destruct (body2 a s) as [e|s']; [reflexivity|]. cbn [bind].
  apply IH. intros a' s0 Hin. apply Hext. now right.
Qed.

Lemma getitem_cons {A : Type} (x : A) (l : list A) (j : Z) :
  (0 <= j)%Z -> getitem (x :: l) (j + 1) = getitem l j.
Proof.
  intros Hj. unfold getitem. cbv zeta.
  replace (j + 1 <? 0)%Z with false by lia. replace (j <? 0)%Z with false by lia.
  replace (j + 1 <? 0)%Z with false by lia. replace (j <? 0)%Z with false by lia.
  replace (Z.to_nat (j + 1)) with (S (Z.to_nat j)) by lia. reflexivity.
Qed.

(** The label does not enter the inference: a labelled call, whose
    argument list has one more element in front, returns what the same call
    without the label returns. *)
Theorem inference_ignores_label `{Externals} (parallel_type : string)
    (handled_args : HandledArgs.t) (label first : PyValue) (args : list PyValue)
    (passed_kwargs : Dict.t PyValue) :
  get_annotations parallel_type (with_name (Some label) handled_args)
    (first :: args) passed_kwargs
  = get_annotations parallel_type (with_name None handled_args) args passed_kwargs.
Proof.
  unfold get_annotations.
  cbn [with_name HandledArgs.workunit HandledArgs.policy].
  destruct (signature_parameters _) as [e|param_list]; [reflexivity|].
  cbn [bind].
  set (policy_params :=
         count_policy_params parallel_type (HandledArgs.policy handled_args)).
  pose proof (count_policy_params_nonneg parallel_type
                (HandledArgs.policy handled_args)) as Hpp.
  fold policy_params in Hpp.
  destruct (infer_policy_args _ _ _ _ _) as [e|u0]; [reflexivity|].
  cbn [bind].
  destruct (Z.of_nat (List.length param_list) =? policy_params)%Z; [reflexivity|].
  assert (Hqueue :
    queue_kwargs param_list policy_params (first :: args) passed_kwargs
    = first :: queue_kwargs param_list policy_params args passed_kwargs).
  { now rewrite !queue_kwargs_flat_map. }
  rewrite Hqueue. cbn [List.length]. unfold value_index.
  cbn [HandledArgs.name with_name].
  replace (Z.of_nat
             (S (List.length
                   (queue_kwargs param_list policy_params args passed_kwargs))) - 3)%Z
    with (Z.of_nat
            (List.length (queue_kwargs param_list policy_params args passed_kwargs))
          - 2)%Z by lia.
  destruct (negb _); [reflexivity|].
  destruct (getattr_space _) as [e|space]; [reflexivity|].
  cbn [bind].
  assert (Hloop :
    infer_other_args param_list policy_params
      (first :: queue_kwargs param_list policy_params args passed_kwargs) 3 space u0
    = infer_other_args param_list policy_params
        (queue_kwargs param_list policy_params args passed_kwargs) 2 space u0).
  { unfold infer_other_args. apply for_each_ext_in.
    intros a s Ha. apply in_range in Ha.
    replace (3 + a - policy_params)%Z with (2 + a - policy_params + 1)%Z by lia.
    now rewrite getitem_cons by lia. }
  now rewrite Hloop.
Qed.

(** With the number of policy-owned parameters that [get_annotations]
    counts, the accumulator and the final-pass flag never fall on an index
    or team parameter: every such parameter without a declared type ends up
    with the role its policy gives it. *)
Theorem index_roles_kept (param_list : list Param.t) (parallel_type : string)
    (p : ExecutionPolicy) (u : UpdatedTypes.t) :
  supported_policy (PyPolicy p) = Some p ->
  (count_policy_params parallel_type (PyPolicy p)
   <= Z.of_nat (List.length param_list))%Z ->
  NoDup (map Param.name param_list) ->
  exists u',
    infer_policy_args param_list (count_policy_params parallel_type (PyPolicy p))
      (PyPolicy p) parallel_type u = Ok u'
    /\ forall i param role,
        (0 <= i)%Z ->
        nth_error param_list (Z.to_nat i) = Some param ->
        Param.annotation param = None ->
        spec_policy_role p i = Some role ->
        Dict.get (UpdatedTypes.inferred_types u') (Param.name param) = Some role.
Proof.
  intros Hsup Hlen Hnd.
  destruct (infer_policy_args_supported param_list _ (PyPolicy p) p parallel_type
              u Hlen Hnd Hsup) as (u' & Hrun & _ & Hroles & _).
  exists u'. split; [exact Hrun|].
  intros i param role Hi Hparam Hann Hrole.
  assert (Harity : (i < count_policy_params parallel_type (PyPolicy p)
                        - (if String.eqb parallel_type "parallel_reduce" then 1 else 0)
                        - (if String.eqb parallel_type "parallel_scan" then 2 else 0))%Z).
  { unfold count_policy_params, spec_policy_role in *.
    destruct p as [s b e|s b e|s|s|c s];
      try (destruct (Z.eqb_spec i 0); [|discriminate]);
      try (destruct (Z.ltb_spec i (Z.of_nat (List.length b))); [|discriminate]);
      try discriminate;
      destruct (parallel_type =? "parallel_reduce"),
        (parallel_type =? "parallel_scan"); lia. }
  rewrite (Hroles i param); [|destruct (parallel_type =? "parallel_reduce"),
                                (parallel_type =? "parallel_scan"); lia
                            | exact Hparam].
  unfold spec_policy_entry, spec_role. rewrite Hann.
  destruct (String.eqb_spec parallel_type "parallel_reduce") as [Hr|Hr],
    (String.eqb_spec parallel_type "parallel_scan") as [Hs|Hs];
    try (exfalso; congruence); cbn [andb orb].
  - replace (i =? _ - 1)%Z with false by lia. now rewrite Hrole.
  - replace (i =? _ - 1)%Z with false by lia.
    replace (i =? _ - 2)%Z with false by lia. now rewrite Hrole.
  - now rewrite Hrole.
Qed.

Lemma index_roles_kept_witness :
  exists u',
    infer_policy_args
      [Param.mk "i" None; Param.mk "j" None; Param.mk "acc" None]
      (count_policy_params "parallel_reduce"
         (PyPolicy (MDRangePolicy OpenMP [0%Z; 0%Z] [4%Z; 4%Z])))
      (PyPolicy (MDRangePolicy OpenMP [0%Z; 0%Z] [4%Z; 4%Z])) "parallel_reduce"
      (initial_updated_types example_workunit_reduce [])
    = Ok u'
    /\ Dict.get (UpdatedTypes.inferred_types u') "j" = Some "int".
Proof.
  destruct (index_roles_kept
              [Param.mk "i" None; Param.mk "j" None; Param.mk "acc" None]
              "parallel_reduce" (MDRangePolicy OpenMP [0%Z; 0%Z] [4%Z; 4%Z])
              (initial_updated_types example_workunit_reduce []) eq_refl)
    as (u' & Hrun & Hroles).
  - cbn. lia.
  - distinct_strings.
  - exists u'. split; [exact Hrun|].
    apply (Hroles 1%Z (Param.mk "j" None) "int"); [lia | reflexivity..].
Defined.
